(** * Traffic_Data: continuous recording, compression and OneDrive upload

    A shallow embedding of [Video_Uploading.py] (class [VideoRecorder]) and
    of the upload routine of [Decompression.py], with the properties of the
    segment pipeline proved over it.

    Conventions of the embedding:
    - Python code with effects is a computation in the monad [M]: a function
      from a [World] to a [Result] and the next [World].  A [World] holds
      the set of files that exist, the log of everything the program did to
      the outside (prints, writer, camera, subprocess, HTTP, threads
      started), and the answers the environment will give (clock readings,
      local times, camera frames, keys, exit codes, HTTP outcomes).
    - Python exceptions are the [Raise] result; [try_except] and [finally]
      are the two statements of the source.
    - [threading.Thread(target=f, daemon=True).start()] logs the start of
      a [task] and returns; [thread_body] is the target the thread runs.
    - Numbers returned by [time.monotonic] and the values derived from them
      are kept abstract (class [PyNum]): every statement holds for whichever
      arithmetic interprets [-], [+], [<] and [1 / x].
    - [os.path] is the POSIX flavour ([posixpath]). *)

From Stdlib Require Import ZArith QArith String Ascii List DecimalString Lia.
From Stdlib Require Import DecimalNat DecimalFacts.
From stdpp Require Import base gmap strings list.

Open Scope string_scope.
Open Scope Z_scope.
Open Scope list_scope.

(** ** Python strings: find, slices *)

Module PyStr.

(** [s.rfind(c)] for a one-character [c]: the highest index, or -1. *)
Fixpoint rfind_from (c : ascii) (s : string) (i : Z) (last : Z) : Z :=
  match s with
  | EmptyString => last
  | String a r => rfind_from c r (i + 1) (if Ascii.eqb a c then i else last)
  end.

Definition rfind (c : ascii) (s : string) : Z := rfind_from c s 0 (-1).

Fixpoint drop (n : nat) (s : string) : string :=
  match n, s with
  | O, _ => s
  | S _, EmptyString => EmptyString
  | S m, String _ r => drop m r
  end.

Fixpoint take (n : nat) (s : string) : string :=
  match n, s with
  | O, _ => EmptyString
  | S _, EmptyString => EmptyString
  | S m, String a r => String a (take m r)
  end.

(** A slice bound as Python clamps it: negative bounds count from the end. *)
Definition bound (s : string) (i : Z) : nat :=
  let len := Z.of_nat (String.length s) in
  Z.to_nat (if i <? 0 then Z.max 0 (len + i) else Z.min i len).

(** [s[i:]] and [s[:i]]. *)
Definition slice_from (i : Z) (s : string) : string := drop (bound s i) s.
Definition slice_to (i : Z) (s : string) : string := take (bound s i) s.

(** [s[i:i+1]] for [0 <= i]: the character at [i] as a string, or [""]. *)
Definition char_at (i : Z) (s : string) : string :=
  match String.get (Z.to_nat i) s with
  | Some a => String a EmptyString
  | None => EmptyString
  end.

Definition startswith (s : string) (c : ascii) : bool :=
  match s with
  | String a _ => Ascii.eqb a c
  | EmptyString => false
  end.

Fixpoint endswith (s : string) (c : ascii) : bool :=
  match s with
  | EmptyString => false
  | String a EmptyString => Ascii.eqb a c
  | String _ r => endswith r c
  end.

Fixpoint contains (c : ascii) (s : string) : bool :=
  match s with
  | EmptyString => false
  | String a r => Ascii.eqb a c || contains c r
  end.

End PyStr.

(** ** [os.path] (posixpath) *)

Module OsPath.
Import PyStr.

Definition sep : ascii := "/".
Definition extsep : ascii := ".".

(** [posixpath.basename]: [i = p.rfind(sep) + 1; return p[i:]]. *)
Definition basename (p : string) : string :=
  let i := rfind sep p + 1 in
  slice_from i p.

(** The loop of [genericpath._splitext] that skips leading dots: [true]
    when a character other than the dot stands in
    [p[filenameIndex:dotIndex]]. *)
Fixpoint has_stem (fuel : nat) (p : string) (filenameIndex dotIndex : Z) : bool :=
  match fuel with
  | O => false
  | S n =>
      if filenameIndex <? dotIndex then
        if negb (String.eqb (char_at filenameIndex p) (String extsep EmptyString))
        then true
        else has_stem n p (filenameIndex + 1) dotIndex
      else false
  end.

(** [posixpath.splitext]. *)
Definition splitext (p : string) : string * string :=
  let sepIndex := rfind sep p in
  let dotIndex := rfind extsep p in
  if (dotIndex >? sepIndex)
     && has_stem (Z.to_nat (dotIndex - sepIndex)) p (sepIndex + 1) dotIndex
  then (slice_to dotIndex p, slice_from dotIndex p)
  else (p, slice_to 0 p).

(** [posixpath.join(a, b)] with one component [b]. *)
Definition join (a b : string) : string :=
  if startswith b sep then b
  else if String.eqb a EmptyString || endswith a sep then a +:+ b
  else a +:+ String sep EmptyString +:+ b.

End OsPath.

(** ** [time.strftime("%Y-%m-%d_%H-%M-%S")] *)

(** [time.struct_time], as [time.localtime()] gives it: whole seconds. *)
Record struct_time := {
  tm_year : nat; tm_mon : nat; tm_mday : nat;
  tm_hour : nat; tm_min : nat; tm_sec : nat
}.

Definition decimal (n : nat) : string := NilZero.string_of_uint (Nat.to_uint n).

(** Two digits, zero padded, as [%m], [%d], [%H], [%M], [%S]. *)
Definition pad2 (n : nat) : string :=
  if (n <? 10)%nat then "0" +:+ decimal n else decimal n.

Definition strftime_stamp (t : struct_time) : string :=
  decimal (tm_year t) +:+ "-" +:+ pad2 (tm_mon t) +:+ "-" +:+ pad2 (tm_mday t)
  +:+ "_" +:+ pad2 (tm_hour t) +:+ "-" +:+ pad2 (tm_min t) +:+ "-" +:+ pad2 (tm_sec t).


(** ** Numbers *)

(** The arithmetic of the values [time.monotonic()] returns and of
    [segment_duration] and [fps].  [nrecip x] is [1 / x]; [None] stands for
    [ZeroDivisionError]. *)
Class PyNum (T : Type) := {
  nzero : T;
  nadd : T -> T -> T;
  nsub : T -> T -> T;
  nlt : T -> T -> bool;
  nrecip : T -> option T
}.

(** Exact rationals, the interpretation used for the worked examples. *)
#[export] Instance Q_PyNum : PyNum Q := {
  nzero := 0%Q;
  nadd := Qplus;
  nsub := Qminus;
  nlt := fun a b => negb (Qle_bool b a);
  nrecip := fun x => if Qeq_bool x 0 then None else Some (1 / x)%Q
}.

(** ** Exceptions, messages, events *)

Inductive exn :=
| CalledProcessError (returncode : Z)
| FileNotFoundError (path : string)
| ZeroDivisionError
| RequestException
| JSONDecodeError.

(** One constructor per [print] statement of the two source files. *)
Inductive message :=
| MsgStarted (output_directory : string)
| MsgRecording (video_filename : string)
| MsgCaptureFailed
| MsgStopping
| MsgVideoSaved (video_filename : string)
| MsgProcessing
| MsgCompressed (compressed_file : string)
| MsgCompressError (e : exn)
| MsgUploaded (video_filename : string)
| MsgUploadError (status_code : Z)
| MsgJson (body : string)
| MsgUploadException (e : exn)
| MsgOdUploading (file_name : string)
| MsgOdSuccessful
| MsgOdFailed (body : string)
| MsgOdError (e : exn).

(** The targets of the two [threading.Thread] calls, with what each closure
    captures. *)
Inductive task :=
| TProcess (video_filename : string)
| TUpload (video_filename : string).

Inductive event (T : Type) :=
| Print (m : message)
| VideoWriterOpen (path fourcc : string) (fps : T) (frame_size : Z * Z)
| WriterWrite (path : string) (frame : nat)
| WriterRelease (path : string)
| Imshow (frame : nat)
| Sleep (seconds : T)
| CapRelease
| DestroyAllWindows
| SubprocessRun (command : list string)
| OsRemove (path : string)
| HttpPut (url : string) (headers : list (string * string)) (data : string)
| ThreadStart (t : task).

Arguments Print {T} m.
Arguments VideoWriterOpen {T} path fourcc fps frame_size.
Arguments WriterWrite {T} path frame.
Arguments WriterRelease {T} path.
Arguments Imshow {T} frame.
Arguments Sleep {T} seconds.
Arguments CapRelease {T}.
Arguments DestroyAllWindows {T}.
Arguments SubprocessRun {T} command.
Arguments OsRemove {T} path.
Arguments HttpPut {T} url headers data.
Arguments ThreadStart {T} t.

(** ** The environment and the world *)

(** What [subprocess.run] observes of a child that was started: its return
    code, and the files it created. *)
Record completed_process := {
  returncode : Z;
  written : list string
}.

(** [requests.Response]: [json_body] is [None] when [response.json()]
    raises. *)
Record response := {
  status_code : Z;
  json_body : option string
}.

Inductive http_answer :=
| PutRaises
| PutReturns (r : response).

(** The answers of the outside, one stream per source of input, indexed by
    the number of the call.  [starts n] says whether the program of the
    [n]-th call of [subprocess.run] can be started; [procs n] is what the
    child does when it runs. *)
Record Env (T : Type) := {
  clock : nat -> T;
  wall : nat -> struct_time;
  cam : nat -> bool * nat;
  keys : nat -> Z;
  procs : nat -> completed_process;
  starts : nat -> bool;
  http : nat -> http_answer
}.

Arguments clock {T} _ _.
Arguments wall {T} _ _.
Arguments cam {T} _ _.
Arguments keys {T} _ _.
Arguments procs {T} _ _.
Arguments starts {T} _ _.
Arguments http {T} _ _.

(** How many answers of each stream were consumed. *)
Record Cursors := {
  n_clock : nat; n_wall : nat; n_cam : nat;
  n_key : nat; n_proc : nat; n_http : nat
}.

Record World (T : Type) := {
  env : Env T;
  cur : Cursors;
  fs : gset string;
  log : list (event T)
}.

Arguments env {T} _.
Arguments cur {T} _.
Arguments fs {T} _.
Arguments log {T} _.

Inductive Result (A : Type) :=
| Ret (a : A)
| Raise (e : exn)
| OutOfFuel.

Arguments Ret {A} a.
Arguments Raise {A} e.
Arguments OutOfFuel {A}.

(** The threads started so far, in the order of their start. *)
Definition threads {T} (w : World T) : list task :=
  omap (fun e => match e with ThreadStart t => Some t | _ => None end) (log w).

(** The durations slept so far. *)
Definition sleeps {T} (l : list (event T)) : list T :=
  omap (fun e => match e with Sleep d => Some d | _ => None end) l.

Definition M (T A : Type) : Type := World T -> Result A * World T.

Section Monad.
Context {T : Type}.

Definition ret {A} (a : A) : M T A := fun w => (Ret a, w).

Definition bind {A B} (m : M T A) (k : A -> M T B) : M T B :=
  fun w =>
    match m w with
    | (Ret a, w') => k a w'
    | (Raise e, w') => (Raise e, w')
    | (OutOfFuel, w') => (OutOfFuel, w')
    end.

Definition raise {A} (e : exn) : M T A := fun w => (Raise e, w).
Definition out_of_fuel {A} : M T A := fun w => (OutOfFuel, w).

(** [try: m  except <clause>: handler]; the clause is the domain of
    [handler]. *)
Definition try_except {A} (m : M T A) (handler : exn -> option (M T A)) : M T A :=
  fun w =>
    match m w with
    | (Raise e, w') =>
        match handler e with
        | Some h => h w'
        | None => (Raise e, w')
        end
    | r => r
    end.

(** [try: m  finally: cleanup]: [cleanup] runs however [m] ends (normally,
    by [return] or by an exception), and the outcome of [m] stands unless
    [cleanup] raises. *)
Definition finally {A} (m : M T A) (cleanup : M T unit) : M T A :=
  fun w =>
    match m w with
    | (OutOfFuel, w') => (OutOfFuel, w')
    | (r, w') =>
        match cleanup w' with
        | (Ret _, w'') => (r, w'')
        | (Raise e, w'') => (Raise e, w'')
        | (OutOfFuel, w'') => (OutOfFuel, w'')
        end
    end.

End Monad.

Notation "x <- m ;; k" := (bind m (fun x => k))
  (at level 100, m at next level, right associativity, only parsing).
Notation "m ;; k" := (bind m (fun _ => k))
  (at level 100, right associativity, only parsing).

(** ** Primitives: what the program asks of the outside *)

Definition tick_clock (c : Cursors) : Cursors :=
  {| n_clock := S (n_clock c); n_wall := n_wall c; n_cam := n_cam c;
     n_key := n_key c; n_proc := n_proc c; n_http := n_http c |}.
Definition tick_wall (c : Cursors) : Cursors :=
  {| n_clock := n_clock c; n_wall := S (n_wall c); n_cam := n_cam c;
     n_key := n_key c; n_proc := n_proc c; n_http := n_http c |}.
Definition tick_cam (c : Cursors) : Cursors :=
  {| n_clock := n_clock c; n_wall := n_wall c; n_cam := S (n_cam c);
     n_key := n_key c; n_proc := n_proc c; n_http := n_http c |}.
Definition tick_key (c : Cursors) : Cursors :=
  {| n_clock := n_clock c; n_wall := n_wall c; n_cam := n_cam c;
     n_key := S (n_key c); n_proc := n_proc c; n_http := n_http c |}.
Definition tick_proc (c : Cursors) : Cursors :=
  {| n_clock := n_clock c; n_wall := n_wall c; n_cam := n_cam c;
     n_key := n_key c; n_proc := S (n_proc c); n_http := n_http c |}.
Definition tick_http (c : Cursors) : Cursors :=
  {| n_clock := n_clock c; n_wall := n_wall c; n_cam := n_cam c;
     n_key := n_key c; n_proc := n_proc c; n_http := S (n_http c) |}.

Section Primitives.
Context {T : Type} `{PyNum T}.

Definition set_cur (c : Cursors) (w : World T) : World T :=
  {| env := env w; cur := c; fs := fs w; log := log w |}.
Definition set_fs (s : gset string) (w : World T) : World T :=
  {| env := env w; cur := cur w; fs := s; log := log w |}.
Definition emit (e : event T) (w : World T) : World T :=
  {| env := env w; cur := cur w; fs := fs w; log := log w ++ [e] |}.

Definition act (e : event T) : M T unit := fun w => (Ret tt, emit e w).

Definition print (m : message) : M T unit := act (Print m).

(** [time.monotonic()] *)
Definition time_monotonic : M T T :=
  fun w => (Ret (clock (env w) (n_clock (cur w))), set_cur (tick_clock (cur w)) w).

(** [time.strftime("%Y-%m-%d_%H-%M-%S")]: the local time, formatted. *)
Definition time_strftime : M T string :=
  fun w => (Ret (strftime_stamp (wall (env w) (n_wall (cur w)))),
            set_cur (tick_wall (cur w)) w).

(** [time.sleep(seconds)] *)
Definition time_sleep (seconds : T) : M T unit := act (Sleep seconds).

(** [self.cap.read()]: the pair [(ret, frame)]. *)
Definition cap_read : M T (bool * nat) :=
  fun w => (Ret (cam (env w) (n_cam (cur w))), set_cur (tick_cam (cur w)) w).

(** [cv2.waitKey(1)] *)
Definition wait_key : M T Z :=
  fun w => (Ret (keys (env w) (n_key (cur w))), set_cur (tick_key (cur w)) w).

(** [cv2.VideoWriter(path, fourcc, fps, frame_size)]: the writer's file
    comes to exist. *)
Definition video_writer (path fourcc : string) (fps : T) (frame_size : Z * Z) :
    M T unit :=
  fun w => (Ret tt, set_fs ({[ path ]} ∪ fs w)
                      (emit (VideoWriterOpen path fourcc fps frame_size) w)).

Definition writer_write (path : string) (frame : nat) : M T unit := act (WriterWrite path frame).
Definition writer_release (path : string) : M T unit := act (WriterRelease path).
Definition imshow (frame : nat) : M T unit := act (Imshow frame).
Definition cap_release : M T unit := act CapRelease.
Definition destroy_all_windows : M T unit := act DestroyAllWindows.

(** [subprocess.run(command, check=True)].  [starts] says whether the
    program named by the head of [command] can be started at all: when it
    cannot (it is not installed, or not executable), [Popen] raises
    [FileNotFoundError] with the program's name and no child runs.
    Otherwise the child runs, and [CalledProcessError] is raised when its
    return code is not zero. *)
Definition subprocess_run_check (command : list string) : M T unit :=
  fun w =>
    let w0 := set_cur (tick_proc (cur w)) (emit (SubprocessRun command) w) in
    if starts (env w) (n_proc (cur w)) then
      let p := procs (env w) (n_proc (cur w)) in
      let w' := set_fs (list_to_set (written p) ∪ fs w) w0 in
      if returncode p =? 0 then (Ret tt, w')
      else (Raise (CalledProcessError (returncode p)), w')
    else (Raise (FileNotFoundError (hd "" command)), w0).

(** [os.remove(path)] *)
Definition os_remove (path : string) : M T unit :=
  fun w =>
    if decide (path ∈ fs w)
    then (Ret tt, set_fs (fs w ∖ {[ path ]}) (emit (OsRemove path) w))
    else (Raise (FileNotFoundError path), w).

(** [open(path, "rb")] *)
Definition open_rb (path : string) : M T unit :=
  fun w =>
    if decide (path ∈ fs w) then (Ret tt, w)
    else (Raise (FileNotFoundError path), w).

(** [requests.put(url, headers=headers, data=file)] *)
Definition requests_put (url : string) (headers : list (string * string))
    (data : string) : M T response :=
  fun w =>
    let w' := set_cur (tick_http (cur w)) (emit (HttpPut url headers data) w) in
    match http (env w) (n_http (cur w)) with
    | PutRaises => (Raise RequestException, w')
    | PutReturns r => (Ret r, w')
    end.

(** [response.json()] *)
Definition response_json (r : response) : M T string :=
  match json_body r with
  | Some b => ret b
  | None => raise JSONDecodeError
  end.

(** [threading.Thread(target=..., daemon=True).start()] *)
Definition thread_start (t : task) : M T unit := act (ThreadStart t).

End Primitives.

(** ** [Video_Uploading.py]: class [VideoRecorder] *)

Record VideoRecorder (T : Type) := {
  output_directory : string;
  folder_id : string;
  access_token : string;
  segment_duration : T;
  fps : T
}.

Arguments output_directory {T} _.
Arguments folder_id {T} _.
Arguments access_token {T} _.
Arguments segment_duration {T} _.
Arguments fps {T} _.

(** [self.fourcc], which [__init__] sets to the four-character code of
    [mp4v]. *)
Definition fourcc : string := "mp4v".

(** How the frame loop of one segment was left: the [while] ended (its
    condition failed, or [break]), or the function returned. *)
Inductive loop_exit := LoopEnd | LoopReturn.

Definition graph_url (folder_id file_name : string) : string :=
  "https://graph.microsoft.com/v1.0/me/drive/items/" +:+ folder_id +:+ ":/"
  +:+ file_name +:+ ":/content".

Section VideoRecorder.
Context {T : Type} `{PyNum T}.
Implicit Types self : VideoRecorder T.

Definition generate_filename self : M T string :=
  timestamp <- time_strftime ;;
  ret (OsPath.join (output_directory self) ("video_" +:+ timestamp +:+ ".mp4")).

Definition compressed_name (input_file : string) : string :=
  let '(base_name, ext) := OsPath.splitext input_file in
  base_name +:+ "_compressed" +:+ ext.

Definition ffmpeg_command (input_file compressed_file : string) : list string :=
  ["ffmpeg"; "-i"; input_file;
   "-vcodec"; "libx264"; "-crf"; "28"; "-preset"; "fast";
   compressed_file; "-y"].

Definition compress_video self (input_file : string) : M T string :=
  let compressed_file := compressed_name input_file in
  let command := ffmpeg_command input_file compressed_file in
  try_except
    (subprocess_run_check command ;;
     os_remove input_file ;;
     print (MsgCompressed compressed_file) ;;
     ret compressed_file)
    (fun e =>
       match e with
       | CalledProcessError _ =>
           Some (print (MsgCompressError e) ;; ret input_file)
       | _ => None
       end).

Definition get_upload_url self (video_filename : string) : string :=
  graph_url (folder_id self) (OsPath.basename video_filename).

Definition get_headers self : list (string * string) :=
  [("Authorization", "Bearer " +:+ access_token self);
   ("Content-Type", "video/mp4")].

(** The nested function [upload] of [upload_video]. *)
Definition upload self (video_filename : string) : M T unit :=
  let upload_url := get_upload_url self video_filename in
  let headers := get_headers self in
  try_except
    (open_rb video_filename ;;
     response <- requests_put upload_url headers video_filename ;;
     if status_code response =? 201 then
       print (MsgUploaded video_filename)
     else
       print (MsgUploadError (status_code response)) ;;
       body <- response_json response ;;
       print (MsgJson body))
    (fun e => Some (print (MsgUploadException e))).

Definition upload_video self (video_filename : string) : M T unit :=
  thread_start (TUpload video_filename).

(** The nested function [process] of [process_video]. *)
Definition process self (video_filename : string) : M T unit :=
  compressed_filename <- compress_video self video_filename ;;
  upload_video self compressed_filename.

Definition process_video self (video_filename : string) : M T unit :=
  thread_start (TProcess video_filename).

(** What a started thread runs. *)
Definition thread_body self (t : task) : M T unit :=
  match t with
  | TProcess video_filename => process self video_filename
  | TUpload video_filename => upload self video_filename
  end.

(** A thread run to its end; an exception that leaves its target ends the
    thread and nothing else. *)
Definition run_thread self (t : task) (w : World T) : World T := snd (thread_body self t w).

Definition close_camera self : M T unit :=
  cap_release ;;
  destroy_all_windows.

(** The inner [while time.monotonic() < end_time] of [record_continuous]. *)
Fixpoint frame_loop self (fuel : nat) (video_filename : string)
    (end_time frame_interval : T) : M T loop_exit :=
  match fuel with
  | O => out_of_fuel
  | S n =>
      now <- time_monotonic ;;
      if nlt now end_time then
        frame_start <- time_monotonic ;;
        rf <- cap_read ;;
        if negb (fst rf) then
          print MsgCaptureFailed ;;
          ret LoopEnd
        else
          writer_write video_filename (snd rf) ;;
          imshow (snd rf) ;;
          t <- time_monotonic ;;
          let elapsed := nsub t frame_start in
          let remaining_time := nsub frame_interval elapsed in
          (if nlt nzero remaining_time then time_sleep remaining_time else ret tt) ;;
          key <- wait_key ;;
          if Z.land key 255 =? 113 then
            print MsgStopping ;;
            writer_release video_filename ;;
            close_camera self ;;
            ret LoopReturn
          else frame_loop self n video_filename end_time frame_interval
      else ret LoopEnd
  end.

(** One segment from the top of its frame loop on: the [try ... finally],
    then the hand-over and [next], the rest of the outer loop. *)
Definition segment_rest self (next : M T unit) (fuel : nat) (video_filename : string)
    (end_time frame_interval : T) : M T unit :=
  r <- finally (frame_loop self fuel video_filename end_time frame_interval)
         (writer_release video_filename ;;
          print (MsgVideoSaved video_filename)) ;;
  match r with
  | LoopReturn => ret tt
  | LoopEnd =>
      process_video self video_filename ;;
      print MsgProcessing ;;
      next
  end.

Definition one_over (x : T) : M T T :=
  match nrecip x with
  | Some y => ret y
  | None => raise ZeroDivisionError
  end.

(** The outer [while True] of [record_continuous]. *)
Fixpoint record_loop self (fuel : nat) : M T unit :=
  match fuel with
  | O => out_of_fuel
  | S n =>
      video_filename <- generate_filename self ;;
      video_writer video_filename fourcc (fps self) (640, 480) ;;
      print (MsgRecording video_filename) ;;
      start_time <- time_monotonic ;;
      let end_time := nadd start_time (segment_duration self) in
      frame_interval <- one_over (fps self) ;;
      segment_rest self (record_loop self n) n video_filename end_time frame_interval
  end.

Definition record_continuous self (fuel : nat) : M T unit :=
  print (MsgStarted (output_directory self)) ;;
  record_loop self fuel.

End VideoRecorder.

(** ** [Decompression.py]: [upload_to_onedrive] *)

Section Decompression.
Context {T : Type} `{PyNum T}.

Definition upload_to_onedrive (file_path access_token folder_id : string) : M T unit :=
  let file_name := OsPath.basename file_path in
  let upload_url := graph_url folder_id file_name in
  let headers :=
    [("Authorization", "Bearer " +:+ access_token);
     ("Content-Type", "application/octet-stream")] in
  try_except
    (print (MsgOdUploading file_name) ;;
     open_rb file_path ;;
     response <- requests_put upload_url headers file_path ;;
     if (status_code response =? 200) || (status_code response =? 201) then
       print MsgOdSuccessful
     else
       body <- response_json response ;;
       print (MsgOdFailed body))
    (fun e => Some (print (MsgOdError e))).

End Decompression.


(** ** Reading the log *)

(** The messages by which an upload routine reports that the upload
    succeeded, and those by which it reports that it failed. *)
Definition upload_success (m : message) : bool :=
  match m with
  | MsgUploaded _ | MsgOdSuccessful => true
  | _ => false
  end.

Definition upload_failure (m : message) : bool :=
  match m with
  | MsgUploadError _ | MsgUploadException _ | MsgOdFailed _ | MsgOdError _ => true
  | _ => false
  end.

(** The URLs of the PUT requests made. *)
Definition put_urls {T} (l : list (event T)) : list string :=
  omap (fun e => match e with HttpPut url _ _ => Some url | _ => None end) l.

(** The world after more answers were consumed and more was done: the
    cursors of the clock, the camera and the keys moved on, the log grown. *)
Definition advance {T} (k_clock k_cam k_key : nat) (evs : list (event T))
    (w : World T) : World T :=
  {| env := env w;
     cur := {| n_clock := k_clock + n_clock (cur w); n_wall := n_wall (cur w);
               n_cam := k_cam + n_cam (cur w); n_key := k_key + n_key (cur w);
               n_proc := n_proc (cur w); n_http := n_http (cur w) |};
     fs := fs w;
     log := log w ++ evs |}.

(** A sleep that is the rest of a frame interval: strictly positive, and
    [1 / fps] less the time between two successive readings of the clock. *)
Definition paced_sleep {T} `{PyNum T} (self : VideoRecorder T) (e : Env T) (d : T) : Prop :=
  nlt nzero d = true
  /\ exists frame_interval k,
       nrecip (fps self) = Some frame_interval
       /\ d = nsub frame_interval (nsub (clock e (S k)) (clock e k)).

(** A computation run from [w] keeps the pace: it leaves the environment
    as it is, it only adds to the log, and every sleep it adds is the rest
    of a frame interval. *)
Definition keeps_pace {T} `{PyNum T} {A} (self : VideoRecorder T) (m : M T A)
    (w : World T) : Prop :=
  env (snd (m w)) = env w
  /\ exists evs, log (snd (m w)) = log w ++ evs
                 /\ Forall (paced_sleep self (env w)) (sleeps evs).

(** ** Worked worlds *)

Definition ex_time : struct_time :=
  {| tm_year := 2025; tm_mon := 1; tm_mday := 2;
     tm_hour := 3; tm_min := 4; tm_sec := 5 |}.

Definition ex_segment : string := "out/video_2025-01-02_03-04-05.mp4".
Definition ex_compressed : string := "out/video_2025-01-02_03-04-05_compressed.mp4".

(** The defaults of [VideoRecorder.__init__]: segments of 300 seconds at 20
    frames per second. *)
Definition ex_recorder : VideoRecorder Q :=
  {| output_directory := "out"; folder_id := "FOLDER"; access_token := "TOKEN";
     segment_duration := 300%Q; fps := 20%Q |}.

Definition ex_cursors : Cursors :=
  {| n_clock := 0; n_wall := 0; n_cam := 0; n_key := 0; n_proc := 0; n_http := 0 |}.

(** A clock read every hundredth of a second, a transcoder that starts and
    exits with [code], an endpoint that answers [status]; the camera and the
    keys are given. *)
Definition ex_env (camera : nat -> bool * nat) (keyboard : nat -> Z)
    (code status : Z) : Env Q :=
  {| clock := fun n => (Z.of_nat n # 100)%Q;
     wall := fun _ => ex_time;
     cam := camera;
     keys := keyboard;
     procs := fun _ => {| returncode := code;
                          written := if code =? 0 then [ex_compressed] else [] |};
     starts := fun _ => true;
     http := fun _ => PutReturns {| status_code := status; json_body := Some "{}" |} |}.

(** The first read of the camera fails, the later ones succeed, and [q] is
    down from the start. *)
Definition ex_world_read_fails : World Q :=
  {| env := ex_env (fun n => (negb (n =? 0)%nat, n)) (fun _ => 113) 0 201;
     cur := ex_cursors; fs := ∅; log := [] |}.

(** The camera works and [q] is down. *)
Definition ex_world_stop : World Q :=
  {| env := ex_env (fun n => (true, n)) (fun _ => 113) 0 201;
     cur := ex_cursors; fs := ∅; log := [] |}.

(** A finalized segment is on disk; the transcoder will exit with [code]. *)
Definition ex_world_segment (code : Z) : World Q :=
  {| env := ex_env (fun n => (true, n)) (fun _ => -1) code 201;
     cur := ex_cursors; fs := {[ ex_segment ]}; log := [] |}.

(** ** Notions used by the further properties *)

(** The ranges of the fields of [time.localtime()]. *)
Definition localtime_range (t : struct_time) : Prop :=
  (1 <= tm_mon t <= 12 /\ 1 <= tm_mday t <= 31
   /\ tm_hour t <= 23 /\ tm_min t <= 59 /\ tm_sec t <= 61)%nat.

(** Where the capture path stands with its writer: none open, one open on
    a file, that one released, or released with the camera released as
    well. *)
Inductive writer_state :=
| Idle
| Recording (f : string)
| Finalized (f : string)
| Stopped (f : string).

(** The order of events the capture path keeps to.  A writer is opened
    only when none is open; frames are written, shown and paced only while
    one is open, and written to that one; a segment is handed to a thread
    only once its writer is released; the camera is released only after the
    writer, and nothing but the repeated release follows; the capture path
    starts no upload thread and neither runs a subprocess, removes a file,
    nor makes a request. *)
Definition capture_step {T} (s : writer_state) (e : event T) : option writer_state :=
  match e, s with
  | Print _, _ => Some s
  | VideoWriterOpen f _ _ _, Idle => Some (Recording f)
  | WriterWrite f _, Recording g => if String.eqb f g then Some s else None
  | Imshow _, Recording _ => Some s
  | Sleep _, Recording _ => Some s
  | WriterRelease f, Recording g => if String.eqb f g then Some (Finalized g) else None
  | WriterRelease f, Finalized g => if String.eqb f g then Some s else None
  | WriterRelease f, Stopped g => if String.eqb f g then Some s else None
  | ThreadStart (TProcess f), Finalized g => if String.eqb f g then Some Idle else None
  | CapRelease, Finalized g => Some (Stopped g)
  | DestroyAllWindows, Stopped _ => Some s
  | _, _ => None
  end.

Fixpoint capture_run {T} (s : writer_state) (evs : list (event T)) : option writer_state :=
  match evs with
  | [] => Some s
  | e :: rest =>
      match capture_step s e with
      | Some s' => capture_run s' rest
      | None => None
      end
  end.

(** * The start-up code and [Decompression.py]

    [VideoRecorder.__init__], the two [main] functions and
    [decompress_video] do things the recorder's loop does not: they make
    directories, open the camera, call [exit()], and run FFmpeg through the
    [ffmpeg] package.  A [Host] is a [World] with what these need: one log
    for both, in which what a recorder computation does appears as
    [InWorld] events, in the order of the program. *)

(** More of [os.path] (posixpath). *)
Module OsPathMore.
Import PyStr OsPath.

(** [s.rstrip(c)] for a one-character [c]. *)
Fixpoint rstrip (c : ascii) (s : string) : string :=
  match s with
  | EmptyString => EmptyString
  | String a r =>
      match rstrip c r with
      | EmptyString => if Ascii.eqb a c then EmptyString else String a EmptyString
      | r' => String a r'
      end
  end.

(** [s == c * len(s)] *)
Fixpoint all_char (c : ascii) (s : string) : bool :=
  match s with
  | EmptyString => true
  | String a r => Ascii.eqb a c && all_char c r
  end.

(** [posixpath.dirname]: [i = p.rfind(sep) + 1; head = p[:i]]; the
    separators at the end of [head] are stripped unless it has nothing
    else. *)
Definition dirname (p : string) : string :=
  let i := rfind sep p + 1 in
  let head := slice_to i p in
  if negb (String.eqb head EmptyString) && negb (all_char sep head)
  then rstrip sep head
  else head.

End OsPathMore.

(** Integer literals of the source read as numbers. *)
Class PyLit (T : Type) := { of_int : Z -> T }.

#[export] Instance Q_PyLit : PyLit Q := { of_int := inject_Z }.

Inductive host_exn :=
| Shared (e : exn)
| OSError (path : string)
| FfmpegError (returncode : Z)
| SystemExit.

(** One constructor per [print] statement of the start-up code and of
    [check_file_exists] and [decompress_video]. *)
Inductive host_message :=
| MsgCameraError
| MsgFileFound (file_path : string)
| MsgDecompressing (input_file decompressed_file : string)
| MsgDecompressed (decompressed_file : string)
| MsgFfmpegError (e : host_exn).

Inductive host_event (T : Type) :=
| InWorld (e : event T)
| HostPrint (m : host_message)
| MakeDirs (path : string)
| VideoCapture (index : Z)
| CapSet (prop : string) (value : Z).

Arguments InWorld {T} e.
Arguments HostPrint {T} m.
Arguments MakeDirs {T} path.
Arguments VideoCapture {T} index.
Arguments CapSet {T} prop value.

(** [makedirs_fails] answers, call by call, whether [os.makedirs] raises
    [OSError]; [camera_opens] is what [cap.isOpened()] returns. *)
Record Host (T : Type) := {
  world : World T;
  host_log : list (host_event T);
  makedirs_fails : nat -> bool;
  n_makedirs : nat;
  camera_opens : bool
}.

Arguments world {T} _.
Arguments host_log {T} _.
Arguments makedirs_fails {T} _ _.
Arguments n_makedirs {T} _.
Arguments camera_opens {T} _.

Inductive HResult (A : Type) :=
| HRet (a : A)
| HRaise (e : host_exn)
| HOutOfFuel.

Arguments HRet {A} a.
Arguments HRaise {A} e.
Arguments HOutOfFuel {A}.

Definition H (T A : Type) : Type := Host T -> HResult A * Host T.

Section HostMonad.
Context {T : Type}.

Definition hret {A} (a : A) : H T A := fun h => (HRet a, h).

Definition hbind {A B} (m : H T A) (k : A -> H T B) : H T B :=
  fun h =>
    match m h with
    | (HRet a, h') => k a h'
    | (HRaise e, h') => (HRaise e, h')
    | (HOutOfFuel, h') => (HOutOfFuel, h')
    end.

Definition hraise {A} (e : host_exn) : H T A := fun h => (HRaise e, h).

Definition h_try_except {A} (m : H T A) (handler : host_exn -> option (H T A)) : H T A :=
  fun h =>
    match m h with
    | (HRaise e, h') =>
        match handler e with
        | Some k => k h'
        | None => (HRaise e, h')
        end
    | r => r
    end.

Definition hemit (e : host_event T) (h : Host T) : Host T :=
  {| world := world h; host_log := host_log h ++ [e];
     makedirs_fails := makedirs_fails h; n_makedirs := n_makedirs h;
     camera_opens := camera_opens h |}.

Definition hact (e : host_event T) : H T unit := fun h => (HRet tt, hemit e h).

Definition hprint (m : host_message) : H T unit := hact (HostPrint m).

(** A computation of the recorder run on the world of the host: what it
    adds to the log of the world is added to the log of the host. *)
Definition lift {A} (m : M T A) : H T A :=
  fun h =>
    let '(r, w') := m (world h) in
    let h' :=
      {| world := w';
         host_log := host_log h
                     ++ map InWorld (drop (length (log (world h))) (log w'));
         makedirs_fails := makedirs_fails h; n_makedirs := n_makedirs h;
         camera_opens := camera_opens h |} in
    match r with
    | Ret a => (HRet a, h')
    | Raise e => (HRaise (Shared e), h')
    | OutOfFuel => (HOutOfFuel, h')
    end.

(** [os.path.isfile(path)] *)
Definition os_path_isfile (path : string) : H T bool :=
  fun h => (HRet (bool_decide (path ∈ fs (world h))), h).

(** [os.makedirs(path, exist_ok=True)]: the empty path cannot be made;
    any other succeeds or fails as the environment has it. *)
Definition os_makedirs (path : string) : H T unit :=
  fun h =>
    if String.eqb path EmptyString then (HRaise (Shared (FileNotFoundError path)), h)
    else
      let h' :=
        {| world := world h; host_log := host_log h;
           makedirs_fails := makedirs_fails h; n_makedirs := S (n_makedirs h);
           camera_opens := camera_opens h |} in
      if makedirs_fails h (n_makedirs h) then (HRaise (OSError path), h')
      else (HRet tt, hemit (MakeDirs path) h').

(** [cap.isOpened()] *)
Definition cap_is_opened : H T bool := fun h => (HRet (camera_opens h), h).

(** What [subprocess] gives the [ffmpeg] package: the child run, its return
    code returned. *)
Definition subprocess_popen (command : list string) : M T Z :=
  fun w =>
    let p := procs (env w) (n_proc (cur w)) in
    (Ret (returncode p),
     set_fs (list_to_set (written p) ∪ fs w)
       (set_cur (tick_proc (cur w)) (emit (SubprocessRun command) w))).

(** [stream.run(overwrite_output=True)] of the [ffmpeg] package on the
    compiled arguments: [ffmpeg.Error] when the return code is not zero. *)
Definition ffmpeg_run (args : list string) : H T unit :=
  hbind (lift (subprocess_popen ("ffmpeg" :: args ++ ["-y"])))
    (fun retcode =>
       if retcode =? 0 then hret tt else hraise (FfmpegError retcode)).

End HostMonad.

Notation "x <~ m ;; k" := (hbind m (fun x => k))
  (at level 100, m at next level, right associativity, only parsing).
Notation "m ;;; k" := (hbind m (fun _ => k))
  (at level 100, right associativity, only parsing).

(** ** [Video_Uploading.py]: construction and [main] *)

Module VideoUploading.
Section VideoUploading.
Context {T : Type} `{PyNum T} `{PyLit T}.

Definition setup_output_directory (directory : string) : H T string :=
  os_makedirs directory ;;;
  hret directory.

(** Returns when the camera is open; the capture object itself is the
    camera of the world. *)
Definition initialize_camera : H T unit :=
  hact (VideoCapture 0) ;;;
  hact (CapSet "CAP_PROP_FRAME_WIDTH" 640) ;;;
  hact (CapSet "CAP_PROP_FRAME_HEIGHT" 480) ;;;
  opened <~ cap_is_opened ;;
  if negb opened then
    hprint MsgCameraError ;;;
    hraise SystemExit
  else hret tt.

(** [VideoRecorder.__init__]; the defaults of the last two parameters are
    300 and 20. *)
Definition __init__ (output_directory folder_id access_token : string)
    (segment_duration fps : T) : H T (VideoRecorder T) :=
  directory <~ setup_output_directory output_directory ;;
  initialize_camera ;;;
  hret (Build_VideoRecorder T directory folder_id access_token segment_duration fps).

Definition main (fuel : nat) : H T unit :=
  let output_directory := "YOUR LOCAL FOLDER PATH" in
  let folder_id := "YOUR_ONEDRIVE_FOLDER_ID" in
  let access_token := "YOUR_ACCESS_TOKEN" in
  recorder <~ __init__ output_directory folder_id access_token
                (of_int 300) (of_int 20) ;;
  lift (record_continuous recorder fuel).

End VideoUploading.
End VideoUploading.

(** ** [Decompression.py] *)

Module Decompression.
Section Decompression.
Context {T : Type} `{PyNum T}.

Definition check_file_exists (file_path : string) : H T unit :=
  isfile <~ os_path_isfile file_path ;;
  if negb isfile then hraise (Shared (FileNotFoundError file_path))
  else hprint (MsgFileFound file_path).

(** The arguments the [ffmpeg] package compiles
    [ffmpeg.input(input_file).output(decompressed_file, vcodec=..., preset=...,
    crf=..., **{"b:v": ...})] to: the input, the options of the output in the
    order of their names, the output. *)
Definition ffmpeg_args (input_file decompressed_file : string) : list string :=
  ["-i"; input_file;
   "-b:v"; "5M"; "-crf"; "18"; "-preset"; "slow"; "-vcodec"; "libx264";
   decompressed_file].

Definition decompress_video (input_file decompressed_file : string) : H T bool :=
  check_file_exists input_file ;;;
  let output_folder := OsPathMore.dirname decompressed_file in
  os_makedirs output_folder ;;;
  hprint (MsgDecompressing input_file decompressed_file) ;;;
  h_try_except
    (ffmpeg_run (ffmpeg_args input_file decompressed_file) ;;;
     hprint (MsgDecompressed decompressed_file) ;;;
     hret true)
    (fun e =>
       match e with
       | FfmpegError _ => Some (hprint (MsgFfmpegError e) ;;; hret false)
       | _ => None
       end).

(** The body of [main] on given paths and credentials. *)
Definition decompress_and_upload (input_video decompressed_video
    access_token folder_id : string) : H T unit :=
  success <~ decompress_video input_video decompressed_video ;;
  if success then
    lift (upload_to_onedrive decompressed_video access_token folder_id)
  else hret tt.

Definition main : H T unit :=
  let access_token := "YOUR_ACCESS_TOKEN" in
  let folder_id := "YOUR_ONEDRIVE_FOLDER_ID" in
  let input_video := "INPUT VIDEO FILE PATH" in
  let decompressed_video :=
    "Output (decompressed) video file in a different location PATH" in
  decompress_and_upload input_video decompressed_video access_token folder_id.

End Decompression.
End Decompression.

(** The events of the recorder's world among those of a host. *)
Definition in_world {T} (l : list (host_event T)) : list (event T) :=
  omap (fun e => match e with InWorld e' => Some e' | _ => None end) l.

(** More worked worlds. *)

(** A recorder whose frame rate is zero. *)
Definition ex_recorder_zero_fps : VideoRecorder Q :=
  {| output_directory := "out"; folder_id := "FOLDER"; access_token := "TOKEN";
     segment_duration := 300%Q; fps := 0%Q |}.

(** Every read of the camera reports not-ok. *)
Definition ex_world_dead_camera : World Q :=
  {| env := ex_env (fun n => (false, n)) (fun _ => -1) 0 201;
     cur := ex_cursors; fs := ∅; log := [] |}.

(** A host on the world [w], on which [os.makedirs] raises or not and the
    camera opens or not. *)
Definition ex_host (w : World Q) (makedirs_raises camera : bool) : Host Q :=
  {| world := w; host_log := [];
     makedirs_fails := fun _ => makedirs_raises; n_makedirs := 0;
     camera_opens := camera |}.


(** ** The names of the files, as the specification words them *)

(** The character of the last decimal digit of [k]. *)
Definition spec_digit (k : nat) : ascii := ascii_of_nat (48 + Nat.modulo k 10).

(** [n] on two and on four decimal digits, with leading zeros. *)
Definition spec_two_digits (n : nat) : string :=
  String (spec_digit (Nat.div n 10)) (String (spec_digit n) "").

Definition spec_four_digits (n : nat) : string :=
  String (spec_digit (Nat.div n 1000))
    (String (spec_digit (Nat.div n 100)) (spec_two_digits n)).

(** [YYYY-MM-DD_HH-MM-SS] *)
Definition spec_timestamp (t : struct_time) : string :=
  spec_four_digits (tm_year t) +:+ "-" +:+ spec_two_digits (tm_mon t) +:+ "-"
  +:+ spec_two_digits (tm_mday t) +:+ "_" +:+ spec_two_digits (tm_hour t) +:+ "-"
  +:+ spec_two_digits (tm_min t) +:+ "-" +:+ spec_two_digits (tm_sec t).

(** [video_<YYYY-MM-DD_HH-MM-SS>.mp4] *)
Definition spec_segment_name (t : struct_time) : string :=
  "video_" +:+ spec_timestamp t +:+ ".mp4".
(** * Properties *)

(** ** Strings and paths *)

Module PyStrFacts.
Import PyStr.

#[local] Arguments String.append !_ _ / : simpl nomatch.

Lemma take_drop_id (n : nat) (s : string) : take n s +:+ drop n s = s.
Proof.
  revert s; induction n as [|n IH]; intros [|a r]; simpl; try reflexivity.
  f_equal. apply IH.
Qed.

Lemma append_empty_r (s : string) : s +:+ "" = s.
Proof. induction s as [|a r IH]; simpl; [reflexivity | f_equal; exact IH]. Qed.

Lemma append_assoc (a b c : string) : (a +:+ b) +:+ c = a +:+ (b +:+ c).
Proof. induction a as [|x r IH]; simpl; [reflexivity | f_equal; exact IH]. Qed.

Lemma length_append (a b : string) :
  String.length (a +:+ b) = (String.length a + String.length b)%nat.
Proof. induction a as [|x r IH]; simpl; [reflexivity | f_equal; exact IH]. Qed.

Lemma drop_append_length (a b : string) : drop (String.length a) (a +:+ b) = b.
Proof. induction a as [|x r IH]; simpl; [now destruct b | exact IH]. Qed.

Lemma contains_append (c : ascii) (a b : string) :
  contains c (a +:+ b) = contains c a || contains c b.
Proof.
  induction a as [|x r IH]; simpl; [reflexivity|].
  rewrite IH. now destruct (Ascii.eqb x c).
Qed.

(** [rfind] walks the string once; over a concatenation it walks the second
    part with what it found in the first. *)
Lemma rfind_from_append (c : ascii) (a b : string) (i last : Z) :
  rfind_from c (a +:+ b) i last
  = rfind_from c b (i + Z.of_nat (String.length a)) (rfind_from c a i last).
Proof.
  revert i last; induction a as [|x r IH]; intros i last; simpl.
  - now rewrite Z.add_0_r.
  - rewrite IH. f_equal. lia.
Qed.

Lemma rfind_from_absent (c : ascii) (s : string) (i last : Z) :
  contains c s = false -> rfind_from c s i last = last.
Proof.
  revert i last; induction s as [|x r IH]; intros i last Hc; simpl in *.
  - reflexivity.
  - apply orb_false_iff in Hc as [Hx Hr]. rewrite Hx. now apply IH.
Qed.

(** What [rfind_from] returns: the value it started with, or an index in
    range at which the character stands. *)
Lemma rfind_from_spec (c : ascii) (s : string) (i last : Z) :
  rfind_from c s i last = last
  \/ (i <= rfind_from c s i last < i + Z.of_nat (String.length s)
      /\ String.get (Z.to_nat (rfind_from c s i last - i)) s = Some c).
Proof.
  revert i last; induction s as [|x r IH]; intros i last; simpl.
  - now left.
  - destruct (IH (i + 1) (if Ascii.eqb x c then i else last)) as [Heq | [Hr Hg]].
    + rewrite Heq. destruct (Ascii.eqb x c) eqn:Hx; [right | now left].
      apply Ascii.eqb_eq in Hx. subst x. split; [lia|].
      now rewrite Z.sub_diag.
    + right. split; [lia|].
      set (k := rfind_from c r (i + 1) (if Ascii.eqb x c then i else last)) in *.
      replace (k - i) with (Z.succ (k - (i + 1))) by lia.
      rewrite Z2Nat.inj_succ by lia. exact Hg.
Qed.

Lemma rfind_range (c : ascii) (s : string) :
  -1 <= rfind c s < Z.of_nat (String.length s).
Proof.
  unfold rfind. destruct (rfind_from_spec c s 0 (-1)) as [-> | [Hr _]]; lia.
Qed.

Lemma rfind_get (c : ascii) (s : string) :
  0 <= rfind c s -> String.get (Z.to_nat (rfind c s)) s = Some c.
Proof.
  unfold rfind. intros Hpos.
  destruct (rfind_from_spec c s 0 (-1)) as [Heq | [_ Hg]]; [lia|].
  now rewrite Z.sub_0_r in Hg.
Qed.

Lemma drop_get (n : nat) (s : string) (c : ascii) :
  String.get n s = Some c -> exists r, drop n s = String c r.
Proof.
  revert s; induction n as [|n IH]; intros [|a r] Hg; simpl in *; try discriminate.
  - injection Hg as ->. now exists r.
  - now apply IH.
Qed.

Lemma contains_drop (c : ascii) (n : nat) (s : string) :
  contains c s = false -> contains c (drop n s) = false.
Proof.
  revert s; induction n as [|n IH]; intros [|a r] Hc; simpl in *; try assumption.
  apply orb_false_iff in Hc as [_ Hr]. now apply IH.
Qed.

(** Nothing after the last occurrence. *)
Lemma rfind_from_last (c : ascii) (s : string) (i last : Z) :
  last < i ->
  contains c (drop (Z.to_nat (rfind_from c s i last + 1 - i)) s) = false.
Proof.
  revert i last; induction s as [|x r IH]; intros i last Hlt; simpl.
  - now destruct (Z.to_nat (last + 1 - i)).
  - set (l' := if Ascii.eqb x c then i else last).
    assert (Hl' : l' < i + 1) by (subst l'; destruct (Ascii.eqb x c); lia).
    specialize (IH (i + 1) l' Hl').
    destruct (rfind_from_spec c r (i + 1) l') as [Heq | [Hr _]].
    + rewrite Heq in *. subst l'. destruct (Ascii.eqb x c) eqn:Hx.
      * replace (Z.to_nat (i + 1 - i)) with 1%nat by lia. simpl.
        replace (Z.to_nat (i + 1 - (i + 1))) with 0%nat in IH by lia. exact IH.
      * replace (Z.to_nat (last + 1 - i)) with 0%nat by lia. simpl.
        replace (Z.to_nat (last + 1 - (i + 1))) with 0%nat in IH by lia.
        simpl in IH. now rewrite Hx, IH.
    + set (k := rfind_from c r (i + 1) l') in *.
      replace (k + 1 - i) with (Z.succ (k + 1 - (i + 1))) by lia.
      rewrite Z2Nat.inj_succ by lia. simpl. exact IH.
Qed.

Lemma endswith_split (s : string) (c : ascii) :
  endswith s c = true -> exists r, s = r +:+ String c "".
Proof.
  induction s as [|a r IH]; simpl; [discriminate|].
  destruct r as [|b r'].
  - intros Hc%Ascii.eqb_eq. subst. now exists "".
  - intros Hr. destruct (IH Hr) as [r0 Hr0]. exists (String a r0).
    simpl. now rewrite <- Hr0.
Qed.

Lemma bound_length_append (a b : string) :
  bound (a +:+ b) (Z.of_nat (String.length a)) = String.length a.
Proof.
  unfold bound. rewrite length_append.
  destruct (Z.ltb_spec (Z.of_nat (String.length a)) 0); lia.
Qed.

End PyStrFacts.

Module OsPathFacts.
Import PyStr PyStrFacts OsPath.

#[local] Arguments String.append !_ _ / : simpl nomatch.

Lemma bound_in_range (s : string) (i : Z) :
  0 <= i <= Z.of_nat (String.length s) -> bound s i = Z.to_nat i.
Proof.
  intros Hi. unfold bound.
  destruct (Z.ltb_spec i 0); [lia|]. f_equal. lia.
Qed.

Lemma drop_drop (n m : nat) (s : string) : drop n (drop m s) = drop (m + n) s.
Proof.
  revert s; induction m as [|m IH]; intros s; simpl; [reflexivity|].
  destruct s as [|a r]; [now destruct n | apply IH].
Qed.

Lemma slice_to_0 (p : string) : slice_to 0 p = "".
Proof.
  unfold slice_to, bound. simpl.
  now replace (Z.to_nat (Z.min 0 (Z.of_nat (String.length p)))) with 0%nat by lia.
Qed.

(** The two parts [splitext] returns make up the path again. *)
Lemma splitext_app (p : string) :
  fst (splitext p) +:+ snd (splitext p) = p.
Proof.
  unfold splitext.
  destruct (_ && _); simpl.
  - apply take_drop_id.
  - rewrite slice_to_0. apply append_empty_r.
Qed.

(** The second part is empty, or it is the last dot of the path and what
    follows it, with no dot and no separator after that dot. *)
Lemma splitext_ext (p : string) :
  snd (splitext p) = ""
  \/ exists r, snd (splitext p) = String extsep r
               /\ contains extsep r = false /\ contains sep r = false.
Proof.
  unfold splitext.
  destruct (rfind extsep p >? rfind sep p) eqn:Hgt; simpl;
    [|left; apply slice_to_0].
  destruct (has_stem _ _ _ _); simpl; [|left; apply slice_to_0].
  right. apply Z.gtb_lt in Hgt.
  pose proof (rfind_range sep p) as Hs.
  pose proof (rfind_range extsep p) as Hd.
  unfold slice_from. rewrite bound_in_range by lia.
  destruct (drop_get _ _ _ (rfind_get extsep p ltac:(lia))) as [r Hr].
  exists r. split; [exact Hr|].
  assert (Hr' : r = drop (Z.to_nat (rfind extsep p + 1)) p).
  { replace (Z.to_nat (rfind extsep p + 1)) with (Z.to_nat (rfind extsep p) + 1)%nat by lia.
    rewrite <- drop_drop, Hr. reflexivity. }
  split.
  - rewrite Hr'. pose proof (rfind_from_last extsep p 0 (-1) ltac:(lia)) as Hl.
    now rewrite Z.sub_0_r in Hl.
  - rewrite Hr'.
    pose proof (rfind_from_last sep p 0 (-1) ltac:(lia)) as Hl.
    rewrite Z.sub_0_r in Hl. fold (rfind sep p) in Hl.
    replace (Z.to_nat (rfind extsep p + 1))
      with (Z.to_nat (rfind sep p + 1) + Z.to_nat (rfind extsep p - rfind sep p))%nat by lia.
    rewrite <- drop_drop. now apply contains_drop.
Qed.

Lemma startswith_contains (b : string) (c : ascii) :
  contains c b = false -> startswith b c = false.
Proof. destruct b as [|a r]; simpl; [reflexivity|]. now intros [? _]%orb_false_iff. Qed.

(** [basename] of a directory part followed by a name without separator. *)
Lemma basename_app (a b : string) :
  contains sep b = false ->
  a = "" \/ endswith a sep = true ->
  basename (a +:+ b) = b.
Proof.
  intros Hb Ha. unfold basename, slice_from, rfind.
  rewrite rfind_from_append, (rfind_from_absent _ _ _ _ Hb).
  destruct Ha as [-> | Ha].
  - simpl. unfold bound.
    destruct (String.length b); reflexivity.
  - destruct (endswith_split _ _ Ha) as [r ->].
    rewrite rfind_from_append. simpl.
    replace (0 + Z.of_nat (String.length r) + 1)
      with (Z.of_nat (String.length (r +:+ String sep ""))).
    + rewrite bound_length_append. apply drop_append_length.
    + rewrite length_append. simpl. lia.
Qed.

Lemma basename_join (a b : string) :
  contains sep b = false -> basename (join a b) = b.
Proof.
  intros Hb. unfold join. rewrite (startswith_contains _ _ Hb).
  destruct (String.eqb a "") eqn:Ha; simpl.
  - apply String.eqb_eq in Ha. apply basename_app; auto.
  - destruct (endswith a sep) eqn:He.
    + apply basename_app; auto.
    + transitivity (basename ((a +:+ String sep "") +:+ b));
        [f_equal; rewrite append_assoc; reflexivity|].
      apply basename_app; [exact Hb|].
      right. clear. induction a as [|x r IH]; [reflexivity|].
      destruct r as [|y r']; [reflexivity | exact IH].
Qed.

End OsPathFacts.

(** ** The background task: compress, then upload *)

Section Pipeline.
Context {T : Type} `{PyNum T}.
Implicit Types (self : VideoRecorder T) (w : World T).

(** The path on which [subprocess.run] raises [CalledProcessError]: the
    handler returns the input path; the world has the subprocess's event and
    files and the message, nothing else. *)
Lemma compress_video_raises self (input_file : string) w :
  starts (env w) (n_proc (cur w)) = true ->
  returncode (procs (env w) (n_proc (cur w))) <> 0 ->
  compress_video self input_file w
  = (Ret input_file,
     emit (Print (MsgCompressError
                    (CalledProcessError (returncode (procs (env w) (n_proc (cur w)))))))
       (set_fs (list_to_set (written (procs (env w) (n_proc (cur w)))) ∪ fs w)
          (set_cur (tick_proc (cur w))
             (emit (SubprocessRun
                      (ffmpeg_command input_file (compressed_name input_file))) w)))).
Proof.
  intros Hst Hrc%Z.eqb_neq.
  unfold compress_video, try_except, bind, subprocess_run_check.
  now rewrite Hst, Hrc.
Qed.

(** The path on which the transcoder cannot be started: [FileNotFoundError]
    is not the exception the handler names, so it leaves [compress_video];
    the world has the call and nothing else. *)
Lemma compress_video_cannot_start self (input_file : string) w :
  starts (env w) (n_proc (cur w)) = false ->
  compress_video self input_file w
  = (Raise (FileNotFoundError "ffmpeg"),
     set_cur (tick_proc (cur w))
       (emit (SubprocessRun
                (ffmpeg_command input_file (compressed_name input_file))) w)).
Proof.
  intros Hst.
  unfold compress_video, try_except, bind, subprocess_run_check.
  now rewrite Hst.
Qed.

Lemma compressed_name_neq (input_file : string) :
  compressed_name input_file <> input_file.
Proof.
  unfold compressed_name.
  pose proof (OsPathFacts.splitext_app input_file) as Happ.
  destruct (OsPath.splitext input_file) as [base_name ext]. simpl in Happ.
  intros Heq. apply (f_equal String.length) in Heq.
  rewrite <- Happ in Heq.
  rewrite !PyStrFacts.length_append in Heq. simpl in Heq. lia.
Qed.

(** The path on which [subprocess.run] returns and the input file is there
    to be removed. *)
Lemma compress_video_returns self (input_file : string) w :
  starts (env w) (n_proc (cur w)) = true ->
  returncode (procs (env w) (n_proc (cur w))) = 0 ->
  input_file ∈ fs w ->
  compress_video self input_file w
  = (Ret (compressed_name input_file),
     emit (Print (MsgCompressed (compressed_name input_file)))
       (set_fs ((list_to_set (written (procs (env w) (n_proc (cur w)))) ∪ fs w)
                ∖ {[ input_file ]})
          (emit (OsRemove input_file)
             (set_fs (list_to_set (written (procs (env w) (n_proc (cur w)))) ∪ fs w)
                (set_cur (tick_proc (cur w))
                   (emit (SubprocessRun
                            (ffmpeg_command input_file (compressed_name input_file))) w)))))).
Proof.
  intros Hst Hrc%Z.eqb_eq Hin.
  unfold compress_video, try_except, bind, subprocess_run_check, os_remove.
  rewrite Hst, Hrc. simpl.
  destruct (decide _) as [_ | Hn]; [reflexivity|].
  exfalso. apply Hn. set_solver.
Qed.



(** C3.  When the transcoder is started and its run returns (return code
    zero) on a segment file that exists, [compress_video] removes the input file and returns
    the compressed path, a path other than the input, and [process] hands
    that path to [upload_video]: the task ends normally, the original file
    is gone when it ends, and the upload thread it started is the one for
    the compressed path. *)
Theorem compress_success_uploads_compressed self (video_filename : string) w :
  starts (env w) (n_proc (cur w)) = true ->
  returncode (procs (env w) (n_proc (cur w))) = 0 ->
  video_filename ∈ fs w ->
  let compressed_file := compressed_name video_filename in
  fst (compress_video self video_filename w) = Ret compressed_file
  /\ compressed_file <> video_filename
  /\ (video_filename ∉ fs (snd (compress_video self video_filename w)))
  /\ process self video_filename w
     = upload_video self compressed_file (snd (compress_video self video_filename w))
  /\ fst (process self video_filename w) = Ret tt
  /\ log (snd (process self video_filename w))
     = log w ++ [SubprocessRun (ffmpeg_command video_filename compressed_file);
                 OsRemove video_filename;
                 Print (MsgCompressed compressed_file);
                 ThreadStart (TUpload compressed_file)]
  /\ threads (snd (process self video_filename w))
     = threads w ++ [TUpload compressed_file]
  /\ (video_filename ∉ fs (snd (process self video_filename w))).
Proof.
  intros Hst Hrc Hin compressed_file.
  pose proof (compress_video_returns self video_filename w Hst Hrc Hin) as Hc.
  fold compressed_file in Hc.
  assert (Hp : process self video_filename w
               = upload_video self compressed_file
                   (snd (compress_video self video_filename w))).
  { unfold process, bind. now rewrite Hc. }
  rewrite Hp, Hc. simpl.
  repeat split.
  - apply compressed_name_neq.
  - apply not_elem_of_difference. right. now apply elem_of_singleton.
  - now rewrite <- !app_assoc.
  - unfold threads. simpl. rewrite !omap_app. simpl. now rewrite !app_nil_r.
  - apply not_elem_of_difference. right. now apply elem_of_singleton.
Qed.

(** C9.  When [subprocess.run] raises [CalledProcessError] (the transcoder
    was started and its return code is not zero), [compress_video] never reaches [os.remove(input_file)]: what it did is
    the subprocess run and the message, with no removal; the files are those
    there were, with whatever the subprocess wrote; and the input file, if it
    was there, still is. *)
Theorem compress_failure_keeps_input self (input_file : string) w :
  starts (env w) (n_proc (cur w)) = true ->
  returncode (procs (env w) (n_proc (cur w))) <> 0 ->
  let w' := snd (compress_video self input_file w) in
  fst (compress_video self input_file w) = Ret input_file
  /\ log w'
     = log w ++ [SubprocessRun (ffmpeg_command input_file (compressed_name input_file));
                 Print (MsgCompressError
                          (CalledProcessError
                             (returncode (procs (env w) (n_proc (cur w))))))]
  /\ (forall path, OsRemove path ∉ drop (length (log w)) (log w'))
  /\ fs w' = list_to_set (written (procs (env w) (n_proc (cur w)))) ∪ fs w
  /\ (input_file ∈ fs w -> input_file ∈ fs w').
Proof.
  intros Hst Hrc w'. subst w'.
  rewrite (compress_video_raises self input_file w Hst Hrc). simpl.
  repeat split.
  - now rewrite <- !app_assoc.
  - intros path. rewrite <- !app_assoc, drop_app_length.
    intros Hin. simpl in Hin.
    repeat (apply elem_of_cons in Hin as [Hin | Hin]; [discriminate|]).
    now apply elem_of_nil in Hin.
  - set_solver.
Qed.

(** C7.  [process_video] starts the thread and returns [None]: it touches
    neither the files nor the environment, and runs neither the transcoder
    nor the upload.  In the thread, [process] is [compress_video] followed
    by [upload_video] on the path [compress_video] returned, in the world
    [compress_video] left: the subprocess run is the first thing the task
    does, the start of the upload thread the last, and when
    [compress_video] raises, no upload is started. *)
Theorem process_compresses_then_uploads self (video_filename : string) w :
  process_video self video_filename w
  = (Ret tt, emit (ThreadStart (TProcess video_filename)) w)
  /\ match compress_video self video_filename w with
     | (Ret compressed_filename, w1) =>
         process self video_filename w
         = (Ret tt, emit (ThreadStart (TUpload compressed_filename)) w1)
         /\ exists middle,
              log w1 = log w ++ SubprocessRun
                                  (ffmpeg_command video_filename
                                     (compressed_name video_filename)) :: middle
              /\ threads w1 = threads w
     | (Raise e, w1) =>
         process self video_filename w = (Raise e, w1)
         /\ threads w1 = threads w
     | (OutOfFuel, _) => False
     end.
Proof.
  split; [reflexivity|].
  unfold process, bind.
  destruct (starts (env w) (n_proc (cur w))) eqn:Hst; cycle 1.
  { rewrite (compress_video_cannot_start self video_filename w Hst).
    split; [reflexivity|].
    unfold threads. simpl. rewrite !omap_app. simpl. now rewrite !app_nil_r. }
  destruct (Z.eq_dec (returncode (procs (env w) (n_proc (cur w)))) 0) as [Hrc | Hrc].
  - unfold compress_video, try_except, bind, subprocess_run_check, os_remove.
    apply Z.eqb_eq in Hrc. rewrite Hst, Hrc. simpl.
    destruct (decide _); simpl.
    + split; [reflexivity|]. eexists. split.
      * rewrite <- !app_assoc. reflexivity.
      * unfold threads. simpl. rewrite !omap_app. simpl. now rewrite !app_nil_r.
    + split; [reflexivity|].
      unfold threads. simpl. rewrite !omap_app. simpl. now rewrite !app_nil_r.
  - rewrite (compress_video_raises self video_filename w Hst Hrc).
    split; [reflexivity|]. eexists. split.
    + simpl. rewrite <- !app_assoc. reflexivity.
    + unfold threads. simpl. rewrite !omap_app. simpl. now rewrite !app_nil_r.
Qed.

End Pipeline.

(** ** The upload routines *)

Section Upload.
Context {T : Type} `{PyNum T}.
Implicit Types (self : VideoRecorder T) (w : World T).

#[local] Arguments Z.eqb : simpl never.

(** Membership in a list that is written out. *)
Ltac in_list H :=
  repeat (apply elem_of_cons in H as [H | H]);
  try (apply elem_of_nil in H; contradiction).

Ltac list_head := apply elem_of_cons; left; reflexivity.
Ltac list_mem :=
  first [ list_head
        | apply elem_of_cons; right; list_head
        | apply elem_of_cons; right; apply elem_of_cons; right; list_head ].

(** The goals about the messages an upload printed, once the list of those
    messages is written out. *)
Ltac report_case :=
  lazymatch goal with
  | |- _ = _ => reflexivity
  | |- (_ ∈ _) -> _ /\ _ =>
      let Hm := fresh "Hm" in
      intros Hm; in_list Hm;
      first [ discriminate Hm
            | split; [assumption | eexists; split; [reflexivity | auto]] ]
  | |- _ /\ _ -> (_ ∈ _) =>
      let Hs := fresh "Hs" in let r' := fresh "r" in
      let Hr := fresh "Hr" in let Hc := fresh "Hc" in
      intros [Hs (r' & Hr & Hc)];
      first [ contradiction | discriminate Hr
            | injection Hr as <-; first [ list_mem | destruct Hc; congruence | congruence ] ]
  | |- ~ _ -> _ =>
      let Hn := fresh "Hn" in
      intros Hn;
      first [ exfalso; apply Hn; list_mem
            | eexists; split; [list_head | reflexivity]
            | eexists; split; [apply elem_of_cons; right; list_head | reflexivity]
            | eexists; split;
              [apply elem_of_cons; right; apply elem_of_cons; right; list_head
              | reflexivity] ]
  | |- forall m, (m ∈ _) -> _ =>
      let m := fresh "m" in let Hm := fresh "Hm" in let Hs := fresh "Hs" in
      intros m Hm Hs; in_list Hm; subst m; first [discriminate Hs | reflexivity]
  end.

Ltac report_cases :=
  repeat match goal with
  | |- _ /\ _ => split
  | |- _ <-> _ => split
  end;
  report_case.

(** C4.  Both upload routines return normally whatever happens (a missing
    file, an exception of [requests.put], any status, a body that is not
    JSON).  [upload] of the continuous pipeline prints its success message
    exactly when the PUT was made and answered with status 201, and
    [upload_to_onedrive] exactly when it was answered with 200 or 201; in
    every other case a failure message is printed and no success message
    is. *)
Theorem upload_success_iff_status self (path access_token folder_id : string) w :
  let sent := path ∈ fs w in
  let answer := http (env w) (n_http (cur w)) in
  let printed (r : Result unit * World T) :=
    omap (fun e => match e with Print m => Some m | _ => None end)
         (drop (length (log w)) (log (snd r))) in
  (fst (upload self path w) = Ret tt
   /\ (MsgUploaded path ∈ printed (upload self path w)
       <-> sent /\ exists r, answer = PutReturns r /\ status_code r = 201)
   /\ (MsgUploaded path ∉ printed (upload self path w)
       -> exists m, m ∈ printed (upload self path w) /\ upload_failure m = true)
   /\ (forall m, m ∈ printed (upload self path w) ->
                 upload_success m = true -> m = MsgUploaded path))
  /\ (fst (upload_to_onedrive path access_token folder_id w) = Ret tt
      /\ (MsgOdSuccessful ∈ printed (upload_to_onedrive path access_token folder_id w)
          <-> sent /\ exists r, answer = PutReturns r
                                /\ (status_code r = 200 \/ status_code r = 201))
      /\ (MsgOdSuccessful ∉ printed (upload_to_onedrive path access_token folder_id w)
          -> exists m, m ∈ printed (upload_to_onedrive path access_token folder_id w)
                       /\ upload_failure m = true)
      /\ (forall m, m ∈ printed (upload_to_onedrive path access_token folder_id w) ->
                    upload_success m = true -> m = MsgOdSuccessful))
  /\ upload_video self path w = (Ret tt, emit (ThreadStart (TUpload path)) w).
Proof.
  intros sent answer printed. subst sent answer printed. cbv beta.
  split; [|split; [|reflexivity]].
  - unfold upload, try_except, bind, open_rb, requests_put.
    destruct (decide (path ∈ fs w)) as [Hin | Hout];
      [destruct (http (env w) (n_http (cur w))) as [|r] eqn:Hans;
         [|destruct (status_code r =? 201) eqn:Hst;
             [apply Z.eqb_eq in Hst
             |apply Z.eqb_neq in Hst; unfold response_json, bind;
              destruct (json_body r)]]|];
      simpl; rewrite <- ?app_assoc, drop_app_length; simpl;
      report_cases.
  - unfold upload_to_onedrive, try_except, bind, open_rb, requests_put. simpl.
    destruct (decide (path ∈ fs w)) as [Hin | Hout]; simpl;
      [destruct (http (env w) (n_http (cur w))) as [|r] eqn:Hans; simpl;
         [|destruct (status_code r =? 200) eqn:H200; simpl;
             [apply Z.eqb_eq in H200
             |apply Z.eqb_neq in H200;
              destruct (status_code r =? 201) eqn:H201; simpl;
                [apply Z.eqb_eq in H201
                |apply Z.eqb_neq in H201; unfold response_json, bind;
                 destruct (json_body r)]]]|];
      simpl; rewrite <- ?app_assoc, drop_app_length; simpl;
      report_cases.
Qed.

End Upload.

(** ** The upload URL *)

Section UploadUrl.
Context {T : Type} `{PyNum T}.
Implicit Types (self : VideoRecorder T) (w : World T).

#[local] Arguments Z.eqb : simpl never.

(** The one PUT of [upload], when the file can be opened, goes to
    [get_upload_url]. *)
Lemma upload_put_url self (path : string) w :
  path ∈ fs w ->
  put_urls (log (snd (upload self path w)))
  = put_urls (log w) ++ [get_upload_url self path].
Proof.
  intros Hin. unfold upload, try_except, bind, open_rb, requests_put, put_urls.
  destruct (decide _) as [_ | Hn]; [|contradiction].
  destruct (http _ _) as [|r]; simpl.
  - rewrite !omap_app. simpl. now rewrite app_nil_r.
  - destruct (status_code r =? 201); simpl.
    + rewrite !omap_app. simpl. now rewrite app_nil_r.
    + unfold response_json. destruct (json_body r); simpl;
        rewrite !omap_app; simpl; now rewrite !app_nil_r.
Qed.

Lemma upload_to_onedrive_put_url (path access_token folder_id : string) w :
  path ∈ fs w ->
  put_urls (log (snd (upload_to_onedrive path access_token folder_id w)))
  = put_urls (log w) ++ [graph_url folder_id (OsPath.basename path)].
Proof.
  intros Hin.
  unfold upload_to_onedrive, try_except, bind, open_rb, requests_put, put_urls.
  simpl. destruct (decide _) as [_ | Hn]; [|contradiction]. simpl.
  destruct (http _ _) as [|r]; simpl.
  - rewrite !omap_app. simpl. now rewrite !app_nil_r.
  - destruct (_ || _); simpl.
    + rewrite !omap_app. simpl. now rewrite !app_nil_r.
    + unfold response_json. destruct (json_body r); simpl;
        rewrite !omap_app; simpl; now rewrite !app_nil_r.
Qed.

(** C10.  The upload URL is made of the folder id and of the base name of
    the path and of nothing else: two recorders with the same folder id
    and two paths with the same base name get the same URL from
    [get_upload_url], it is the URL [upload_to_onedrive] builds, and it is
    where the PUT of either file goes, in either routine.  Files of one
    name in two directories are such paths. *)
Theorem upload_url_of_folder_and_basename self1 self2
    (path1 path2 token1 token2 : string) :
  folder_id self1 = folder_id self2 ->
  OsPath.basename path1 = OsPath.basename path2 ->
  let url := graph_url (folder_id self1) (OsPath.basename path1) in
  get_upload_url self1 path1 = url
  /\ get_upload_url self2 path2 = url
  /\ (forall w1 w2 : World T, path1 ∈ fs w1 -> path2 ∈ fs w2 ->
        put_urls (log (snd (upload self1 path1 w1))) = put_urls (log w1) ++ [url]
        /\ put_urls (log (snd (upload self2 path2 w2))) = put_urls (log w2) ++ [url]
        /\ put_urls (log (snd (upload_to_onedrive path1 token1 (folder_id self1) w1)))
           = put_urls (log w1) ++ [url]
        /\ put_urls (log (snd (upload_to_onedrive path2 token2 (folder_id self2) w2)))
           = put_urls (log w2) ++ [url])
  /\ (forall dir1 dir2 name : string,
        PyStr.contains OsPath.sep name = false ->
        get_upload_url self1 (OsPath.join dir1 name)
        = get_upload_url self2 (OsPath.join dir2 name)).
Proof.
  intros Hfolder Hbase url. subst url.
  repeat split.
  - unfold get_upload_url. now rewrite <- Hfolder, Hbase.
  - rewrite (upload_put_url self1 path1 w1) by assumption. reflexivity.
  - rewrite (upload_put_url self2 path2 w2) by assumption.
    unfold get_upload_url. now rewrite <- Hfolder, Hbase.
  - now apply upload_to_onedrive_put_url.
  - rewrite (upload_to_onedrive_put_url path2 token2 (folder_id self2) w2) by assumption.
    now rewrite <- Hfolder, Hbase.
  - intros dir1 dir2 name Hname. unfold get_upload_url.
    rewrite !OsPathFacts.basename_join by exact Hname. now rewrite Hfolder.
Qed.

End UploadUrl.

(** ** Segment names and compressed names *)

Module StampFacts.
Import PyStr PyStrFacts.

#[local] Arguments Ascii.eqb : simpl never.

(** A character that is no digit does not occur in a number written in
    decimal. *)
Lemma uint_chars (c : ascii) (d : Decimal.uint) :
  contains c "0123456789" = false ->
  contains c (NilEmpty.string_of_uint d) = false.
Proof.
  intros Hc. simpl in Hc.
  repeat (apply orb_false_iff in Hc as [? Hc]).
  induction d as [|d IH|d IH|d IH|d IH|d IH|d IH|d IH|d IH|d IH|d IH]; simpl;
    [reflexivity | apply orb_false_iff; split; assumption ..].
Qed.

Lemma decimal_chars (c : ascii) (n : nat) :
  contains c "0123456789" = false -> contains c (decimal n) = false.
Proof.
  intros Hc. unfold decimal, NilZero.string_of_uint.
  destruct (Nat.to_uint n) eqn:Hn; try (rewrite <- Hn; now apply uint_chars).
  simpl in *. repeat (apply orb_false_iff in Hc as [? Hc]).
  apply orb_false_iff. split; [assumption | reflexivity].
Qed.

Lemma pad2_chars (c : ascii) (n : nat) :
  contains c "0123456789" = false -> contains c (pad2 n) = false.
Proof.
  intros Hc. unfold pad2. destruct (n <? 10)%nat.
  - rewrite contains_append, (decimal_chars c n Hc).
    simpl in *. repeat (apply orb_false_iff in Hc as [? Hc]).
    apply orb_false_iff. split; [|reflexivity].
    apply orb_false_iff. split; [assumption | reflexivity].
  - now apply decimal_chars.
Qed.

(** The time stamp holds neither a separator nor a dot. *)
Lemma stamp_chars (c : ascii) (t : struct_time) :
  contains c "0123456789-_" = false -> contains c (strftime_stamp t) = false.
Proof.
  intros Hc.
  assert (Hd : contains c "0123456789" = false).
  { simpl in *. repeat (apply orb_false_iff in Hc as [? Hc]).
    repeat (apply orb_false_iff; split; try assumption). }
  assert (Hm : contains c "-" = false /\ contains c "_" = false).
  { simpl in *. repeat (apply orb_false_iff in Hc as [? Hc]).
    split; apply orb_false_iff; split; assumption || reflexivity. }
  destruct Hm as [Hm Hu].
  unfold strftime_stamp.
  rewrite !contains_append, !pad2_chars, decimal_chars, Hm, Hu by assumption.
  reflexivity.
Qed.

End StampFacts.

Module NameFacts.
Import PyStr PyStrFacts OsPath OsPathFacts.

#[local] Arguments String.append !_ _ / : simpl nomatch.

Lemma take_append_length (a b : string) : take (String.length a) (a +:+ b) = a.
Proof. induction a as [|x r IH]; simpl; [now destruct b | f_equal; exact IH]. Qed.

Lemma get_append_length (a b : string) (c : ascii) :
  String.get (String.length a) (a +:+ String c b) = Some c.
Proof. induction a as [|x r IH]; simpl; [reflexivity | exact IH]. Qed.

Lemma rfind_dir (a : string) :
  a = "" \/ endswith a sep = true ->
  rfind sep a = Z.of_nat (String.length a) - 1.
Proof.
  intros [-> | Ha]; [reflexivity|].
  destruct (endswith_split _ _ Ha) as [r ->].
  unfold rfind. rewrite rfind_from_append, length_append. simpl. lia.
Qed.

(** [splitext] of a directory part, a name that starts with a character
    other than the dot, a dot, and an extension. *)
Lemma splitext_stem_ext (a stem e : string) (c : ascii) :
  a = "" \/ endswith a sep = true ->
  c <> extsep ->
  contains sep (String c stem) = false ->
  contains sep e = false ->
  contains extsep e = false ->
  splitext (a +:+ String c stem +:+ String extsep e)
  = (a +:+ String c stem, String extsep e).
Proof.
  intros Ha Hc Hstem Hse He.
  set (q := a +:+ String c stem).
  assert (Hp : a +:+ String c stem +:+ String extsep e = q +:+ String extsep e).
  { unfold q. now rewrite append_assoc. }
  assert (Hsep : rfind sep (a +:+ String c stem +:+ String extsep e)
                 = Z.of_nat (String.length a) - 1).
  { unfold rfind. rewrite rfind_from_append, rfind_from_absent.
    - now apply rfind_dir.
    - rewrite contains_append, Hstem. simpl. exact Hse. }
  assert (Hdot : rfind extsep (a +:+ String c stem +:+ String extsep e)
                 = Z.of_nat (String.length q)).
  { rewrite Hp. unfold rfind. rewrite rfind_from_append. simpl.
    now rewrite rfind_from_absent. }
  assert (Hlen : String.length q = (String.length a + S (String.length stem))%nat).
  { unfold q. now rewrite length_append. }
  unfold splitext. rewrite Hsep, Hdot.
  replace (Z.of_nat (String.length q) >? Z.of_nat (String.length a) - 1) with true
    by (symmetry; apply Z.gtb_lt; lia).
  replace (Z.to_nat (Z.of_nat (String.length q) - (Z.of_nat (String.length a) - 1)))
    with (S (S (String.length stem))) by lia.
  simpl has_stem.
  replace (Z.of_nat (String.length a) - 1 + 1 <? Z.of_nat (String.length q)) with true
    by (symmetry; apply Z.ltb_lt; lia).
  unfold char_at.
  replace (Z.to_nat (Z.of_nat (String.length a) - 1 + 1)) with (String.length a) by lia.
  rewrite get_append_length.
  replace (String.eqb (String c "") (String extsep "")) with false.
  2: { symmetry. apply String.eqb_neq. congruence. }
  simpl andb. cbv iota.
  rewrite Hp. unfold slice_to, slice_from.
  rewrite bound_length_append, take_append_length, drop_append_length. reflexivity.
Qed.

End NameFacts.

Module SplitextFacts.
Import PyStr PyStrFacts OsPath OsPathFacts NameFacts.

#[local] Arguments String.append !_ _ / : simpl nomatch.
#[local] Arguments Ascii.eqb : simpl never.

Lemma contains_get (c : ascii) (s : string) :
  contains c s = true -> exists k, (k < String.length s)%nat /\ String.get k s = Some c.
Proof.
  induction s as [|a r IH]; simpl; [discriminate|].
  destruct (Ascii.eqb a c) eqn:Ha; simpl.
  - intros _. apply Ascii.eqb_eq in Ha. subst a. exists 0%nat. split; [lia | reflexivity].
  - intros Hr. destruct (IH Hr) as (k & Hk & Hg). exists (S k). split; [lia | exact Hg].
Qed.

Lemma get_contains (c : ascii) (s : string) (k : nat) :
  String.get k s = Some c -> contains c s = true.
Proof.
  revert k; induction s as [|a r IH]; intros k Hg; simpl in *; [discriminate|].
  destruct k as [|k].
  - injection Hg as ->. now rewrite Ascii.eqb_refl.
  - rewrite (IH k Hg). apply orb_true_r.
Qed.

Lemma get_in_range (s : string) (k : nat) :
  (k < String.length s)%nat -> exists c, String.get k s = Some c.
Proof.
  revert k; induction s as [|a r IH]; intros k Hk; simpl in *; [lia|].
  destruct k as [|k]; [now exists a | apply IH; lia].
Qed.

Lemma get_drop (n k : nat) (s : string) :
  String.get k (drop n s) = String.get (n + k) s.
Proof.
  revert s; induction n as [|n IH]; intros s; simpl; [reflexivity|].
  destruct s as [|a r]; [now destruct k | apply IH].
Qed.

Lemma get_take (n k : nat) (s : string) :
  (k < n)%nat -> String.get k (take n s) = String.get k s.
Proof.
  revert k s; induction n as [|n IH]; intros k s Hk; [lia|].
  destruct s as [|a r]; simpl; [reflexivity|].
  destruct k as [|k]; [reflexivity | apply IH; lia].
Qed.

Lemma contains_take (c : ascii) (n : nat) (s : string) :
  contains c s = false -> contains c (take n s) = false.
Proof.
  revert s; induction n as [|n IH]; intros [|a r] Hc; simpl in *; try reflexivity.
  apply orb_false_iff in Hc as [Ha Hr]. rewrite Ha. now apply IH.
Qed.

Lemma endswith_take (c : ascii) (n : nat) (s : string) :
  String.get n s = Some c -> endswith (take (S n) s) c = true.
Proof.
  revert s; induction n as [|n IH]; intros [|a r] Hg; simpl in *; try discriminate.
  - injection Hg as ->. apply Ascii.eqb_refl.
  - specialize (IH r Hg). destruct r as [|b r']; [discriminate|].
    simpl in *. exact IH.
Qed.

(** The loop finds a character other than the dot when there is one in
    the range it walks. *)
Lemma has_stem_true (fuel : nat) (p : string) (i d : Z) (k : nat) (c : ascii) :
  0 <= i -> (k < fuel)%nat -> i + Z.of_nat k < d ->
  String.get (Z.to_nat i + k) p = Some c -> c <> extsep ->
  has_stem fuel p i d = true.
Proof.
  revert i k; induction fuel as [|n IH]; intros i k Hi Hk Hd Hg Hc; [lia|].
  simpl. replace (i <? d) with true by (symmetry; apply Z.ltb_lt; lia).
  unfold char_at. destruct (String.get (Z.to_nat i) p) as [a|] eqn:Ha; [|reflexivity].
  destruct (String.eqb (String a "") (String extsep "")) eqn:He; [|reflexivity].
  simpl. apply String.eqb_eq in He. injection He as ->.
  destruct k as [|k].
  - rewrite Nat.add_0_r, Ha in Hg. congruence.
  - apply (IH (i + 1) k); try lia; [|exact Hc].
    replace (Z.to_nat (i + 1) + k)%nat with (Z.to_nat i + S k)%nat by lia.
    exact Hg.
Qed.

(** And only then. *)
Lemma has_stem_inv (fuel : nat) (p : string) (i d : Z) :
  has_stem fuel p i d = true ->
  exists j, i <= j < d /\ String.eqb (char_at j p) (String extsep "") = false.
Proof.
  revert i; induction fuel as [|n IH]; intros i; simpl; [discriminate|].
  destruct (Z.ltb_spec i d) as [Hlt | _]; [|discriminate].
  destruct (String.eqb (char_at i p) (String extsep "")) eqn:He; simpl.
  - intros Hr. destruct (IH _ Hr) as (j & Hj & Hjc). exists j. split; [lia | exact Hjc].
  - intros _. exists i. split; [lia | exact He].
Qed.

(** [splitext] of a directory part, a name in which some character is not
    the dot, a dot, and an extension. *)
Lemma splitext_name_ext (a stem e : string) (c : ascii) :
  a = "" \/ endswith a sep = true ->
  c <> extsep ->
  contains c stem = true ->
  contains sep stem = false ->
  contains sep e = false ->
  contains extsep e = false ->
  splitext (a +:+ stem +:+ String extsep e) = (a +:+ stem, String extsep e).
Proof.
  intros Ha Hc Hin Hstem Hse He.
  set (q := a +:+ stem).
  assert (Hp : a +:+ stem +:+ String extsep e = q +:+ String extsep e).
  { unfold q. now rewrite append_assoc. }
  assert (Hsep : rfind sep (a +:+ stem +:+ String extsep e)
                 = Z.of_nat (String.length a) - 1).
  { unfold rfind. rewrite rfind_from_append, rfind_from_absent.
    - now apply rfind_dir.
    - rewrite contains_append, Hstem. simpl. exact Hse. }
  assert (Hdot : rfind extsep (a +:+ stem +:+ String extsep e)
                 = Z.of_nat (String.length q)).
  { rewrite Hp. unfold rfind. rewrite rfind_from_append. simpl.
    now rewrite rfind_from_absent. }
  assert (Hlen : String.length q = (String.length a + String.length stem)%nat).
  { unfold q. now rewrite length_append. }
  destruct (contains_get c stem Hin) as (k & Hk & Hg).
  unfold splitext. rewrite Hsep, Hdot.
  replace (Z.of_nat (String.length q) >? Z.of_nat (String.length a) - 1) with true
    by (symmetry; apply Z.gtb_lt; lia).
  rewrite (has_stem_true _ _ _ _ k c); try lia; try assumption.
  - simpl andb. cbv iota.
    rewrite Hp. unfold slice_to, slice_from.
    rewrite bound_length_append, take_append_length, drop_append_length. reflexivity.
  - replace (Z.to_nat (Z.of_nat (String.length a) - 1 + 1) + k)%nat
      with (k + String.length a)%nat by lia.
    rewrite <- String.append_correct2.
    rewrite <- String.append_correct1 by exact Hk. exact Hg.
Qed.

(** An extension that is not empty comes from such a path. *)
Lemma splitext_ext_inv (p : string) :
  snd (splitext p) <> "" ->
  exists a stem x c,
    p = a +:+ stem +:+ String extsep x
    /\ (a = "" \/ endswith a sep = true)
    /\ c <> extsep
    /\ contains c stem = true
    /\ contains sep stem = false
    /\ contains sep x = false
    /\ contains extsep x = false.
Proof.
  intros Hext.
  destruct (splitext_ext p) as [He | (x & Hx & Hxd & Hxs)]; [contradiction|].
  revert Hext Hx. unfold splitext.
  destruct (rfind extsep p >? rfind sep p) eqn:Hgt; simpl;
    [|rewrite slice_to_0; contradiction].
  destruct (has_stem _ _ _ _) eqn:Hstem; simpl; [|rewrite slice_to_0; contradiction].
  intros _ Hx. apply Z.gtb_lt in Hgt.
  pose proof (rfind_range sep p) as Hs.
  pose proof (rfind_range extsep p) as Hd.
  set (s := rfind sep p) in *. set (d := rfind extsep p) in *.
  unfold slice_from in Hx. rewrite bound_in_range in Hx by lia.
  destruct (has_stem_inv _ _ _ _ Hstem) as (j & Hj & Hjc).
  set (n := Z.to_nat (s + 1)). set (m := Z.to_nat (d - (s + 1))).
  assert (Hrest : drop m (drop n p) = String extsep x).
  { rewrite drop_drop. replace (n + m)%nat with (Z.to_nat d) by lia. exact Hx. }
  destruct (get_in_range p (Z.to_nat j) ltac:(lia)) as [c Hc].
  exists (take n p), (take m (drop n p)), x, c.
  repeat split.
  - rewrite <- Hrest, take_drop_id, take_drop_id. reflexivity.
  - destruct (Z.eq_dec s (-1)) as [Hs1 | Hs1].
    + left. unfold n. rewrite Hs1. reflexivity.
    + right. unfold n. replace (Z.to_nat (s + 1)) with (S (Z.to_nat s)) by lia.
      apply endswith_take. apply rfind_get. fold s. lia.
  - intros ->. unfold char_at in Hjc. rewrite Hc in Hjc.
    now rewrite String.eqb_refl in Hjc.
  - apply (get_contains c _ (Z.to_nat j - n)).
    rewrite get_take by lia. rewrite get_drop.
    replace (n + (Z.to_nat j - n))%nat with (Z.to_nat j) by lia. exact Hc.
  - apply contains_take.
    pose proof (rfind_from_last sep p 0 (-1) ltac:(lia)) as Hl.
    rewrite Z.sub_0_r in Hl. exact Hl.
  - exact Hxs.
  - exact Hxd.
Qed.

End SplitextFacts.

Module StampFormat.
Import DecimalNat.

(** Below a hundred, [pad2] writes the tens and the units. *)
Lemma pad2_two_digits (n : nat) : (n < 100)%nat -> pad2 n = spec_two_digits n.
Proof.
  intros Hn.
  assert (Hall : forallb (fun a => String.eqb (pad2 a) (spec_two_digits a)) (seq 0 100)
                 = true) by (vm_compute; reflexivity).
  rewrite forallb_forall in Hall.
  apply String.eqb_eq, Hall, in_seq. lia.
Qed.

(** The digits of [10 * q + r], the least significant first. *)
Lemma to_lu_step (q r : nat) :
  q <> 0%nat ->
  Unsigned.to_lu (10 * q + r)
  = Nat.iter r Decimal.Little.succ (Decimal.D0 (Unsigned.to_lu q)).
Proof.
  intros Hq. induction r as [|r IH].
  - rewrite Nat.add_0_r. now apply Unsigned.to_lu_tenfold.
  - replace (10 * q + S r)%nat with (S (10 * q + r)) by lia.
    rewrite Unsigned.to_lu_succ, IH. reflexivity.
Qed.

Lemma to_lu_iter (a : nat) :
  Unsigned.to_lu a = Nat.iter a Decimal.Little.succ (Decimal.D0 Decimal.Nil).
Proof.
  induction a as [|a IH]; [reflexivity|].
  rewrite Unsigned.to_lu_succ, IH. reflexivity.
Qed.

Lemma spec_digit_mod (k : nat) : spec_digit (Nat.modulo k 10) = spec_digit k.
Proof. unfold spec_digit. now rewrite Nat.Div0.mod_mod. Qed.

(** A year of four digits is written with these four digits. *)
Lemma decimal_four_digits (n : nat) :
  1000 <= Z.of_nat n <= 9999 -> decimal n = spec_four_digits n.
Proof.
  intros Hn.
  set (a := Nat.div n 1000). set (b := Nat.modulo (Nat.div n 100) 10).
  set (c := Nat.modulo (Nat.div n 10) 10). set (d := Nat.modulo n 10).
  assert (Hall :
    forallb (fun a => forallb (fun b => forallb (fun c => forallb (fun d =>
      String.eqb
        (NilZero.string_of_uint
           (Decimal.rev
              (Nat.iter d Decimal.Little.succ (Decimal.D0
                 (Nat.iter c Decimal.Little.succ (Decimal.D0
                    (Nat.iter b Decimal.Little.succ (Decimal.D0
                       (Nat.iter a Decimal.Little.succ
                          (Decimal.D0 Decimal.Nil))))))))))
        (String (spec_digit a) (String (spec_digit b)
           (String (spec_digit c) (String (spec_digit d) ""))))
      ) (seq 0 10)) (seq 0 10)) (seq 0 10)) (seq 1 9) = true)
    by (vm_compute; reflexivity).
  rewrite forallb_forall in Hall.
  pose proof (Nat.div_mod_eq n 10) as H1.
  pose proof (Nat.div_mod_eq (Nat.div n 10) 10) as H2.
  pose proof (Nat.div_mod_eq (Nat.div n 100) 10) as H3.
  assert (E2 : Nat.div (Nat.div n 10) 10 = Nat.div n 100)
    by (rewrite Nat.Div0.div_div; reflexivity).
  assert (E3 : Nat.div (Nat.div n 100) 10 = Nat.div n 1000)
    by (rewrite Nat.Div0.div_div; reflexivity).
  rewrite E2 in H2. rewrite E3 in H3. fold a in H3. fold b in H3. fold c in H2.
  fold d in H1.
  assert (Hd : (d < 10)%nat) by (apply Nat.mod_upper_bound; lia).
  assert (Hc : (c < 10)%nat) by (apply Nat.mod_upper_bound; lia).
  assert (Hb : (b < 10)%nat) by (apply Nat.mod_upper_bound; lia).
  assert (Ha : (1 <= a < 10)%nat) by lia.
  specialize (Hall a ltac:(apply in_seq; lia)).
  rewrite forallb_forall in Hall. specialize (Hall b ltac:(apply in_seq; lia)).
  rewrite forallb_forall in Hall. specialize (Hall c ltac:(apply in_seq; lia)).
  rewrite forallb_forall in Hall. specialize (Hall d ltac:(apply in_seq; lia)).
  apply String.eqb_eq in Hall.
  unfold spec_four_digits, spec_two_digits.
  rewrite <- (spec_digit_mod (Nat.div n 100)), <- (spec_digit_mod (Nat.div n 10)),
    <- (spec_digit_mod n).
  fold a b c d. rewrite <- Hall.
  unfold decimal. rewrite Unsigned.to_uint_alt. do 2 f_equal.
  assert (L3 : Unsigned.to_lu (Nat.div n 100)
               = Nat.iter b Decimal.Little.succ (Decimal.D0
                   (Nat.iter a Decimal.Little.succ (Decimal.D0 Decimal.Nil)))).
  { rewrite H3, to_lu_step by lia. now rewrite to_lu_iter. }
  assert (L2 : Unsigned.to_lu (Nat.div n 10)
               = Nat.iter c Decimal.Little.succ (Decimal.D0
                   (Unsigned.to_lu (Nat.div n 100)))).
  { rewrite H2 at 1. rewrite to_lu_step by lia. reflexivity. }
  assert (L1 : Unsigned.to_lu n
               = Nat.iter d Decimal.Little.succ (Decimal.D0
                   (Unsigned.to_lu (Nat.div n 10)))).
  { rewrite H1 at 1. rewrite to_lu_step by lia. reflexivity. }
  now rewrite L1, L2, L3.
Qed.
Lemma stamp_format (t : struct_time) :
  localtime_range t -> 1000 <= Z.of_nat (tm_year t) <= 9999 ->
  strftime_stamp t = spec_timestamp t.
Proof.
  intros (Hm & Hd & HH & HM & HS) Hy.
  unfold strftime_stamp, spec_timestamp.
  rewrite decimal_four_digits by exact Hy.
  rewrite !pad2_two_digits by lia. reflexivity.
Qed.

End StampFormat.

Section Names.
Context {T : Type} `{PyNum T}.
Implicit Types (self : VideoRecorder T) (w : World T).
Import PyStr PyStrFacts OsPath OsPathFacts StampFacts NameFacts.
Import SplitextFacts StampFormat.

Lemma endswith_app_sep (a : string) : endswith (a +:+ String sep "") sep = true.
Proof.
  induction a as [|x r IH]; [reflexivity|].
  destruct r as [|y r']; [reflexivity | exact IH].
Qed.

(** The directory part [os.path.join] puts before a name: the directory,
    with a separator unless it is empty or ends with one. *)
Lemma join_dir (dir name : string) :
  startswith name sep = false ->
  let glue := if String.eqb dir "" || endswith dir sep then "" else "/" in
  join dir name = (dir +:+ glue) +:+ name
  /\ (dir +:+ glue = "" \/ endswith (dir +:+ glue) sep = true).
Proof.
  intros Hname glue. subst glue. unfold join. rewrite Hname.
  destruct (String.eqb dir "") eqn:Hd; simpl.
  - apply String.eqb_eq in Hd. subst dir. split; [reflexivity | now left].
  - destruct (endswith dir sep) eqn:He; rewrite ?append_empty_r.
    + split; [reflexivity | now right].
    + split; [now rewrite append_assoc | right; apply endswith_app_sep].
Qed.

Lemma compressed_name_parts (input_file : string) :
  compressed_name input_file
  = fst (splitext input_file) +:+ "_compressed" +:+ snd (splitext input_file).
Proof. unfold compressed_name. now destruct (splitext input_file). Qed.

(** C8.  When the local time read has a year of four digits,
    [generate_filename] returns the output directory, a separator unless
    the directory is empty or ends with one, and the name
    [video_YYYY-MM-DD_HH-MM-SS.mp4], each field of the time on its decimal
    digits with leading zeros and the seconds last: that name, of 29
    characters, is the base name of the path, and the compressed name of
    the path is [video_YYYY-MM-DD_HH-MM-SS_compressed.mp4] in the same
    directory.  For every input path the compressed name, the output the
    transcoder is run with, is the root [splitext] returns, [_compressed],
    and the extension it returns, which together make up the path; the
    extension is not empty exactly when the path is a directory part, a
    name without separator in which some character is not the dot, a dot,
    and a part with neither dot nor separator, and then the extension is
    that dot and that part; otherwise [_compressed] is put at the end. *)
Theorem segment_and_compressed_names self w :
  let dir := output_directory self in
  let t := wall (env w) (n_wall (cur w)) in
  localtime_range t ->
  1000 <= Z.of_nat (tm_year t) <= 9999 ->
  let glue := if String.eqb dir "" || endswith dir sep then "" else "/" in
  let generated := (dir +:+ glue) +:+ spec_segment_name t in
  (generate_filename self w = (Ret generated, set_cur (tick_wall (cur w)) w)
   /\ generated = join dir (spec_segment_name t)
   /\ basename generated = spec_segment_name t
   /\ String.length (spec_segment_name t) = 29%nat
   /\ splitext generated = ((dir +:+ glue) +:+ "video_" +:+ spec_timestamp t, ".mp4")
   /\ compressed_name generated
      = (dir +:+ glue) +:+ "video_" +:+ spec_timestamp t +:+ "_compressed.mp4")
  /\ (forall input_file : string,
        compressed_name input_file
        = fst (splitext input_file) +:+ "_compressed" +:+ snd (splitext input_file)
        /\ fst (splitext input_file) +:+ snd (splitext input_file) = input_file
        /\ (snd (splitext input_file) = ""
            -> compressed_name input_file = input_file +:+ "_compressed")
        /\ (snd (splitext input_file) <> ""
            <-> exists a stem x c,
                  input_file = a +:+ stem +:+ String extsep x
                  /\ (a = "" \/ endswith a sep = true)
                  /\ c <> extsep
                  /\ contains c stem = true
                  /\ contains sep stem = false
                  /\ contains sep x = false
                  /\ contains extsep x = false)
        /\ exists rest,
             log (snd (compress_video self input_file w))
             = log w
               ++ SubprocessRun
                    ["ffmpeg"; "-i"; input_file;
                     "-vcodec"; "libx264"; "-crf"; "28"; "-preset"; "fast";
                     fst (splitext input_file) +:+ "_compressed"
                     +:+ snd (splitext input_file); "-y"] :: rest)
  /\ (forall (a stem x : string) (c : ascii),
        a = "" \/ endswith a sep = true ->
        c <> extsep ->
        contains c stem = true ->
        contains sep stem = false ->
        contains sep x = false ->
        contains extsep x = false ->
        splitext (a +:+ stem +:+ String extsep x) = (a +:+ stem, String extsep x)
        /\ compressed_name (a +:+ stem +:+ String extsep x)
           = (a +:+ stem) +:+ "_compressed" +:+ String extsep x).
Proof.
  intros dir t Hrange Hyear glue generated.
  pose proof (stamp_format t Hrange Hyear) as Hstamp.
  assert (Hsep : contains sep (spec_segment_name t) = false).
  { unfold spec_segment_name. rewrite !contains_append, <- Hstamp.
    rewrite stamp_chars by reflexivity. reflexivity. }
  destruct (join_dir dir (spec_segment_name t) (startswith_contains _ _ Hsep))
    as [Hjoin Hdir].
  fold glue in Hjoin, Hdir. fold generated in Hjoin.
  assert (Hsplit : splitext generated
                   = ((dir +:+ glue) +:+ "video_" +:+ spec_timestamp t, ".mp4")).
  { unfold generated, spec_segment_name.
    change ("video_" +:+ spec_timestamp t +:+ ".mp4")
      with (String "v" (("ideo_" +:+ spec_timestamp t) +:+ String extsep "mp4")).
    change ("video_" +:+ spec_timestamp t)
      with (String "v" ("ideo_" +:+ spec_timestamp t)).
    apply splitext_stem_ext; try reflexivity; try assumption; try discriminate. }
  split; [|split].
  - split; [|split; [|split; [|split; [|split]]]].
    + rewrite <- Hjoin. unfold spec_segment_name.
      rewrite <- Hstamp. reflexivity.
    + now rewrite Hjoin.
    + rewrite <- Hjoin. now apply basename_join.
    + reflexivity.
    + exact Hsplit.
    + rewrite compressed_name_parts, Hsplit. cbn [fst snd].
      rewrite !append_assoc. reflexivity.
  - intros input_file.
    split; [apply compressed_name_parts|].
    split; [apply splitext_app|].
    split; [|split].
    + intros Hnone. rewrite compressed_name_parts.
      pose proof (splitext_app input_file) as Happ.
      rewrite Hnone in Happ |- *. rewrite append_empty_r in Happ |- *.
      now rewrite Happ.
    + split; [apply splitext_ext_inv|].
      intros (a & stem & x & c & -> & Ha & Hc & Hin & Hstem & Hxs & Hxd).
      rewrite (splitext_name_ext a stem x c) by assumption. discriminate.
    + rewrite <- compressed_name_parts.
      unfold compress_video, try_except, bind, subprocess_run_check, os_remove.
      destruct (starts _ _); [|simpl; eexists; reflexivity].
      destruct (returncode _ =? 0); simpl.
      * destruct (decide _); simpl; eexists; rewrite <- ?app_assoc; reflexivity.
      * eexists. rewrite <- !app_assoc. reflexivity.
  - intros a stem x c Ha Hc Hin Hstem Hxs Hxd.
    pose proof (splitext_name_ext a stem x c Ha Hc Hin Hstem Hxs Hxd) as Hs.
    split; [exact Hs|].
    rewrite compressed_name_parts, Hs. reflexivity.
Qed.

End Names.

(** ** The capture loop *)

(** Projections of a world that was updated. *)
Ltac world_simpl :=
  cbn [env cur fs log set_cur set_fs emit
       tick_clock tick_wall tick_cam tick_key tick_proc tick_http
       n_clock n_wall n_cam n_key n_proc n_http].

(** Two worlds are equal when their four components are. *)
Lemma world_ext {T} (w1 w2 : World T) :
  env w1 = env w2 -> cur w1 = cur w2 -> fs w1 = fs w2 -> log w1 = log w2 ->
  w1 = w2.
Proof. destruct w1, w2; simpl; congruence. Qed.

Lemma cursors_ext (c1 c2 : Cursors) :
  n_clock c1 = n_clock c2 -> n_wall c1 = n_wall c2 -> n_cam c1 = n_cam c2 ->
  n_key c1 = n_key c2 -> n_proc c1 = n_proc c2 -> n_http c1 = n_http c2 ->
  c1 = c2.
Proof. destruct c1, c2; simpl; congruence. Qed.

Ltac world_eq :=
  apply world_ext; [| apply cursors_ext | |];
  unfold advance; world_simpl; cbn [Nat.add];
  rewrite <- ?app_assoc; cbn [app]; rewrite ?app_nil_r; reflexivity.

Section Capture.
Context {T : Type} `{PyNum T}.
Implicit Types (self : VideoRecorder T) (w : World T).

#[local] Arguments Z.eqb : simpl never.
#[local] Arguments Z.land : simpl never.

(** The condition of the loop fails: the loop ends, one reading of the
    clock consumed. *)
Lemma frame_loop_expired self (n : nat) (f : string) (end_time fi : T) w :
  nlt (clock (env w) (n_clock (cur w))) end_time = false ->
  frame_loop self (S n) f end_time fi w = (Ret LoopEnd, advance 1 0 0 [] w).
Proof.
  intros Hend. cbn [frame_loop]. unfold bind, time_monotonic. rewrite Hend.
  unfold ret. f_equal; world_eq.
Qed.

(** The read reports not-ok: the message, and [break]. *)
Lemma frame_loop_read_failed self (n : nat) (f : string) (end_time fi : T) w :
  nlt (clock (env w) (n_clock (cur w))) end_time = true ->
  fst (cam (env w) (n_cam (cur w))) = false ->
  frame_loop self (S n) f end_time fi w
  = (Ret LoopEnd, advance 2 1 0 [Print MsgCaptureFailed] w).
Proof.
  intros Hend Hret. cbn [frame_loop]. unfold bind, time_monotonic, cap_read.
  world_simpl. rewrite Hend. world_simpl. rewrite Hret. cbn [negb].
  unfold print, act, bind, ret. f_equal; world_eq.
Qed.

(** A frame is written and no stop is asked for: the loop goes on. *)
Lemma frame_loop_frame self (n : nat) (f : string) (end_time fi : T) w :
  nlt (clock (env w) (n_clock (cur w))) end_time = true ->
  fst (cam (env w) (n_cam (cur w))) = true ->
  Z.land (keys (env w) (n_key (cur w))) 255 <> 113 ->
  let frame := snd (cam (env w) (n_cam (cur w))) in
  let d := nsub fi (nsub (clock (env w) (S (S (n_clock (cur w)))))
                      (clock (env w) (S (n_clock (cur w))))) in
  frame_loop self (S n) f end_time fi w
  = frame_loop self n f end_time fi
      (advance 3 1 1
         ([WriterWrite f frame; Imshow frame]
          ++ (if nlt nzero d then [Sleep d] else [])) w).
Proof.
  intros Hend Hret Hkey%Z.eqb_neq frame d.
  cbn [frame_loop]. unfold bind, time_monotonic, cap_read, wait_key.
  world_simpl. rewrite Hend. world_simpl. rewrite Hret. cbn [negb].
  unfold writer_write, imshow, act. world_simpl. fold frame d.
  destruct (nlt nzero d); unfold time_sleep, act, ret; world_simpl;
    rewrite Hkey; f_equal; world_eq.
Qed.

(** A frame is written and the key is [q]: the writer and the camera are
    released and the function returns. *)
Lemma frame_loop_stop self (n : nat) (f : string) (end_time fi : T) w :
  nlt (clock (env w) (n_clock (cur w))) end_time = true ->
  fst (cam (env w) (n_cam (cur w))) = true ->
  Z.land (keys (env w) (n_key (cur w))) 255 = 113 ->
  let frame := snd (cam (env w) (n_cam (cur w))) in
  let d := nsub fi (nsub (clock (env w) (S (S (n_clock (cur w)))))
                      (clock (env w) (S (n_clock (cur w))))) in
  frame_loop self (S n) f end_time fi w
  = (Ret LoopReturn,
     advance 3 1 1
       ([WriterWrite f frame; Imshow frame]
        ++ (if nlt nzero d then [Sleep d] else [])
        ++ [Print MsgStopping; WriterRelease f; CapRelease; DestroyAllWindows]) w).
Proof.
  intros Hend Hret Hkey%Z.eqb_eq frame d.
  cbn [frame_loop]. unfold bind, time_monotonic, cap_read, wait_key.
  world_simpl. rewrite Hend. world_simpl. rewrite Hret. cbn [negb].
  unfold writer_write, imshow, act. world_simpl. fold frame d.
  destruct (nlt nzero d); unfold time_sleep, act, ret; world_simpl;
    rewrite Hkey; unfold print, writer_release, close_camera, bind,
      cap_release, destroy_all_windows, act, ret;
    world_simpl; f_equal; world_eq.
Qed.


(** *** One segment, from the top of its frame loop *)

Lemma segment_rest_stop self (next : M T unit) (n : nat) (f : string)
    (end_time fi : T) w :
  nlt (clock (env w) (n_clock (cur w))) end_time = true ->
  fst (cam (env w) (n_cam (cur w))) = true ->
  Z.land (keys (env w) (n_key (cur w))) 255 = 113 ->
  let frame := snd (cam (env w) (n_cam (cur w))) in
  let d := nsub fi (nsub (clock (env w) (S (S (n_clock (cur w)))))
                      (clock (env w) (S (n_clock (cur w))))) in
  segment_rest self next (S n) f end_time fi w
  = (Ret tt,
     advance 3 1 1
       ([WriterWrite f frame; Imshow frame]
        ++ (if nlt nzero d then [Sleep d] else [])
        ++ [Print MsgStopping; WriterRelease f; CapRelease; DestroyAllWindows;
            WriterRelease f; Print (MsgVideoSaved f)]) w).
Proof.
  intros Hend Hret Hkey frame d.
  unfold segment_rest, bind, finally.
  rewrite (frame_loop_stop self n f end_time fi w Hend Hret Hkey).
  fold frame d. unfold writer_release, print, act, ret. f_equal.
  destruct (nlt nzero d); world_eq.
Qed.

Lemma segment_rest_read_failed self (next : M T unit) (n : nat) (f : string)
    (end_time fi : T) w :
  nlt (clock (env w) (n_clock (cur w))) end_time = true ->
  fst (cam (env w) (n_cam (cur w))) = false ->
  segment_rest self next (S n) f end_time fi w
  = next (advance 2 1 0
            [Print MsgCaptureFailed; WriterRelease f; Print (MsgVideoSaved f);
             ThreadStart (TProcess f); Print MsgProcessing] w).
Proof.
  intros Hend Hret.
  unfold segment_rest, bind, finally.
  rewrite (frame_loop_read_failed self n f end_time fi w Hend Hret).
  unfold writer_release, print, process_video, thread_start, act, ret.
  f_equal. world_eq.
Qed.

Lemma segment_rest_expired self (next : M T unit) (n : nat) (f : string)
    (end_time fi : T) w :
  nlt (clock (env w) (n_clock (cur w))) end_time = false ->
  segment_rest self next (S n) f end_time fi w
  = next (advance 1 0 0
            [WriterRelease f; Print (MsgVideoSaved f);
             ThreadStart (TProcess f); Print MsgProcessing] w).
Proof.
  intros Hend.
  unfold segment_rest, bind, finally.
  rewrite (frame_loop_expired self n f end_time fi w Hend).
  unfold writer_release, print, process_video, thread_start, act, ret.
  f_equal. world_eq.
Qed.

Lemma segment_rest_frame self (next : M T unit) (n : nat) (f : string)
    (end_time fi : T) w :
  nlt (clock (env w) (n_clock (cur w))) end_time = true ->
  fst (cam (env w) (n_cam (cur w))) = true ->
  Z.land (keys (env w) (n_key (cur w))) 255 <> 113 ->
  let frame := snd (cam (env w) (n_cam (cur w))) in
  let d := nsub fi (nsub (clock (env w) (S (S (n_clock (cur w)))))
                      (clock (env w) (S (n_clock (cur w))))) in
  segment_rest self next (S n) f end_time fi w
  = segment_rest self next n f end_time fi
      (advance 3 1 1
         ([WriterWrite f frame; Imshow frame]
          ++ (if nlt nzero d then [Sleep d] else [])) w).
Proof.
  intros Hend Hret Hkey frame d.
  unfold segment_rest, bind, finally.
  now rewrite (frame_loop_frame self n f end_time fi w Hend Hret Hkey).
Qed.

Lemma threads_advance (a b c : nat) (evs : list (event T)) w :
  threads (advance a b c evs w)
  = threads w ++ omap (fun e => match e with ThreadStart t => Some t | _ => None end) evs.
Proof. unfold threads, advance. simpl. apply omap_app. Qed.

(** C5.  At a frame on which the key read is [q] (low byte 113), whatever
    the rest of the outer loop would be: the frame is written and paced,
    the writer is released, the camera is released and the windows closed,
    the [finally] clause releases the writer again and prints, and
    [record_continuous] returns.  No thread is started: [process_video] is
    not called for the segment in flight, and the outer loop is not
    resumed. *)
Theorem manual_stop_releases_and_returns self (next : M T unit) (n : nat)
    (video_filename : string) (end_time frame_interval : T) w :
  nlt (clock (env w) (n_clock (cur w))) end_time = true ->
  fst (cam (env w) (n_cam (cur w))) = true ->
  Z.land (keys (env w) (n_key (cur w))) 255 = 113 ->
  let frame := snd (cam (env w) (n_cam (cur w))) in
  let d := nsub frame_interval
             (nsub (clock (env w) (S (S (n_clock (cur w)))))
                   (clock (env w) (S (n_clock (cur w))))) in
  let r := segment_rest self next (S n) video_filename end_time frame_interval w in
  fst r = Ret tt
  /\ log (snd r)
     = log w ++ [WriterWrite video_filename frame; Imshow frame]
         ++ (if nlt nzero d then [Sleep d] else [])
         ++ [Print MsgStopping; WriterRelease video_filename;
             CapRelease; DestroyAllWindows;
             WriterRelease video_filename; Print (MsgVideoSaved video_filename)]
  /\ threads (snd r) = threads w
  /\ fs (snd r) = fs w.
Proof.
  intros Hend Hret Hkey frame d r. subst r.
  rewrite (segment_rest_stop self next n video_filename end_time frame_interval w
             Hend Hret Hkey).
  fold frame d. cbn [fst snd]. repeat split.
  rewrite threads_advance, !omap_app.
  destruct (nlt nzero d); simpl; now rewrite app_nil_r.
Qed.

(** C2, as the code has it.  At a frame whose read reports not-ok, the
    message is printed and the frame loop is left by [break]: the writer is
    released once, by the [finally] clause, the camera is not released, the
    segment is handed to [process_video], and the outer loop goes on with
    the next segment. *)
Theorem read_failure_ends_segment_only self (next : M T unit) (n : nat)
    (video_filename : string) (end_time frame_interval : T) w :
  nlt (clock (env w) (n_clock (cur w))) end_time = true ->
  fst (cam (env w) (n_cam (cur w))) = false ->
  let w' :=
    advance 2 1 0
      [Print MsgCaptureFailed; WriterRelease video_filename;
       Print (MsgVideoSaved video_filename);
       ThreadStart (TProcess video_filename); Print MsgProcessing] w in
  frame_loop self (S n) video_filename end_time frame_interval w
  = (Ret LoopEnd, advance 2 1 0 [Print MsgCaptureFailed] w)
  /\ segment_rest self next (S n) video_filename end_time frame_interval w = next w'
  /\ threads w' = threads w ++ [TProcess video_filename].
Proof.
  intros Hend Hret w'. subst w'. repeat split.
  - now apply frame_loop_read_failed.
  - now apply segment_rest_read_failed.
  - now rewrite threads_advance.
Qed.

End Capture.

(** *** Pacing *)

Section Pacing.
Context {T : Type} `{PyNum T}.
Implicit Types (self : VideoRecorder T) (w : World T).

Lemma sleeps_app (a b : list (event T)) : sleeps (a ++ b) = sleeps a ++ sleeps b.
Proof. apply omap_app. Qed.

Lemma keeps_pace_same {A} self (m : M T A) w :
  snd (m w) = w -> keeps_pace self m w.
Proof.
  intros Hw. unfold keeps_pace. rewrite Hw. split; [reflexivity|].
  exists []. rewrite app_nil_r. split; [reflexivity | constructor].
Qed.

(** A step that adds events without a sleep among them. *)
Lemma keeps_pace_quiet {A} self (m : M T A) w (evs : list (event T)) :
  env (snd (m w)) = env w ->
  log (snd (m w)) = log w ++ evs ->
  sleeps evs = [] ->
  keeps_pace self m w.
Proof.
  intros He Hl Hs. split; [exact He|]. exists evs. split; [exact Hl|].
  rewrite Hs. constructor.
Qed.

Lemma keeps_pace_bind {A B} self (m : M T A) (k : A -> M T B) w :
  keeps_pace self m w ->
  (forall a w', m w = (Ret a, w') -> keeps_pace self (k a) w') ->
  keeps_pace self (bind m k) w.
Proof.
  intros [He (evs & Hl & Hp)] Hk. unfold keeps_pace, bind.
  destruct (m w) as [[a|e|] w1] eqn:Hm; simpl in *.
  - destruct (Hk a w1 eq_refl) as [He' (evs' & Hl' & Hp')].
    split; [congruence|]. exists (evs ++ evs'). split.
    + rewrite Hl', Hl. now rewrite app_assoc.
    + rewrite sleeps_app. apply Forall_app. split; [exact Hp|].
      now rewrite <- He.
  - split; [exact He|]. now exists evs.
  - split; [exact He|]. now exists evs.
Qed.

Lemma keeps_pace_finally {A} self (m : M T A) (cleanup : M T unit) w :
  keeps_pace self m w ->
  (forall w', keeps_pace self cleanup w') ->
  keeps_pace self (finally m cleanup) w.
Proof.
  intros [He (evs & Hl & Hp)] Hc. unfold keeps_pace, finally.
  destruct (m w) as [[a|e|] w1] eqn:Hm; simpl in *;
    try (split; [exact He | now exists evs]);
    destruct (Hc w1) as [He' (evs' & Hl' & Hp')];
    destruct (cleanup w1) as [[[]|e'|] w2]; simpl in *;
    (split; [congruence|]); exists (evs ++ evs');
    (split; [rewrite Hl', Hl; now rewrite app_assoc|]);
    rewrite sleeps_app; apply Forall_app; (split; [exact Hp|]);
    now rewrite <- He.
Qed.

Lemma keeps_pace_act self (e : event T) w :
  sleeps [e] = [] -> keeps_pace self (act e) w.
Proof. intros Hs. now apply (keeps_pace_quiet self (act e) w [e]). Qed.

Lemma keeps_pace_advance {A} self (m : M T A) w (a b c : nat)
    (evs : list (event T)) (r : Result A) :
  m w = (r, advance a b c evs w) ->
  Forall (paced_sleep self (env w)) (sleeps evs) ->
  keeps_pace self m w.
Proof.
  intros Hm Hp. unfold keeps_pace. rewrite Hm. simpl.
  split; [reflexivity|]. now exists evs.
Qed.

(** The sleep of one frame, when there is one, is the rest of the frame
    interval. *)
Lemma pace_events_paced self (fi : T) (e : Env T) (k : nat) :
  nrecip (fps self) = Some fi ->
  let d := nsub fi (nsub (clock e (S k)) (clock e k)) in
  Forall (paced_sleep self e) (sleeps (if nlt nzero d then [Sleep d] else [])).
Proof.
  intros Hfi d. destruct (nlt nzero d) eqn:Hd; [|constructor].
  repeat constructor; [exact Hd|]. now exists fi, k.
Qed.

(** The loops only add to the log. *)
Lemma frame_loop_keeps_pace_log self (fuel : nat) (f : string) (end_time fi : T) w :
  exists evs, log (snd (frame_loop self fuel f end_time fi w)) = log w ++ evs.
Proof.
  revert w. induction fuel as [|n IH]; intros w.
  - exists []. simpl. now rewrite app_nil_r.
  - destruct (nlt (clock (env w) (n_clock (cur w))) end_time) eqn:Hend.
    2: { rewrite frame_loop_expired by exact Hend. now eexists. }
    destruct (fst (cam (env w) (n_cam (cur w)))) eqn:Hret.
    2: { rewrite frame_loop_read_failed by assumption. now eexists. }
    destruct (Z.eq_dec (Z.land (keys (env w) (n_key (cur w))) 255) 113) as [Hkey | Hkey].
    + rewrite frame_loop_stop by assumption. now eexists.
    + rewrite frame_loop_frame by assumption.
      match goal with |- context [frame_loop _ _ _ _ _ ?w1] =>
        destruct (IH w1) as [tail Ht] end.
      rewrite Ht. unfold advance. cbn [log]. rewrite <- app_assoc. now eexists.
Qed.

Lemma frame_loop_keeps_pace self (fuel : nat) (f : string) (end_time fi : T) w :
  nrecip (fps self) = Some fi ->
  keeps_pace self (frame_loop self fuel f end_time fi) w.
Proof.
  intros Hfi. revert w. induction fuel as [|n IH]; intros w.
  - now apply keeps_pace_same.
  - destruct (nlt (clock (env w) (n_clock (cur w))) end_time) eqn:Hend.
    2: { eapply keeps_pace_advance;
           [now apply frame_loop_expired | constructor]. }
    destruct (fst (cam (env w) (n_cam (cur w)))) eqn:Hret.
    2: { eapply keeps_pace_advance;
           [now apply frame_loop_read_failed | constructor]. }
    pose proof (pace_events_paced self fi (env w) (S (n_clock (cur w))) Hfi) as Hp.
    cbv zeta in Hp.
    destruct (Z.eq_dec (Z.land (keys (env w) (n_key (cur w))) 255) 113) as [Hkey | Hkey].
    + eapply keeps_pace_advance; [now apply frame_loop_stop|].
      rewrite !sleeps_app. simpl. now rewrite app_nil_r.
    + unfold keeps_pace.
      rewrite (frame_loop_frame self n f end_time fi w Hend Hret Hkey).
      match goal with |- context [frame_loop _ _ _ _ _ ?w1] =>
        destruct (IH w1) as [He (evs & Hl & Hs)]; set (w1' := w1) in * end.
      split; [exact He|].
      eexists. split.
      * rewrite Hl. unfold w1', advance. cbn [log]. rewrite <- app_assoc. reflexivity.
      * rewrite !sleeps_app. apply Forall_app. split; [|exact Hs].
        simpl. exact Hp.
Qed.


Lemma segment_rest_keeps_pace self (next : M T unit) (fuel : nat) (f : string)
    (end_time fi : T) w :
  nrecip (fps self) = Some fi ->
  (forall w', keeps_pace self next w') ->
  keeps_pace self (segment_rest self next fuel f end_time fi) w.
Proof.
  intros Hfi Hnext. unfold segment_rest.
  apply keeps_pace_bind.
  - apply keeps_pace_finally; [now apply frame_loop_keeps_pace|].
    intros w'. apply keeps_pace_bind; [now apply keeps_pace_act|].
    intros _ w'' _. now apply keeps_pace_act.
  - intros [|] w' _; [|now apply keeps_pace_same].
    apply keeps_pace_bind; [now apply keeps_pace_act|].
    intros _ w1 _. apply keeps_pace_bind; [now apply keeps_pace_act|].
    intros _ w2 _. apply Hnext.
Qed.

Lemma record_loop_keeps_pace self (fuel : nat) w :
  keeps_pace self (record_loop self fuel) w.
Proof.
  revert w. induction fuel as [|n IH]; intros w; [now apply keeps_pace_same|].
  cbn [record_loop].
  apply keeps_pace_bind.
  { apply (keeps_pace_quiet _ _ _ []); [reflexivity | | reflexivity].
    unfold generate_filename, bind, time_strftime, ret. simpl.
    now rewrite app_nil_r. }
  intros video_filename w1 _.
  apply keeps_pace_bind.
  { now apply (keeps_pace_quiet _ _ _
                 [VideoWriterOpen video_filename fourcc (fps self) (640, 480)]). }
  intros _ w2 _.
  apply keeps_pace_bind; [now apply keeps_pace_act|].
  intros _ w3 _.
  apply keeps_pace_bind.
  { apply (keeps_pace_quiet _ _ _ []); [reflexivity | | reflexivity].
    unfold time_monotonic. simpl. now rewrite app_nil_r. }
  intros start_time w4 _.
  apply keeps_pace_bind.
  { apply keeps_pace_same. unfold one_over. now destruct (nrecip (fps self)). }
  intros fi w5 Hfi.
  apply segment_rest_keeps_pace; [|exact IH].
  unfold one_over in Hfi. destruct (nrecip (fps self)); [|discriminate].
  unfold ret in Hfi. congruence.
Qed.

Lemma record_continuous_keeps_pace self (fuel : nat) w :
  keeps_pace self (record_continuous self fuel) w.
Proof.
  unfold record_continuous. apply keeps_pace_bind; [now apply keeps_pace_act|].
  intros _ w' _. apply record_loop_keeps_pace.
Qed.

(** What the frame loop adds to the log never starts with a sleep: a sleep
    comes only after the frame of its iteration was written and shown. *)
Lemma frame_loop_head self (fuel : nat) (f : string) (end_time fi : T) w
    (evs : list (event T)) :
  log (snd (frame_loop self fuel f end_time fi w)) = log w ++ evs ->
  match evs with Sleep _ :: _ => False | _ => True end.
Proof.
  destruct fuel as [|n].
  - simpl. intros Hl. rewrite <- (app_nil_r (log w)) in Hl at 1.
    apply app_inv_head in Hl. now subst evs.
  - destruct (nlt (clock (env w) (n_clock (cur w))) end_time) eqn:Hend.
    2: { rewrite frame_loop_expired by exact Hend. simpl. intros Hl.
         apply app_inv_head in Hl. now subst evs. }
    destruct (fst (cam (env w) (n_cam (cur w)))) eqn:Hret.
    2: { rewrite frame_loop_read_failed by assumption. simpl. intros Hl.
         apply app_inv_head in Hl. now subst evs. }
    destruct (Z.eq_dec (Z.land (keys (env w) (n_key (cur w))) 255) 113) as [Hkey | Hkey].
    + rewrite frame_loop_stop by assumption. simpl. intros Hl.
      apply app_inv_head in Hl. now subst evs.
    + rewrite frame_loop_frame by assumption.
      match goal with |- context [frame_loop _ _ _ _ _ ?w1] =>
        destruct (frame_loop_keeps_pace_log self n f end_time fi w1) as [tail Ht] end.
      rewrite Ht. unfold advance. cbn [log]. rewrite <- !app_assoc. intros Hl.
      apply app_inv_head in Hl. now subst evs.
Qed.


(** C6.  In an iteration of the frame loop that writes a frame, what
    follows the frame in the log is the sleep of [d] seconds when [d] is
    strictly positive and nothing when it is not, [d] being the frame
    interval less the time from the reading of the clock at the start of the
    iteration to the reading after the frame was shown; no other sleep
    follows.  Over a whole run of [record_continuous], the frame interval
    being [1 / fps], every sleep in the log is such a strictly positive
    rest. *)
Theorem sleep_is_rest_of_frame_interval self :
  (forall (n : nat) (video_filename : string) (end_time frame_interval : T) w,
     nlt (clock (env w) (n_clock (cur w))) end_time = true ->
     fst (cam (env w) (n_cam (cur w))) = true ->
     let frame := snd (cam (env w) (n_cam (cur w))) in
     let frame_start := clock (env w) (S (n_clock (cur w))) in
     let elapsed := nsub (clock (env w) (S (S (n_clock (cur w))))) frame_start in
     let d := nsub frame_interval elapsed in
     exists tail,
       log (snd (frame_loop self (S n) video_filename end_time frame_interval w))
       = log w ++ [WriterWrite video_filename frame; Imshow frame]
           ++ (if nlt nzero d then [Sleep d] else []) ++ tail
       /\ match tail with Sleep _ :: _ => False | _ => True end)
  /\ (forall (fuel : nat) w,
        exists evs,
          log (snd (record_continuous self fuel w)) = log w ++ evs
          /\ Forall (fun d =>
                       nlt nzero d = true
                       /\ exists frame_interval k,
                            nrecip (fps self) = Some frame_interval
                            /\ d = nsub frame_interval
                                     (nsub (clock (env w) (S k)) (clock (env w) k)))
               (sleeps evs)).
Proof.
  split.
  - intros n f end_time fi w Hend Hret frame frame_start elapsed d.
    destruct (Z.eq_dec (Z.land (keys (env w) (n_key (cur w))) 255) 113) as [Hkey | Hkey].
    + rewrite frame_loop_stop by assumption. fold frame frame_start elapsed d.
      eexists. unfold advance. cbn [snd log]. split; [reflexivity | exact I].
    + rewrite frame_loop_frame by assumption. fold frame frame_start elapsed d.
      match goal with |- context [frame_loop _ _ _ _ _ ?w1] =>
        destruct (frame_loop_keeps_pace_log self n f end_time fi w1) as [tail Ht];
        pose proof (frame_loop_head self n f end_time fi w1 tail Ht) as Hhead end.
      exists tail. split; [|exact Hhead].
      rewrite Ht. unfold advance. cbn [log]. now rewrite <- !app_assoc.
  - intros fuel w.
    destruct (record_continuous_keeps_pace self fuel w) as [_ (evs & Hl & Hp)].
    exists evs. split; [exact Hl | exact Hp].
Qed.

End Pacing.

(** *** The outer loop *)

Section OuterLoop.
Context {T : Type} `{PyNum T}.
Implicit Types (self : VideoRecorder T) (w : World T).

(** The world when the frame loop of a new segment is entered: a local time
    and a reading of the clock were consumed, the writer was opened on the
    new file. *)
Lemma record_loop_step self (n : nat) (fi : T) w :
  nrecip (fps self) = Some fi ->
  let f := OsPath.join (output_directory self)
             ("video_" +:+ strftime_stamp (wall (env w) (n_wall (cur w))) +:+ ".mp4") in
  let w1 :=
    set_cur (tick_clock (tick_wall (cur w)))
      (emit (Print (MsgRecording f))
         (set_fs ({[ f ]} ∪ fs w)
            (emit (VideoWriterOpen f fourcc (fps self) (640, 480)) w))) in
  record_loop self (S n) w
  = segment_rest self (record_loop self n) n f
      (nadd (clock (env w) (n_clock (cur w))) (segment_duration self)) fi w1.
Proof.
  intros Hfi f w1. cbn [record_loop].
  unfold bind, generate_filename, time_strftime, video_writer, print, act,
    time_monotonic, one_over, ret.
  world_simpl. rewrite Hfi. reflexivity.
Qed.

(** X2.  With a camera of which every read reports not-ok, and a clock that
    leaves time in every segment, [record_continuous] never returns: each
    segment is cut short at its first read, handed over, and followed by
    the next.  Whatever the fuel, the run is out of fuel; and a run that
    enters the frame loop of its [n+1]-th segment has done this and nothing
    else: for each of the [n] segments before, in order, it opened the
    writer on the name of the local time then read, printed, reported the
    failed read, released the writer, and started the thread of
    [process_video] on that file; then it opened the writer of the next.
    No frame was written and the camera was never released. *)
Lemma dead_camera_never_returns self (fi : T) w :
  nrecip (fps self) = Some fi ->
  (forall k, fst (cam (env w) k) = false) ->
  (forall k, nlt (clock (env w) (S k))
                 (nadd (clock (env w) k) (segment_duration self)) = true) ->
  let name k :=
    OsPath.join (output_directory self)
      ("video_" +:+ strftime_stamp (wall (env w) (n_wall (cur w) + k)) +:+ ".mp4") in
  let opened f :=
    [VideoWriterOpen f fourcc (fps self) (640, 480); Print (MsgRecording f)] in
  let cut_short f :=
    opened f ++ [Print MsgCaptureFailed; WriterRelease f; Print (MsgVideoSaved f);
                 ThreadStart (TProcess f); Print MsgProcessing] in
  (forall fuel, fst (record_continuous self fuel w) = OutOfFuel)
  /\ forall n,
       log (snd (record_continuous self (S n) w))
       = log w ++ Print (MsgStarted (output_directory self))
           :: concat (map (fun k => cut_short (name k)) (seq 0 n)) ++ opened (name n)
       /\ threads (snd (record_continuous self (S n) w))
          = threads w ++ map (fun k => TProcess (name k)) (seq 0 n).
Proof.
  intros Hfi Hcam Hclock name opened cut_short.
  set (name_at := fun j =>
         OsPath.join (output_directory self)
           ("video_" +:+ strftime_stamp (wall (env w) j) +:+ ".mp4")).
  assert (Hloop : forall n w', env w' = env w ->
            fst (record_loop self (S n) w') = OutOfFuel
            /\ log (snd (record_loop self (S n) w'))
               = log w' ++ concat (map (fun k => cut_short (name_at (n_wall (cur w') + k)%nat))
                                     (seq 0 n))
                   ++ opened (name_at (n_wall (cur w') + n)%nat)).
  { induction n as [|m IH]; intros w' He.
    - rewrite (record_loop_step self 0 fi w' Hfi). cbv zeta.
      unfold segment_rest, bind, finally. cbn [frame_loop].
      unfold out_of_fuel. cbn [fst snd]. world_simpl.
      rewrite Nat.add_0_r. unfold name_at. rewrite <- He. split; [reflexivity|].
      cbn [seq map concat app]. rewrite <- !app_assoc. reflexivity.
    - rewrite (record_loop_step self (S m) fi w' Hfi). cbv zeta.
      rewrite segment_rest_read_failed.
      2: { world_simpl. rewrite He. apply Hclock. }
      2: { world_simpl. rewrite He. apply Hcam. }
      match goal with |- context [record_loop self (S m) ?w2] =>
        destruct (IH w2) as [Hr Hl]; [unfold advance; world_simpl; exact He|];
        rewrite Hr, Hl end.
      split; [reflexivity|].
      unfold advance. world_simpl.
      cbn [seq map concat]. rewrite <- seq_shift, map_map.
      unfold name_at at 3. rewrite <- He, Nat.add_0_r.
      rewrite (map_ext (fun x => cut_short (name_at (n_wall (cur w') + S x)%nat))
                       (fun k => cut_short (name_at (S (n_wall (cur w')) + k)%nat)))
        by (intros k; now rewrite Nat.add_succ_r).
      rewrite (Nat.add_succ_r (n_wall (cur w')) m).
      change (S (n_wall (cur w') + m)) with (S (n_wall (cur w')) + m)%nat.
      generalize (concat (map (fun k => cut_short (name_at (S (n_wall (cur w')) + k)%nat))
                            (seq 0 m))).
      generalize (opened (name_at (S (n_wall (cur w')) + m)%nat)).
      intros l1 l2. unfold cut_short, opened.
      rewrite <- !app_assoc. reflexivity. }
  split.
  - intros [|n]; [reflexivity|].
    unfold record_continuous, bind, print, act.
    now apply Hloop.
  - intros n.
    assert (Hlog : log (snd (record_continuous self (S n) w))
                   = log w ++ Print (MsgStarted (output_directory self))
                       :: concat (map (fun k => cut_short (name k)) (seq 0 n))
                       ++ opened (name n)).
    { unfold record_continuous, bind, print, act.
      match goal with |- context [record_loop self (S n) ?w0] =>
        destruct (Hloop n w0 eq_refl) as [Hr Hl] end.
      cbn [fst snd]. rewrite Hl. unfold emit. cbn [log cur n_wall].
      now rewrite <- app_assoc. }
    split; [exact Hlog|].
    unfold threads. rewrite Hlog, omap_app. f_equal.
    change (Print (MsgStarted (output_directory self))
              :: concat (map (fun k => cut_short (name k)) (seq 0 n)) ++ opened (name n))
      with ([Print (MsgStarted (output_directory self))]
              ++ concat (map (fun k => cut_short (name k)) (seq 0 n)) ++ opened (name n)).
    rewrite !omap_app. simpl. rewrite app_nil_r.
    clear. induction (seq 0 n) as [|k l IH]; [reflexivity|].
    cbn [map concat]. rewrite omap_app, IH. reflexivity.
Qed.


(** The frame loop returns from the function only by the manual stop. *)
Lemma frame_loop_returns_on_stop self (fuel : nat) (f : string) (end_time fi : T) w w' :
  frame_loop self fuel f end_time fi w = (Ret LoopReturn, w') ->
  exists pre,
    log w' = log w ++ pre
               ++ [Print MsgStopping; WriterRelease f; CapRelease; DestroyAllWindows].
Proof.
  revert w w'. induction fuel as [|n IH]; intros w w'; [discriminate|].
  destruct (nlt (clock (env w) (n_clock (cur w))) end_time) eqn:Hend.
  2: { rewrite frame_loop_expired by exact Hend. discriminate. }
  destruct (fst (cam (env w) (n_cam (cur w)))) eqn:Hret.
  2: { rewrite frame_loop_read_failed by assumption. discriminate. }
  destruct (Z.eq_dec (Z.land (keys (env w) (n_key (cur w))) 255) 113) as [Hkey | Hkey].
  - rewrite frame_loop_stop by assumption. intros [= <-].
    match goal with |- context [advance _ _ _ (?a :: ?b :: ?p ++ _) _] =>
      exists (a :: b :: p) end.
    reflexivity.
  - rewrite frame_loop_frame by assumption. intros Hrun.
    destruct (IH _ _ Hrun) as [pre Hpre]. rewrite Hpre.
    match goal with |- context [advance _ _ _ ?evs _] => exists (evs ++ pre) end.
    unfold advance. cbn [log]. now rewrite <- !app_assoc.
Qed.

(** X1.  [record_continuous] returns only by the manual stop: when it returns,
    the log ends with the stop of the segment in flight. *)
Lemma record_continuous_returns_on_stop self (fuel : nat) w w' :
  record_continuous self fuel w = (Ret tt, w') ->
  exists f pre,
    log w' = log w ++ pre
               ++ [Print MsgStopping; WriterRelease f; CapRelease; DestroyAllWindows;
                   WriterRelease f; Print (MsgVideoSaved f)].
Proof.
  assert (Hloop : forall w0 w1, record_loop self fuel w0 = (Ret tt, w1) ->
            exists f pre,
              log w1 = log w0 ++ pre
                         ++ [Print MsgStopping; WriterRelease f; CapRelease;
                             DestroyAllWindows; WriterRelease f;
                             Print (MsgVideoSaved f)]).
  { induction fuel as [|n IH]; intros w0 w1; [discriminate|].
    destruct (nrecip (fps self)) as [fi|] eqn:Hfi.
    2: { cbn [record_loop].
         unfold bind, generate_filename, time_strftime, video_writer, print, act,
           time_monotonic, one_over, ret.
         world_simpl. rewrite Hfi. discriminate. }
    rewrite (record_loop_step self n fi w0 Hfi). cbv zeta.
    set (f := OsPath.join _ _). set (w2 := set_cur _ _). set (end_time := nadd _ _).
    unfold segment_rest, bind, finally.
    destruct (frame_loop self n f end_time fi w2) as [[[|]|e|] w3] eqn:Hframe;
      try discriminate.
    - unfold writer_release, print, process_video, thread_start, act, ret.
      intros Hnext. destruct (IH _ _ Hnext) as (f' & pre & Hpre).
      destruct (frame_loop_keeps_pace_log self n f end_time fi w2) as [evs Hevs].
      rewrite Hframe in Hevs. cbn [snd] in Hevs.
      exists f'.
      exists ([VideoWriterOpen f fourcc (fps self) (640, 480); Print (MsgRecording f)]
              ++ evs
              ++ [WriterRelease f; Print (MsgVideoSaved f);
                  ThreadStart (TProcess f); Print MsgProcessing]
              ++ pre).
      rewrite Hpre. world_simpl. rewrite Hevs. unfold w2. world_simpl.
      rewrite <- !app_assoc. reflexivity.
    - unfold writer_release, print, act, ret. intros [= <-].
      destruct (frame_loop_returns_on_stop self n f end_time fi w2 w3 Hframe)
        as [pre Hpre].
      exists f.
      exists ([VideoWriterOpen f fourcc (fps self) (640, 480); Print (MsgRecording f)]
              ++ pre).
      world_simpl. rewrite Hpre. unfold w2. world_simpl.
      rewrite <- !app_assoc. reflexivity.
  }
  unfold record_continuous, bind, print, act. intros Hrun.
  destruct (Hloop _ _ Hrun) as (f & pre & Hpre).
  exists f, (Print (MsgStarted (output_directory self)) :: pre).
  rewrite Hpre. world_simpl. rewrite <- !app_assoc. reflexivity.
Qed.

End OuterLoop.
(** ** The worked worlds *)

Example basename_ex : OsPath.basename ex_segment = "video_2025-01-02_03-04-05.mp4".
Proof. reflexivity. Qed.

Example splitext_ex : OsPath.splitext "out.d/video_1.mp4" = ("out.d/video_1", ".mp4").
Proof. reflexivity. Qed.

Example splitext_hidden_ex : OsPath.splitext "out.d/.video" = ("out.d/.video", "").
Proof. reflexivity. Qed.

Example splitext_dots_ex : OsPath.splitext "out.d/..a.b" = ("out.d/..a", ".b").
Proof. reflexivity. Qed.

Example compressed_name_ex : compressed_name ex_segment = ex_compressed.
Proof. reflexivity. Qed.

Example stamp_ex : strftime_stamp ex_time = "2025-01-02_03-04-05".
Proof. reflexivity. Qed.

(** A segment recorded, compressed and uploaded: the camera works, [q] is
    pressed on the first frame of the second segment. *)
Example pipeline_ex :
  let keyboard := fun n => if (n =? 1)%nat then 113 else -1 in
  let w0 := {| env := {| clock := fun n => (300 * Z.of_nat n # 2)%Q;
                         wall := fun _ => ex_time;
                         cam := fun n => (true, n);
                         keys := keyboard;
                         procs := fun _ => {| returncode := 0; written := [ex_compressed] |};
                         starts := fun _ => true;
                         http := fun _ => PutReturns {| status_code := 201;
                                                        json_body := None |} |};
               cur := ex_cursors; fs := ∅; log := [] |} in
  let w1 := snd (record_continuous ex_recorder 4 w0) in
  let w2 := run_thread ex_recorder (TProcess ex_segment) w1 in
  let w3 := run_thread ex_recorder (TUpload ex_compressed) w2 in
  fst (record_continuous ex_recorder 4 w0) = Ret tt
  /\ threads w1 = [TProcess ex_segment]
  /\ threads w2 = [TProcess ex_segment; TUpload ex_compressed]
  /\ elements (fs w1) = [ex_segment]
  /\ elements (fs w3) = [ex_compressed]
  /\ drop (length (log w1)) (log w3)
     = [SubprocessRun (ffmpeg_command ex_segment ex_compressed);
        OsRemove ex_segment;
        Print (MsgCompressed ex_compressed);
        ThreadStart (TUpload ex_compressed);
        HttpPut "https://graph.microsoft.com/v1.0/me/drive/items/FOLDER:/video_2025-01-02_03-04-05_compressed.mp4:/content"
          [("Authorization", "Bearer TOKEN"); ("Content-Type", "video/mp4")]
          ex_compressed;
        Print (MsgUploaded ex_compressed)].
Proof. vm_compute. repeat split. Qed.

(** ** Witnesses and the counterexamples *)


Lemma compress_success_uploads_compressed_witness :
  starts (env (ex_world_segment 0)) (n_proc (cur (ex_world_segment 0))) = true
  /\ returncode (procs (env (ex_world_segment 0)) (n_proc (cur (ex_world_segment 0)))) = 0
  /\ ex_segment ∈ fs (ex_world_segment 0)
  /\ threads (snd (process ex_recorder ex_segment (ex_world_segment 0)))
     = [TUpload ex_compressed].
Proof.
  assert (Hrc : returncode (procs (env (ex_world_segment 0))
                              (n_proc (cur (ex_world_segment 0)))) = 0)
    by reflexivity.
  assert (Hin : ex_segment ∈ fs (ex_world_segment 0))
    by (apply elem_of_singleton; reflexivity).
  split; [reflexivity|]. split; [exact Hrc|]. split; [exact Hin|].
  destruct (compress_success_uploads_compressed ex_recorder ex_segment
              (ex_world_segment 0) eq_refl Hrc Hin) as (_ & _ & _ & _ & _ & _ & Ht & _).
  exact Ht.
Defined.

Lemma compress_failure_keeps_input_witness :
  starts (env (ex_world_segment 1)) (n_proc (cur (ex_world_segment 1))) = true
  /\ returncode (procs (env (ex_world_segment 1)) (n_proc (cur (ex_world_segment 1)))) <> 0
  /\ (ex_segment ∈ fs (ex_world_segment 1) ->
      ex_segment ∈ fs (snd (compress_video ex_recorder ex_segment (ex_world_segment 1)))).
Proof.
  assert (Hrc : returncode (procs (env (ex_world_segment 1))
                              (n_proc (cur (ex_world_segment 1)))) <> 0)
    by (vm_compute; discriminate).
  split; [reflexivity|]. split; [exact Hrc|].
  destruct (compress_failure_keeps_input ex_recorder ex_segment
              (ex_world_segment 1) eq_refl Hrc) as (_ & _ & _ & _ & Hk).
  exact Hk.
Defined.

Lemma upload_url_of_folder_and_basename_witness :
  folder_id ex_recorder = folder_id ex_recorder
  /\ OsPath.basename "a/x.mp4" = OsPath.basename "b/x.mp4"
  /\ get_upload_url ex_recorder "a/x.mp4" = get_upload_url ex_recorder "b/x.mp4".
Proof.
  split; [reflexivity|]. split; [reflexivity|].
  destruct (upload_url_of_folder_and_basename ex_recorder ex_recorder
              "a/x.mp4" "b/x.mp4" "TOKEN" "TOKEN" eq_refl eq_refl)
    as (H1 & H2 & _).
  exact (eq_trans H1 (eq_sym H2)).
Defined.

Lemma manual_stop_releases_and_returns_witness :
  nlt (clock (env ex_world_stop) (n_clock (cur ex_world_stop))) 300%Q = true
  /\ fst (cam (env ex_world_stop) (n_cam (cur ex_world_stop))) = true
  /\ Z.land (keys (env ex_world_stop) (n_key (cur ex_world_stop))) 255 = 113
  /\ forall next,
       fst (segment_rest ex_recorder next 1 ex_segment 300%Q (1 / 20)%Q ex_world_stop)
       = Ret tt
       /\ threads (snd (segment_rest ex_recorder next 1 ex_segment 300%Q (1 / 20)%Q
                          ex_world_stop)) = [].
Proof.
  assert (Hend : nlt (clock (env ex_world_stop) (n_clock (cur ex_world_stop))) 300%Q
                 = true) by (vm_compute; reflexivity).
  assert (Hret : fst (cam (env ex_world_stop) (n_cam (cur ex_world_stop))) = true)
    by reflexivity.
  assert (Hkey : Z.land (keys (env ex_world_stop) (n_key (cur ex_world_stop))) 255
                 = 113) by reflexivity.
  split; [exact Hend|]. split; [exact Hret|]. split; [exact Hkey|].
  intros next.
  destruct (manual_stop_releases_and_returns ex_recorder next 0 ex_segment
              300%Q (1 / 20)%Q ex_world_stop Hend Hret Hkey)
    as (Hr & _ & Ht & _).
  split; [exact Hr | exact Ht].
Defined.

Lemma read_failure_ends_segment_only_witness :
  nlt (clock (env ex_world_read_fails) (n_clock (cur ex_world_read_fails))) 300%Q = true
  /\ fst (cam (env ex_world_read_fails) (n_cam (cur ex_world_read_fails))) = false
  /\ forall next,
       segment_rest ex_recorder next 1 ex_segment 300%Q (1 / 20)%Q ex_world_read_fails
       = next (advance 2 1 0
                 [Print MsgCaptureFailed; WriterRelease ex_segment;
                  Print (MsgVideoSaved ex_segment);
                  ThreadStart (TProcess ex_segment); Print MsgProcessing]
                 ex_world_read_fails).
Proof.
  assert (Hend : nlt (clock (env ex_world_read_fails)
                        (n_clock (cur ex_world_read_fails))) 300%Q = true)
    by (vm_compute; reflexivity).
  assert (Hret : fst (cam (env ex_world_read_fails) (n_cam (cur ex_world_read_fails)))
                 = false) by reflexivity.
  split; [exact Hend|]. split; [exact Hret|].
  intros next.
  destruct (read_failure_ends_segment_only ex_recorder next 0 ex_segment
              300%Q (1 / 20)%Q ex_world_read_fails Hend Hret)
    as (_ & Hs & _).
  exact Hs.
Defined.

Lemma segment_and_compressed_names_witness :
  localtime_range (wall (env ex_world_stop) (n_wall (cur ex_world_stop)))
  /\ 1000 <= Z.of_nat (tm_year (wall (env ex_world_stop) (n_wall (cur ex_world_stop))))
     <= 9999
  /\ fst (generate_filename ex_recorder ex_world_stop)
     = Ret "out/video_2025-01-02_03-04-05.mp4"
  /\ compressed_name "out/video_2025-01-02_03-04-05.mp4"
     = "out/video_2025-01-02_03-04-05_compressed.mp4"
  /\ compressed_name "clips/.hidden" = "clips/.hidden_compressed"
  /\ compressed_name "v1.2/..take.one.mp4" = "v1.2/..take.one_compressed.mp4".
Proof.
  assert (Hrange : localtime_range (wall (env ex_world_stop)
                                      (n_wall (cur ex_world_stop))))
    by (unfold localtime_range; simpl; lia).
  assert (Hyear : 1000 <= Z.of_nat (tm_year (wall (env ex_world_stop)
                                               (n_wall (cur ex_world_stop))))
                  <= 9999)
    by (simpl; lia).
  split; [exact Hrange|]. split; [exact Hyear|].
  destruct (segment_and_compressed_names ex_recorder ex_world_stop Hrange Hyear)
    as ((Hgen & _ & _ & _ & _ & Hcomp) & Hall & Hparts).
  split; [exact (f_equal fst Hgen)|]. split; [exact Hcomp|].
  split.
  - destruct (Hall "clips/.hidden") as (_ & _ & Hnone & _).
    exact (Hnone eq_refl).
  - assert (Ha : "v1.2/" = "" \/ PyStr.endswith "v1.2/" OsPath.sep = true)
      by (right; reflexivity).
    assert (Hc : "t"%char <> OsPath.extsep) by discriminate.
    exact (proj2 (Hparts "v1.2/" "..take.one" "mp4" "t"%char Ha Hc
                    eq_refl eq_refl eq_refl eq_refl)).
Defined.

(** C2, as the specification has it, fails.  In this run the first read of the
    camera reports not-ok.  Were the failure fatal, the run would return
    with no thread started; but whatever the fuel, it does not: the segment
    cut short is handed to [process_video], a second writer is opened, and
    the run returns only because [q] is pressed in the second segment. *)
Lemma read_failure_is_not_fatal :
  fst (cam (env ex_world_read_fails) (n_cam (cur ex_world_read_fails))) = false
  /\ (forall fuel,
        ~ (fst (record_continuous ex_recorder fuel ex_world_read_fails) = Ret tt
           /\ threads (snd (record_continuous ex_recorder fuel ex_world_read_fails))
              = []))
  /\ log (snd (record_continuous ex_recorder 3 ex_world_read_fails))
     = [Print (MsgStarted "out");
        VideoWriterOpen ex_segment "mp4v" 20%Q (640, 480);
        Print (MsgRecording ex_segment);
        Print MsgCaptureFailed;
        WriterRelease ex_segment;
        Print (MsgVideoSaved ex_segment);
        ThreadStart (TProcess ex_segment);
        Print MsgProcessing;
        VideoWriterOpen ex_segment "mp4v" 20%Q (640, 480);
        Print (MsgRecording ex_segment);
        WriterWrite ex_segment 1;
        Imshow 1;
        Sleep (nsub (1 / 20)%Q (nsub (6 # 100)%Q (5 # 100)%Q));
        Print MsgStopping;
        WriterRelease ex_segment;
        CapRelease;
        DestroyAllWindows;
        WriterRelease ex_segment;
        Print (MsgVideoSaved ex_segment)].
Proof.
  split; [reflexivity|]. split; [|vm_compute; reflexivity].
  intros [|[|[|n]]].
  - intros [Hr _]. vm_compute in Hr. discriminate.
  - intros [Hr _]. vm_compute in Hr. discriminate.
  - intros [Hr _]. vm_compute in Hr. discriminate.
  - intros [_ Ht]. vm_compute in Ht. discriminate.
Qed.


(** * Further properties of the recorder *)

Section RecorderEdges.
Context {T : Type} `{PyNum T}.
Implicit Types (self : VideoRecorder T) (w : World T).

#[local] Arguments Z.eqb : simpl never.

(** X3.  When [1 / self.fps] raises (a frame rate of zero),
    [record_continuous] raises [ZeroDivisionError] in its first iteration,
    before the [try]: the writer of the first segment was opened and its
    file created, and the writer is not released; nothing is recorded and
    no thread is started. *)
Theorem zero_fps_raises_before_try self (fuel : nat) w :
  nrecip (fps self) = None ->
  let f := OsPath.join (output_directory self)
             ("video_" +:+ strftime_stamp (wall (env w) (n_wall (cur w))) +:+ ".mp4") in
  let r := record_continuous self (S fuel) w in
  fst r = Raise ZeroDivisionError
  /\ log (snd r)
     = log w ++ [Print (MsgStarted (output_directory self));
                 VideoWriterOpen f fourcc (fps self) (640, 480);
                 Print (MsgRecording f)]
  /\ fs (snd r) = {[ f ]} ∪ fs w
  /\ threads (snd r) = threads w.
Proof.
  intros Hfps f r. subst r.
  unfold record_continuous. cbn [record_loop].
  unfold generate_filename, one_over. rewrite Hfps.
  unfold bind, time_strftime, video_writer, print, act, time_monotonic, ret, raise.
  cbn [fst snd]. world_simpl. fold f.
  repeat split.
  - now rewrite <- !app_assoc.
  - unfold threads. world_simpl. rewrite !omap_app. simpl. now rewrite !app_nil_r.
Qed.

(** X4.  When the transcoder is started and exits with zero but the input file is not
    there to be removed, [os.remove] raises [FileNotFoundError], which the
    handler of [compress_video] does not catch: the exception leaves
    [process], and no upload thread is started. *)
Theorem compress_missing_input_raises self (input_file : string) w :
  starts (env w) (n_proc (cur w)) = true ->
  returncode (procs (env w) (n_proc (cur w))) = 0 ->
  input_file ∉ written (procs (env w) (n_proc (cur w))) ->
  input_file ∉ fs w ->
  fst (compress_video self input_file w) = Raise (FileNotFoundError input_file)
  /\ fst (process self input_file w) = Raise (FileNotFoundError input_file)
  /\ log (run_thread self (TProcess input_file) w)
     = log w ++ [SubprocessRun (ffmpeg_command input_file (compressed_name input_file))]
  /\ threads (run_thread self (TProcess input_file) w) = threads w.
Proof.
  intros Hst Hrc%Z.eqb_eq Hw Hfs.
  unfold run_thread, thread_body, process, bind.
  unfold compress_video, try_except, bind, subprocess_run_check, os_remove.
  rewrite Hst, Hrc. world_simpl.
  destruct (decide _) as [Hin | _].
  - exfalso. apply elem_of_union in Hin as [Hin | Hin]; [|contradiction].
    apply elem_of_list_to_set in Hin. contradiction.
  - cbn [fst snd]. world_simpl. repeat split.
    unfold threads. world_simpl. rewrite omap_app. simpl. now rewrite app_nil_r.
Qed.

(** X5.  [upload] makes one PUT when the file can be opened, to
    [get_upload_url], with the bearer token and the content type
    [video/mp4], and the path as data; when the file is missing it makes no
    request and consumes no answer, and prints the exception.  In either
    case it returns normally, leaves every file in place and starts no
    thread. *)
Theorem upload_sends_once self (path : string) w :
  let r := upload self path w in
  (path ∈ fs w ->
   exists rest,
     log (snd r)
     = log w ++ HttpPut (graph_url (folder_id self) (OsPath.basename path))
                  [("Authorization", "Bearer " +:+ access_token self);
                   ("Content-Type", "video/mp4")] path :: rest
     /\ put_urls rest = []
     /\ n_http (cur (snd r)) = S (n_http (cur w)))
  /\ (path ∉ fs w ->
      r = (Ret tt, emit (Print (MsgUploadException (FileNotFoundError path))) w))
  /\ fst r = Ret tt
  /\ fs (snd r) = fs w
  /\ threads (snd r) = threads w.
Proof.
  intros r. subst r.
  unfold upload, try_except, bind, open_rb, requests_put, get_upload_url, get_headers.
  destruct (decide (path ∈ fs w)) as [Hin | Hout].
  - destruct (http (env w) (n_http (cur w))) as [|resp]; world_simpl.
    + unfold print, act. cbn [fst snd]. world_simpl. repeat split; try contradiction.
      * intros _. eexists. rewrite <- app_assoc. repeat split.
      * unfold threads. world_simpl. rewrite !omap_app. simpl. now rewrite !app_nil_r.
    + destruct (status_code resp =? 201); unfold print, act, response_json, bind.
      * cbn [fst snd]. world_simpl. repeat split; try contradiction.
        -- intros _. eexists. rewrite <- app_assoc. repeat split.
        -- unfold threads. world_simpl. rewrite !omap_app. simpl. now rewrite !app_nil_r.
      * destruct (json_body resp); unfold ret, raise; cbn [fst snd]; world_simpl;
          (repeat split; try contradiction;
           [ intros _; eexists; rewrite <- !app_assoc; repeat split
           | unfold threads; world_simpl; rewrite !omap_app; simpl;
             now rewrite !app_nil_r ]).
  - unfold print, act. cbn [fst snd]. world_simpl. repeat split; try contradiction.
    unfold threads. world_simpl. rewrite omap_app. simpl. now rewrite app_nil_r.
Qed.

End RecorderEdges.

(** ** Segment names *)

Module StampInjective.
Import PyStr PyStrFacts StampFacts.

#[local] Arguments String.append !_ _ / : simpl nomatch.

(** Two strings cut at a character that neither holds before the cut are
    cut at the same place. *)
Lemma split_at_char (c : ascii) (a1 a2 b1 b2 : string) :
  contains c a1 = false -> contains c a2 = false ->
  a1 +:+ String c b1 = a2 +:+ String c b2 ->
  a1 = a2 /\ b1 = b2.
Proof.
  revert a2. induction a1 as [|x r IH]; intros [|y r'] H1 H2 Heq; simpl in *.
  - now injection Heq.
  - injection Heq as <- _.
    rewrite Ascii.eqb_refl in H2. discriminate.
  - injection Heq as -> _.
    rewrite Ascii.eqb_refl in H1. discriminate.
  - injection Heq as -> Heq.
    apply orb_false_iff in H1 as [_ H1]. apply orb_false_iff in H2 as [_ H2].
    destruct (IH r' H1 H2 Heq) as [-> ->]. now split.
Qed.

Lemma to_uint_nonnil (n : nat) : Nat.to_uint n <> Decimal.Nil.
Proof.
  rewrite <- (DecimalNat.Unsigned.of_to n) at 1.
  rewrite DecimalNat.Unsigned.to_of. apply DecimalFacts.unorm_nonnil.
Qed.

Lemma decimal_inj (n m : nat) : decimal n = decimal m -> n = m.
Proof.
  unfold decimal. intros Heq.
  apply (f_equal NilZero.uint_of_string) in Heq.
  rewrite !NilZero.usu in Heq by apply to_uint_nonnil.
  injection Heq as Heq. now apply DecimalNat.Unsigned.to_uint_inj.
Qed.

Lemma pad2_inj (n m : nat) :
  (n < 100)%nat -> (m < 100)%nat -> pad2 n = pad2 m -> n = m.
Proof.
  intros Hn Hm Heq.
  assert (Hall : forallb (fun a => forallb (fun b =>
                    implb (String.eqb (pad2 a) (pad2 b)) (a =? b)%nat)
                    (seq 0 100)) (seq 0 100) = true) by (vm_compute; reflexivity).
  rewrite forallb_forall in Hall.
  specialize (Hall n ltac:(apply in_seq; lia)).
  rewrite forallb_forall in Hall.
  specialize (Hall m ltac:(apply in_seq; lia)).
  apply String.eqb_eq in Heq. rewrite Heq in Hall.
  now apply Nat.eqb_eq.
Qed.

(** The stamp determines the time it was made from. *)
Lemma strftime_stamp_inj (t1 t2 : struct_time) :
  localtime_range t1 -> localtime_range t2 ->
  strftime_stamp t1 = strftime_stamp t2 -> t1 = t2.
Proof.
  intros (Hm1 & Hd1 & HH1 & HM1 & HS1) (Hm2 & Hd2 & HH2 & HM2 & HS2).
  destruct t1 as [y1 m1 d1 h1 i1 s1], t2 as [y2 m2 d2 h2 i2 s2].
  unfold strftime_stamp. cbn [tm_year tm_mon tm_mday tm_hour tm_min tm_sec] in *.
  intros Heq.
  apply split_at_char in Heq as [Hy Heq]; try (apply decimal_chars; reflexivity).
  apply split_at_char in Heq as [Hm Heq]; try (apply pad2_chars; reflexivity).
  apply split_at_char in Heq as [Hd Heq]; try (apply pad2_chars; reflexivity).
  apply split_at_char in Heq as [Hh Heq]; try (apply pad2_chars; reflexivity).
  apply split_at_char in Heq as [Hi Hs]; try (apply pad2_chars; reflexivity).
  apply decimal_inj in Hy.
  apply pad2_inj in Hm, Hd, Hh, Hi, Hs; try lia.
  now subst.
Qed.

Lemma append_inv_head (a b1 b2 : string) : a +:+ b1 = a +:+ b2 -> b1 = b2.
Proof. induction a as [|x r IH]; simpl; [easy | intros [= Heq]; auto]. Qed.

End StampInjective.

Section SegmentNames.
Context {T : Type} `{PyNum T}.
Implicit Types (self : VideoRecorder T) (w : World T).
Import PyStr PyStrFacts OsPath OsPathFacts StampFacts NameFacts StampInjective.

(** X6.  For local times in the ranges [time.localtime] gives,
    [generate_filename] returns the same path at two moments exactly when
    the two local times are the same to the second: segments started in
    different seconds get different files, and segments started within one
    second get the same file. *)
Theorem segment_names_differ_by_second self w1 w2 :
  localtime_range (wall (env w1) (n_wall (cur w1))) ->
  localtime_range (wall (env w2) (n_wall (cur w2))) ->
  fst (generate_filename self w1) = fst (generate_filename self w2)
  <-> wall (env w1) (n_wall (cur w1)) = wall (env w2) (n_wall (cur w2)).
Proof.
  intros Hr1 Hr2.
  unfold generate_filename, bind, time_strftime, ret. cbn [fst].
  split; [|now intros ->].
  intros [= Heq].
  set (t1 := wall (env w1) (n_wall (cur w1))) in *.
  set (t2 := wall (env w2) (n_wall (cur w2))) in *.
  assert (Hsep : forall t, contains sep ("video_" +:+ strftime_stamp t +:+ ".mp4") = false).
  { intros t. rewrite !contains_append, stamp_chars by reflexivity. reflexivity. }
  destruct (join_dir (output_directory self) _ (startswith_contains _ _ (Hsep t1)))
    as [Hj1 _].
  destruct (join_dir (output_directory self) _ (startswith_contains _ _ (Hsep t2)))
    as [Hj2 _].
  rewrite Hj1, Hj2 in Heq.
  apply append_inv_head in Heq.
  change ("video_" +:+ strftime_stamp t1 +:+ String "." "mp4"
          = "video_" +:+ strftime_stamp t2 +:+ String "." "mp4") in Heq.
  apply (append_inv_head "video_") in Heq.
  apply split_at_char in Heq as [Heq _]; try (apply stamp_chars; reflexivity).
  now apply strftime_stamp_inj.
Qed.

End SegmentNames.

(** ** The order of events on the capture path *)

Section CaptureOrder.
Context {T : Type} `{PyNum T}.
Implicit Types (self : VideoRecorder T) (w : World T).

Lemma capture_run_app (s : writer_state) (a b : list (event T)) :
  capture_run s (a ++ b)
  = match capture_run s a with
    | Some s' => capture_run s' b
    | None => None
    end.
Proof.
  revert s. induction a as [|e a IH]; intros s; simpl; [reflexivity|].
  destruct (capture_step s e); [apply IH | reflexivity].
Qed.

(** The pacing of a frame keeps the writer open. *)
Lemma capture_run_pace (f : string) (d : T) :
  capture_run (Recording f) (if nlt nzero d then [Sleep d] else [])
  = Some (Recording f).
Proof. now destruct (nlt nzero d). Qed.

(** The frame loop of a segment, started with the writer open on [f]:
    it never raises; when it ends or runs out of fuel the writer is still
    open on [f], and when it returns the writer and the camera were
    released, in that order. *)
Lemma frame_loop_order self (fuel : nat) (f : string) (end_time fi : T) w :
  exists evs,
    log (snd (frame_loop self fuel f end_time fi w)) = log w ++ evs
    /\ match fst (frame_loop self fuel f end_time fi w) with
       | Ret LoopEnd | OutOfFuel => capture_run (Recording f) evs = Some (Recording f)
       | Ret LoopReturn => capture_run (Recording f) evs = Some (Stopped f)
       | Raise _ => False
       end.
Proof.
  revert w. induction fuel as [|n IH]; intros w.
  - exists []. simpl. now rewrite app_nil_r.
  - destruct (nlt (clock (env w) (n_clock (cur w))) end_time) eqn:Hend.
    2: { rewrite frame_loop_expired by exact Hend. now exists []. }
    destruct (fst (cam (env w) (n_cam (cur w)))) eqn:Hret.
    2: { rewrite frame_loop_read_failed by assumption. now eexists. }
    destruct (Z.eq_dec (Z.land (keys (env w) (n_key (cur w))) 255) 113) as [Hkey | Hkey].
    + rewrite frame_loop_stop by assumption. eexists. split; [reflexivity|].
      cbn [fst]. cbn [capture_run capture_step app]. rewrite String.eqb_refl.
      rewrite capture_run_app, capture_run_pace.
      cbn [capture_run capture_step]. now rewrite String.eqb_refl.
    + rewrite frame_loop_frame by assumption.
      match goal with |- context [frame_loop _ _ _ _ _ ?w1] =>
        destruct (IH w1) as [evs [Hl Hs]]; set (w1' := w1) in * end.
      eexists. split.
      * rewrite Hl. unfold w1', advance. cbn [log]. rewrite <- app_assoc. reflexivity.
      * assert (Hpre : forall (rest : list (event T)) d,
                  capture_run (Recording f)
                    (([WriterWrite f (snd (cam (env w) (n_cam (cur w))));
                       Imshow (snd (cam (env w) (n_cam (cur w))))]
                      ++ (if nlt nzero d then [Sleep d] else [])) ++ rest)
                  = capture_run (Recording f) rest).
        { intros rest d. cbn [capture_run capture_step app].
          rewrite String.eqb_refl. now destruct (nlt nzero d). }
        destruct (fst (frame_loop self n f end_time fi w1')) as [[|]|e|];
          try contradiction; rewrite Hpre; exact Hs.
Qed.

Lemma record_loop_order self (fuel : nat) w :
  exists evs s,
    log (snd (record_loop self fuel w)) = log w ++ evs
    /\ capture_run Idle evs = Some s
    /\ (fst (record_loop self fuel w) = Ret tt -> exists f, s = Stopped f).
Proof.
  revert w. induction fuel as [|n IH]; intros w.
  - exists [], Idle. simpl. rewrite app_nil_r. repeat split. discriminate.
  - destruct (nrecip (fps self)) as [fi|] eqn:Hfi.
    2: { cbn [record_loop]. unfold generate_filename, one_over. rewrite Hfi.
         unfold bind, time_strftime, video_writer, print, act, time_monotonic,
           ret, raise.
         cbn [fst snd]. world_simpl. eexists. eexists.
         split; [rewrite <- app_assoc; reflexivity|].
         split; [reflexivity | discriminate]. }
    rewrite (record_loop_step self n fi w Hfi). cbv zeta.
    set (f := OsPath.join _ _). set (w2 := set_cur _ _). set (end_time := nadd _ _).
    assert (Hw2 : log w2 = log w ++ [VideoWriterOpen f fourcc (fps self) (640, 480);
                                     Print (MsgRecording f)]).
    { unfold w2. world_simpl. now rewrite <- app_assoc. }
    destruct (frame_loop_order self n f end_time fi w2) as [evs [Hl Hs]].
    unfold segment_rest, bind, finally.
    destruct (frame_loop self n f end_time fi w2) as [[[|]|e|] w3];
      cbn [fst snd] in Hl, Hs; try contradiction.
    + unfold writer_release, print, process_video, thread_start, act, ret.
      match goal with |- context [record_loop self n ?w4] =>
        destruct (IH w4) as (evs' & s & Hl' & Hs' & Hret); set (w4' := w4) in * end.
      exists ([VideoWriterOpen f fourcc (fps self) (640, 480); Print (MsgRecording f)]
              ++ evs
              ++ [WriterRelease f; Print (MsgVideoSaved f);
                  ThreadStart (TProcess f); Print MsgProcessing]
              ++ evs'), s.
      split; [|split; [|exact Hret]].
      * rewrite Hl'. unfold w4'. world_simpl. rewrite Hl, Hw2.
        rewrite <- !app_assoc. reflexivity.
      * cbn [app capture_run capture_step].
        rewrite capture_run_app, Hs. cbn [app capture_run capture_step].
        rewrite !String.eqb_refl. exact Hs'.
    + unfold writer_release, print, act, ret. cbn [fst snd]. world_simpl.
      exists ([VideoWriterOpen f fourcc (fps self) (640, 480); Print (MsgRecording f)]
              ++ evs ++ [WriterRelease f; Print (MsgVideoSaved f)]), (Stopped f).
      split; [|split; [|now exists f]].
      * rewrite Hl, Hw2. rewrite <- !app_assoc. reflexivity.
      * cbn [app capture_run capture_step].
        rewrite capture_run_app, Hs. cbn [capture_run capture_step].
        now rewrite String.eqb_refl.
    + cbn [fst snd].
      exists ([VideoWriterOpen f fourcc (fps self) (640, 480); Print (MsgRecording f)]
              ++ evs), (Recording f).
      split; [|split; [|discriminate]].
      * rewrite Hl, Hw2. rewrite <- !app_assoc. reflexivity.
      * cbn [app capture_run capture_step]. exact Hs.
Qed.

(** X7.  Whatever the environment answers and however long it runs, what
    [record_continuous] does follows the order of [capture_step]: at most
    one writer is open at a time, frames go to the open writer, a segment
    is handed to [process_video] only after its writer was released, and
    the capture path itself runs no subprocess, removes no file, makes no
    request and starts no upload thread.  When it returns, the writer and
    then the camera were released. *)
Theorem capture_path_keeps_order self (fuel : nat) w :
  exists evs s,
    log (snd (record_continuous self fuel w)) = log w ++ evs
    /\ capture_run Idle evs = Some s
    /\ (fst (record_continuous self fuel w) = Ret tt -> exists f, s = Stopped f).
Proof.
  unfold record_continuous, bind, print, act.
  match goal with |- context [record_loop self fuel ?w1] =>
    destruct (record_loop_order self fuel w1) as (evs & s & Hl & Hs & Hret) end.
  exists (Print (MsgStarted (output_directory self)) :: evs), s.
  split; [|split; [exact Hs | exact Hret]].
  rewrite Hl. world_simpl. now rewrite <- app_assoc.
Qed.

End CaptureOrder.

(** ** The background threads and the files *)

Section ThreadsAndFiles.
Context {T : Type} `{PyNum T}.
Implicit Types (self : VideoRecorder T) (w : World T).

#[local] Arguments Z.eqb : simpl never.

(** The upload thread leaves the files as they are. *)
Lemma upload_keeps_fs self (path : string) w : fs (snd (upload self path w)) = fs w.
Proof.
  unfold upload, try_except, bind, open_rb, requests_put.
  destruct (decide _); [|reflexivity].
  destruct (http _ _) as [|resp]; [reflexivity|].
  destruct (status_code resp =? 201); [reflexivity|].
  unfold response_json. now destruct (json_body resp).
Qed.

(** X8.  A thread deletes no file but the input of its own [process]: a
    file that exists stays when any other thread runs, whatever the
    transcoder and the endpoint answer. *)
Theorem thread_keeps_other_files self (t : task) (path : string) w :
  path ∈ fs w ->
  t <> TProcess path ->
  path ∈ fs (run_thread self t w).
Proof.
  intros Hin Ht. destruct t as [f | f]; unfold run_thread, thread_body.
  - assert (Hne : path <> f) by congruence.
    unfold process, bind, compress_video, try_except, bind, subprocess_run_check,
      os_remove, upload_video, thread_start, print, act, ret.
    destruct (starts _ _); [|cbn [fst snd]; world_simpl; exact Hin].
    destruct (returncode _ =? 0); world_simpl.
    + destruct (decide _); cbn [fst snd]; world_simpl.
      * apply elem_of_difference. split.
        -- apply elem_of_union. now right.
        -- intros ->%elem_of_singleton. contradiction.
      * apply elem_of_union. now right.
    + cbn [fst snd]. world_simpl. apply elem_of_union. now right.
  - rewrite upload_keeps_fs. exact Hin.
Qed.

(** X9.  A segment on disk whose transcoder is started, exits with zero
    and writes the compressed file, and whose upload is answered with 201: the
    [process] thread and then the upload thread it started do, in this
    order, the transcoder run, the removal of the original, the PUT of the
    compressed file and the report of success; afterwards the original is
    gone and the compressed file is still on disk. *)
Theorem segment_compressed_then_uploaded self (video_filename : string) w
    (r : response) :
  video_filename ∈ fs w ->
  starts (env w) (n_proc (cur w)) = true ->
  returncode (procs (env w) (n_proc (cur w))) = 0 ->
  compressed_name video_filename ∈ written (procs (env w) (n_proc (cur w))) ->
  http (env w) (n_http (cur w)) = PutReturns r ->
  status_code r = 201 ->
  let compressed_file := compressed_name video_filename in
  let w1 := run_thread self (TProcess video_filename) w in
  let w2 := run_thread self (TUpload compressed_file) w1 in
  threads w1 = threads w ++ [TUpload compressed_file]
  /\ log w2
     = log w ++ [SubprocessRun (ffmpeg_command video_filename compressed_file);
                 OsRemove video_filename;
                 Print (MsgCompressed compressed_file);
                 ThreadStart (TUpload compressed_file);
                 HttpPut (get_upload_url self compressed_file) (get_headers self)
                   compressed_file;
                 Print (MsgUploaded compressed_file)]
  /\ (video_filename ∉ fs w2)
  /\ compressed_file ∈ fs w2.
Proof.
  intros Hin Hrun Hrc Hwr Hhttp Hst compressed_file w1 w2.
  assert (Hw1 : w1 = emit (ThreadStart (TUpload compressed_file))
                       (snd (compress_video self video_filename w))).
  { unfold w1, run_thread, thread_body, process, bind.
    now rewrite (compress_video_returns self video_filename w Hrun Hrc Hin). }
  rewrite (compress_video_returns self video_filename w Hrun Hrc Hin) in Hw1.
  cbn [snd] in Hw1. fold compressed_file in Hw1.
  assert (Hne : compressed_file <> video_filename) by apply compressed_name_neq.
  assert (Hc1 : compressed_file ∈ fs w1).
  { rewrite Hw1. world_simpl. apply elem_of_difference. split.
    - apply elem_of_union. left. now apply elem_of_list_to_set.
    - intros ->%elem_of_singleton. contradiction. }
  assert (Hw2 : w2 = emit (Print (MsgUploaded compressed_file))
                       (set_cur (tick_http (cur w1))
                          (emit (HttpPut (get_upload_url self compressed_file)
                                   (get_headers self) compressed_file) w1))).
  { unfold w2, run_thread, thread_body, upload, try_except, bind, open_rb,
      requests_put.
    destruct (decide _) as [_ | Hn]; [|contradiction].
    replace (http (env w1) (n_http (cur w1))) with (PutReturns r)
      by (rewrite Hw1; world_simpl; now rewrite Hhttp).
    apply Z.eqb_eq in Hst. rewrite Hst. reflexivity. }
  repeat split.
  - rewrite Hw1. unfold threads. world_simpl. rewrite !omap_app. simpl.
    now rewrite !app_nil_r.
  - rewrite Hw2. world_simpl. rewrite Hw1. world_simpl.
    now rewrite <- !app_assoc.
  - rewrite Hw2. world_simpl. rewrite Hw1. world_simpl.
    apply not_elem_of_difference. right. now apply elem_of_singleton.
  - rewrite Hw2. world_simpl. exact Hc1.
Qed.

End ThreadsAndFiles.

(** * The start-up code and [Decompression.py] *)

Ltac host_simpl :=
  cbn [world host_log makedirs_fails n_makedirs camera_opens hemit fst snd].

Module OsPathMoreFacts.
Import PyStr PyStrFacts OsPath OsPathFacts OsPathMore.

(** A path without a separator has no directory part. *)
Lemma dirname_bare (p : string) : contains sep p = false -> dirname p = "".
Proof.
  intros Hp. unfold dirname, rfind. rewrite (rfind_from_absent _ _ _ _ Hp).
  cbn [Z.add Z.opp Z.pos_sub]. now rewrite slice_to_0.
Qed.

End OsPathMoreFacts.

Section HostFacts.
Context {T : Type}.
Implicit Types (h : Host T).

Lemma in_world_app (a b : list (host_event T)) :
  in_world (a ++ b) = in_world a ++ in_world b.
Proof. apply omap_app. Qed.


End HostFacts.

Section DecompressionFacts.
Context {T : Type} `{PyNum T}.
Implicit Types (h : Host T).
Import Decompression.

#[local] Arguments Z.eqb : simpl never.

Lemma decompress_missing_input_raises_aux (input_video decompressed_video
    access_token folder_id : string) h :
  input_video ∉ fs (world h) ->
  decompress_video input_video decompressed_video h
  = (HRaise (Shared (FileNotFoundError input_video)), h)
  /\ decompress_and_upload input_video decompressed_video access_token folder_id h
     = (HRaise (Shared (FileNotFoundError input_video)), h).
Proof.
  intros Hout.
  assert (Hd : decompress_video input_video decompressed_video h
               = (HRaise (Shared (FileNotFoundError input_video)), h)).
  { unfold decompress_video, check_file_exists, hbind, os_path_isfile.
    now rewrite bool_decide_eq_false_2. }
  split; [exact Hd|].
  unfold decompress_and_upload, hbind. now rewrite Hd.
Qed.

(** X10.  When the input file does not exist, [decompress_video] raises
    [FileNotFoundError] having done nothing: no directory is made, FFmpeg
    is not run.  The exception is raised outside the [try], so it leaves
    [decompress_video] and the body of [main] as well, and nothing is
    uploaded. *)
Theorem decompress_missing_input_raises (input_video decompressed_video
    access_token folder_id : string) h :
  input_video ∉ fs (world h) ->
  decompress_video input_video decompressed_video h
  = (HRaise (Shared (FileNotFoundError input_video)), h)
  /\ decompress_and_upload input_video decompressed_video access_token folder_id h
     = (HRaise (Shared (FileNotFoundError input_video)), h).
Proof. apply decompress_missing_input_raises_aux. Qed.

(** X11.  When the output path has no directory part, its directory name is
    the empty string, which [os.makedirs] cannot make: although the input
    exists, [decompress_video] raises [FileNotFoundError] after reporting
    the input found, FFmpeg is not run, and nothing is uploaded. *)
Theorem decompress_bare_output_raises (input_video decompressed_video
    access_token folder_id : string) h :
  input_video ∈ fs (world h) ->
  PyStr.contains OsPath.sep decompressed_video = false ->
  decompress_video input_video decompressed_video h
  = (HRaise (Shared (FileNotFoundError "")),
     hemit (HostPrint (MsgFileFound input_video)) h)
  /\ decompress_and_upload input_video decompressed_video access_token folder_id h
     = (HRaise (Shared (FileNotFoundError "")),
        hemit (HostPrint (MsgFileFound input_video)) h).
Proof.
  intros Hin Hbare.
  assert (Hd : decompress_video input_video decompressed_video h
               = (HRaise (Shared (FileNotFoundError "")),
                  hemit (HostPrint (MsgFileFound input_video)) h)).
  { unfold decompress_video, check_file_exists, hbind, os_path_isfile.
    rewrite bool_decide_eq_true_2 by exact Hin. cbn [negb].
    unfold hprint, hact, os_makedirs.
    now rewrite (OsPathMoreFacts.dirname_bare _ Hbare). }
  split; [exact Hd|].
  unfold decompress_and_upload, hbind. now rewrite Hd.
Qed.


(** The host after [decompress_video] ran FFmpeg: a directory was made,
    the child process ran in the world, and the log has the three messages
    around the run. *)
Lemma decompress_video_runs (input_file decompressed_file : string) h :
  input_file ∈ fs (world h) ->
  OsPathMore.dirname decompressed_file <> "" ->
  makedirs_fails h (n_makedirs h) = false ->
  let p := procs (env (world h)) (n_proc (cur (world h))) in
  let command := "ffmpeg" :: ffmpeg_args input_file decompressed_file ++ ["-y"] in
  decompress_video input_file decompressed_file h
  = (HRet (returncode p =? 0),
     {| world := set_fs (list_to_set (written p) ∪ fs (world h))
                   (set_cur (tick_proc (cur (world h)))
                      (emit (SubprocessRun command) (world h)));
        host_log := host_log h
                    ++ [HostPrint (MsgFileFound input_file);
                        MakeDirs (OsPathMore.dirname decompressed_file);
                        HostPrint (MsgDecompressing input_file decompressed_file);
                        InWorld (SubprocessRun command);
                        HostPrint (if returncode p =? 0
                                   then MsgDecompressed decompressed_file
                                   else MsgFfmpegError (FfmpegError (returncode p)))];
        makedirs_fails := makedirs_fails h;
        n_makedirs := S (n_makedirs h);
        camera_opens := camera_opens h |}).
Proof.
  intros Hin Hdir Hmk p command.
  unfold decompress_video, check_file_exists, hbind, os_path_isfile.
  rewrite bool_decide_eq_true_2 by exact Hin. cbn [negb].
  unfold hprint, hact, os_makedirs. host_simpl.
  apply String.eqb_neq in Hdir. rewrite Hdir, Hmk.
  unfold h_try_except, ffmpeg_run, hbind, lift, subprocess_popen. host_simpl.
  fold p. fold command. world_simpl. rewrite drop_app_length.
  destruct (returncode p =? 0); unfold hret, hraise, hemit; host_simpl;
    do 2 f_equal; cbn [map]; now rewrite <- !app_assoc.
Qed.


(** X13.  The body of [main] makes a PUT only after a decompression that
    succeeded: whenever a request was made, the input existed, the
    directory of the output could be made, and FFmpeg exited with zero. *)
Theorem upload_only_after_decompression (input_video decompressed_video
    access_token folder_id : string) h :
  let r := decompress_and_upload input_video decompressed_video
             access_token folder_id h in
  put_urls (in_world (host_log (snd r))) <> put_urls (in_world (host_log h)) ->
  input_video ∈ fs (world h)
  /\ OsPathMore.dirname decompressed_video <> ""
  /\ makedirs_fails h (n_makedirs h) = false
  /\ returncode (procs (env (world h)) (n_proc (cur (world h)))) = 0.
Proof.
  intros r Hput. subst r.
  destruct (decide (input_video ∈ fs (world h))) as [Hin | Hout].
  2: { exfalso. apply Hput.
       now rewrite (proj2 (decompress_missing_input_raises_aux _ _ _ _ h Hout)). }
  destruct (String.eqb (OsPathMore.dirname decompressed_video) "") eqn:Hdir.
  { exfalso. apply Hput. apply String.eqb_eq in Hdir.
    unfold decompress_and_upload, decompress_video, check_file_exists, hbind,
      os_path_isfile.
    rewrite bool_decide_eq_true_2 by exact Hin. cbn [negb].
    unfold hprint, hact, os_makedirs. rewrite Hdir. cbn [String.eqb].
    unfold hemit. host_simpl.
    rewrite in_world_app. simpl. now rewrite app_nil_r. }
  apply String.eqb_neq in Hdir.
  destruct (makedirs_fails h (n_makedirs h)) eqn:Hmk.
  { exfalso. apply Hput.
    unfold decompress_and_upload, decompress_video, check_file_exists, hbind,
      os_path_isfile.
    rewrite bool_decide_eq_true_2 by exact Hin. cbn [negb].
    unfold hprint, hact, os_makedirs. host_simpl.
    apply String.eqb_neq in Hdir. unfold hemit. host_simpl.
    rewrite Hdir, Hmk. host_simpl.
    rewrite in_world_app. simpl. now rewrite app_nil_r. }
  repeat split; try assumption.
  destruct (Z.eq_dec (returncode (procs (env (world h)) (n_proc (cur (world h))))) 0)
    as [Hrc | Hrc]; [exact Hrc|].
  exfalso. apply Hput.
  unfold decompress_and_upload, hbind.
  rewrite (decompress_video_runs input_video decompressed_video h Hin Hdir Hmk).
  apply Z.eqb_neq in Hrc. rewrite Hrc. unfold hret. host_simpl.
  rewrite in_world_app. unfold put_urls. rewrite omap_app. simpl.
  now rewrite app_nil_r.
Qed.

End DecompressionFacts.

Section DecompressionUpload.
Context {T : Type} `{PyNum T}.
Implicit Types (h : Host T) (w : World T).
Import Decompression.

#[local] Arguments Z.eqb : simpl never.


(** X18.  [upload_to_onedrive] first prints that it uploads the base name.
    When the file can be opened it then makes one PUT, to the URL of the
    folder and the base name, with the bearer token and the content type
    [application/octet-stream], and the path as data; when the file is
    missing it makes no request and prints the exception.  In either case
    it leaves every file in place. *)
Theorem upload_to_onedrive_sends_once (file_path access_token folder_id : string) w :
  let r := upload_to_onedrive file_path access_token folder_id w in
  let file_name := OsPath.basename file_path in
  (file_path ∈ fs w ->
   exists rest,
     log (snd r)
     = log w ++ Print (MsgOdUploading file_name)
             :: HttpPut (graph_url folder_id file_name)
                  [("Authorization", "Bearer " +:+ access_token);
                   ("Content-Type", "application/octet-stream")] file_path
             :: rest
     /\ put_urls rest = [])
  /\ (file_path ∉ fs w ->
      log (snd r)
      = log w ++ [Print (MsgOdUploading file_name);
                  Print (MsgOdError (FileNotFoundError file_path))]
      /\ cur (snd r) = cur w)
  /\ fs (snd r) = fs w.
Proof.
  intros r file_name. subst r.
  unfold upload_to_onedrive, try_except, bind, open_rb, requests_put, print, act.
  fold file_name. world_simpl.
  destruct (decide (file_path ∈ fs w)) as [Hin | Hout]; cbn [fst snd]; world_simpl.
  2: { repeat split; try contradiction. now rewrite <- app_assoc. }
  destruct (http _ _) as [|resp]; cbn [fst snd]; world_simpl.
  { repeat split; try contradiction. eexists.
    rewrite <- !app_assoc. repeat split. }
  destruct (_ || _); cbn [fst snd]; world_simpl.
  { repeat split; try contradiction. eexists.
    rewrite <- !app_assoc. repeat split. }
  unfold response_json. destruct (json_body resp); unfold ret, raise;
    cbn [fst snd]; world_simpl;
    (repeat split; try contradiction; eexists;
     rewrite <- !app_assoc; repeat split).
Qed.


End DecompressionUpload.

Section Construction.
Context {T : Type} `{PyNum T} `{PyLit T}.
Implicit Types (h : Host T) (w : World T).
Import VideoUploading.

(** X15.  When the output directory cannot be made (its path is empty, or
    [os.makedirs] raises), [__init__] raises that exception before the
    camera is touched: nothing is added to the log. *)
Theorem init_fails_before_camera (output_directory folder_id access_token : string)
    (segment_duration fps : T) h :
  let r := __init__ output_directory folder_id access_token segment_duration fps h in
  (output_directory = "" ->
   r = (HRaise (Shared (FileNotFoundError "")), h))
  /\ (output_directory <> "" -> makedirs_fails h (n_makedirs h) = true ->
      fst r = HRaise (OSError output_directory)
      /\ host_log (snd r) = host_log h
      /\ world (snd r) = world h).
Proof.
  intros r. subst r. unfold __init__, setup_output_directory, hbind, os_makedirs.
  split.
  - intros ->. reflexivity.
  - intros Hdir%String.eqb_neq Hmk. rewrite Hdir, Hmk. now repeat split.
Qed.

(** X16.  When the camera is not open after [cv2.VideoCapture(0)],
    [__init__] prints the error and exits: [SystemExit] leaves the
    constructor, so that a recording that was to follow never starts and
    the world of the recorder is left as it was. *)
Theorem camera_not_opened_exits (output_directory folder_id access_token : string)
    (segment_duration fps : T) (fuel : nat) h :
  output_directory <> "" ->
  makedirs_fails h (n_makedirs h) = false ->
  camera_opens h = false ->
  let r := (recorder <~ __init__ output_directory folder_id access_token
                          segment_duration fps ;;
            lift (record_continuous recorder fuel)) h in
  fst (__init__ output_directory folder_id access_token segment_duration fps h)
  = HRaise SystemExit
  /\ fst r = HRaise SystemExit
  /\ host_log (snd r)
     = host_log h ++ [MakeDirs output_directory; VideoCapture 0;
                      CapSet "CAP_PROP_FRAME_WIDTH" 640;
                      CapSet "CAP_PROP_FRAME_HEIGHT" 480;
                      HostPrint MsgCameraError]
  /\ world (snd r) = world h.
Proof.
  intros Hdir%String.eqb_neq Hmk Hcam r. subst r.
  unfold __init__, setup_output_directory, initialize_camera, hbind, os_makedirs,
    hact, hprint, hact, cap_is_opened, hret, hraise.
  rewrite Hdir, Hmk. unfold hemit. host_simpl. rewrite Hcam. cbn [negb]. host_simpl.
  repeat split. now rewrite <- !app_assoc.
Qed.

(** X17.  When the directory can be made and the camera opens, [__init__]
    makes the directory, then opens the camera and sets its frame size,
    and returns the recorder with the fields it was given; a recording that
    follows is [record_continuous] of that recorder in the world as it was,
    and what it does is added to the log after the start-up. *)
Theorem init_then_record (output_directory folder_id access_token : string)
    (segment_duration fps : T) (fuel : nat) h :
  output_directory <> "" ->
  makedirs_fails h (n_makedirs h) = false ->
  camera_opens h = true ->
  let recorder :=
    Build_VideoRecorder T output_directory folder_id access_token
      segment_duration fps in
  let started := [MakeDirs output_directory; VideoCapture 0;
                  CapSet "CAP_PROP_FRAME_WIDTH" 640;
                  CapSet "CAP_PROP_FRAME_HEIGHT" 480] in
  let i := __init__ output_directory folder_id access_token segment_duration fps h in
  let r := (recorder <~ __init__ output_directory folder_id access_token
                          segment_duration fps ;;
            lift (record_continuous recorder fuel)) h in
  fst i = HRet recorder
  /\ host_log (snd i) = host_log h ++ started
  /\ world (snd r) = snd (record_continuous recorder fuel (world h))
  /\ host_log (snd r)
     = host_log h ++ started
       ++ map InWorld (drop (length (log (world h)))
                         (log (snd (record_continuous recorder fuel (world h))))).
Proof.
  intros Hdir%String.eqb_neq Hmk Hcam recorder started i r. subst i r.
  unfold __init__, setup_output_directory, initialize_camera, hbind, os_makedirs,
    hact, hprint, hact, cap_is_opened, hret, hraise.
  rewrite Hdir, Hmk. unfold hemit. host_simpl. rewrite Hcam. cbn [negb]. host_simpl.
  fold recorder. unfold lift. host_simpl.
  destruct (record_continuous recorder fuel (world h)) as [[[]|e|] w1];
    host_simpl; repeat split; unfold started; now rewrite <- !app_assoc.
Qed.

End Construction.

(** * Witnesses of the further properties *)

Lemma record_continuous_returns_on_stop_witness :
  record_continuous ex_recorder 2 ex_world_stop
  = (Ret tt, snd (record_continuous ex_recorder 2 ex_world_stop))
  /\ exists f pre,
       log (snd (record_continuous ex_recorder 2 ex_world_stop))
       = log ex_world_stop ++ pre
           ++ [Print MsgStopping; WriterRelease f; CapRelease; DestroyAllWindows;
               WriterRelease f; Print (MsgVideoSaved f)].
Proof.
  assert (Hrun : record_continuous ex_recorder 2 ex_world_stop
                 = (Ret tt, snd (record_continuous ex_recorder 2 ex_world_stop)))
    by (vm_compute; reflexivity).
  split; [exact Hrun|].
  exact (record_continuous_returns_on_stop ex_recorder 2 ex_world_stop _ Hrun).
Defined.

Lemma ex_clock_leaves_time (k : nat) :
  nlt (clock (env ex_world_dead_camera) (S k))
      (nadd (clock (env ex_world_dead_camera) k) (segment_duration ex_recorder))
  = true.
Proof.
  cbn [nlt nadd Q_PyNum clock env ex_world_dead_camera ex_env segment_duration
       ex_recorder].
  apply negb_true_iff. apply not_true_iff_false. intros Hle.
  apply Qle_bool_iff in Hle. unfold Qle, Qplus in Hle. cbn [Qnum Qden] in Hle.
  lia.
Defined.

Lemma dead_camera_never_returns_witness :
  nrecip (fps ex_recorder) = Some (1 / 20)%Q
  /\ (forall k, fst (cam (env ex_world_dead_camera) k) = false)
  /\ (forall fuel, fst (record_continuous ex_recorder fuel ex_world_dead_camera)
                   = OutOfFuel)
  /\ threads (snd (record_continuous ex_recorder 3 ex_world_dead_camera))
     = [TProcess ex_segment; TProcess ex_segment].
Proof.
  assert (Hfi : nrecip (fps ex_recorder) = Some (1 / 20)%Q) by reflexivity.
  assert (Hcam : forall k, fst (cam (env ex_world_dead_camera) k) = false)
    by (intros k; reflexivity).
  split; [exact Hfi|]. split; [exact Hcam|].
  destruct (dead_camera_never_returns ex_recorder (1 / 20)%Q ex_world_dead_camera
              Hfi Hcam ex_clock_leaves_time) as [Hout Hrun].
  split; [exact Hout|].
  exact (proj2 (Hrun 2%nat)).
Defined.

Lemma zero_fps_raises_before_try_witness :
  nrecip (fps ex_recorder_zero_fps) = None
  /\ fst (record_continuous ex_recorder_zero_fps 5 ex_world_stop)
     = Raise ZeroDivisionError.
Proof.
  assert (Hfps : nrecip (fps ex_recorder_zero_fps) = None) by reflexivity.
  split; [exact Hfps|].
  destruct (zero_fps_raises_before_try ex_recorder_zero_fps 4 ex_world_stop Hfps)
    as [Hr _].
  exact Hr.
Defined.

Lemma compress_missing_input_raises_witness :
  starts (env ex_world_stop) (n_proc (cur ex_world_stop)) = true
  /\ returncode (procs (env ex_world_stop) (n_proc (cur ex_world_stop))) = 0
  /\ (ex_segment ∉ written (procs (env ex_world_stop) (n_proc (cur ex_world_stop))))
  /\ (ex_segment ∉ fs ex_world_stop)
  /\ threads (run_thread ex_recorder (TProcess ex_segment) ex_world_stop) = [].
Proof.
  assert (Hrc : returncode (procs (env ex_world_stop) (n_proc (cur ex_world_stop))) = 0)
    by reflexivity.
  assert (Hwr : ex_segment ∉ written (procs (env ex_world_stop)
                                        (n_proc (cur ex_world_stop)))).
  { intros Hin. apply elem_of_cons in Hin as [Hin | Hin]; [discriminate|].
    now apply elem_of_nil in Hin. }
  assert (Hfs : ex_segment ∉ fs ex_world_stop) by apply not_elem_of_empty.
  split; [reflexivity|]. split; [exact Hrc|]. split; [exact Hwr|]. split; [exact Hfs|].
  destruct (compress_missing_input_raises ex_recorder ex_segment ex_world_stop
              eq_refl Hrc Hwr Hfs) as (_ & _ & _ & Ht).
  exact Ht.
Defined.

Lemma ex_time_in_range : localtime_range ex_time.
Proof. unfold localtime_range, ex_time. simpl. lia. Defined.

Lemma segment_names_differ_by_second_witness :
  localtime_range (wall (env ex_world_stop) (n_wall (cur ex_world_stop)))
  /\ (fst (generate_filename ex_recorder ex_world_stop)
      = fst (generate_filename ex_recorder ex_world_read_fails)
      <-> wall (env ex_world_stop) (n_wall (cur ex_world_stop))
          = wall (env ex_world_read_fails) (n_wall (cur ex_world_read_fails))).
Proof.
  split; [exact ex_time_in_range|].
  exact (segment_names_differ_by_second ex_recorder ex_world_stop ex_world_read_fails
           ex_time_in_range ex_time_in_range).
Defined.

Lemma thread_keeps_other_files_witness :
  ex_segment ∈ fs (ex_world_segment 0)
  /\ TProcess ex_compressed <> TProcess ex_segment
  /\ ex_segment ∈ fs (run_thread ex_recorder (TProcess ex_compressed)
                        (ex_world_segment 0)).
Proof.
  assert (Hin : ex_segment ∈ fs (ex_world_segment 0))
    by (apply elem_of_singleton; reflexivity).
  assert (Hne : TProcess ex_compressed <> TProcess ex_segment) by discriminate.
  split; [exact Hin|]. split; [exact Hne|].
  exact (thread_keeps_other_files ex_recorder (TProcess ex_compressed) ex_segment
           (ex_world_segment 0) Hin Hne).
Defined.

Lemma segment_compressed_then_uploaded_witness :
  ex_segment ∈ fs (ex_world_segment 0)
  /\ (ex_segment ∉ fs (run_thread ex_recorder (TUpload ex_compressed)
                         (run_thread ex_recorder (TProcess ex_segment)
                            (ex_world_segment 0))))
  /\ ex_compressed ∈ fs (run_thread ex_recorder (TUpload ex_compressed)
                           (run_thread ex_recorder (TProcess ex_segment)
                              (ex_world_segment 0))).
Proof.
  assert (Hin : ex_segment ∈ fs (ex_world_segment 0))
    by (apply elem_of_singleton; reflexivity).
  assert (Hwr : compressed_name ex_segment
                ∈ written (procs (env (ex_world_segment 0))
                             (n_proc (cur (ex_world_segment 0)))))
    by (apply elem_of_cons; left; reflexivity).
  split; [exact Hin|].
  destruct (segment_compressed_then_uploaded ex_recorder ex_segment
              (ex_world_segment 0) {| status_code := 201; json_body := Some "{}" |}
              Hin eq_refl eq_refl Hwr eq_refl eq_refl) as (_ & _ & Hgone & Hthere).
  split; [exact Hgone | exact Hthere].
Defined.

Lemma decompress_missing_input_raises_witness :
  (ex_segment ∉ fs (world (ex_host ex_world_stop false true)))
  /\ fst (Decompression.decompress_and_upload ex_segment ex_compressed "TOKEN" "FOLDER"
            (ex_host ex_world_stop false true))
     = HRaise (Shared (FileNotFoundError ex_segment)).
Proof.
  assert (Hout : ex_segment ∉ fs (world (ex_host ex_world_stop false true)))
    by apply not_elem_of_empty.
  split; [exact Hout|].
  destruct (decompress_missing_input_raises ex_segment ex_compressed "TOKEN" "FOLDER"
              (ex_host ex_world_stop false true) Hout) as [_ Hr].
  now rewrite Hr.
Defined.

Lemma decompress_bare_output_raises_witness :
  ex_segment ∈ fs (world (ex_host (ex_world_segment 0) false true))
  /\ PyStr.contains OsPath.sep "clear.mp4" = false
  /\ fst (Decompression.decompress_video ex_segment "clear.mp4"
            (ex_host (ex_world_segment 0) false true))
     = HRaise (Shared (FileNotFoundError "")).
Proof.
  assert (Hin : ex_segment ∈ fs (world (ex_host (ex_world_segment 0) false true)))
    by (apply elem_of_singleton; reflexivity).
  assert (Hbare : PyStr.contains OsPath.sep "clear.mp4" = false) by reflexivity.
  split; [exact Hin|]. split; [exact Hbare|].
  destruct (decompress_bare_output_raises ex_segment "clear.mp4" "TOKEN" "FOLDER"
              (ex_host (ex_world_segment 0) false true) Hin Hbare) as [Hr _].
  now rewrite Hr.
Defined.



Lemma upload_only_after_decompression_witness :
  put_urls (in_world (host_log (snd (Decompression.decompress_and_upload
                                       ex_segment ex_compressed "TOKEN" "FOLDER"
                                       (ex_host (ex_world_segment 0) false true)))))
  <> put_urls (in_world (host_log (ex_host (ex_world_segment 0) false true)))
  /\ returncode (procs (env (ex_world_segment 0)) (n_proc (cur (ex_world_segment 0))))
     = 0.
Proof.
  assert (Hput :
    put_urls (in_world (host_log (snd (Decompression.decompress_and_upload
                                         ex_segment ex_compressed "TOKEN" "FOLDER"
                                         (ex_host (ex_world_segment 0) false true)))))
    <> put_urls (in_world (host_log (ex_host (ex_world_segment 0) false true))))
    by (vm_compute; discriminate).
  split; [exact Hput|].
  destruct (upload_only_after_decompression ex_segment ex_compressed "TOKEN" "FOLDER"
              (ex_host (ex_world_segment 0) false true) Hput) as (_ & _ & _ & Hrc).
  exact Hrc.
Defined.


Lemma ex_out_dir : "out" <> "".
Proof. discriminate. Defined.

Lemma camera_not_opened_exits_witness :
  camera_opens (ex_host ex_world_stop false false) = false
  /\ fst (VideoUploading.__init__ "out" "FOLDER" "TOKEN" 300%Q 20%Q
            (ex_host ex_world_stop false false))
     = HRaise SystemExit.
Proof.
  split; [reflexivity|].
  destruct (camera_not_opened_exits "out" "FOLDER" "TOKEN" 300%Q 20%Q 2
              (ex_host ex_world_stop false false) ex_out_dir eq_refl eq_refl)
    as [Hr _].
  exact Hr.
Defined.

Lemma init_then_record_witness :
  camera_opens (ex_host ex_world_stop false true) = true
  /\ fst (VideoUploading.__init__ "out" "FOLDER" "TOKEN" 300%Q 20%Q
            (ex_host ex_world_stop false true))
     = HRet ex_recorder.
Proof.
  split; [reflexivity|].
  destruct (init_then_record "out" "FOLDER" "TOKEN" 300%Q 20%Q 2
              (ex_host ex_world_stop false true) ex_out_dir eq_refl eq_refl)
    as [Hr _].
  exact Hr.
Defined.
